(** * print_ai_test: the two scraping pipelines

    A shallow embedding of [scrape_books.py] and [scrape_hn.py].

    The network, the browser, the file system and the interpreter's own
    [time.sleep], [str.split] and [int] are outside the program: they are
    given as an environment of oracles (what each call answers, as a value
    or as a raised exception), and every call the program makes is
    recorded, in order, in a trace of events.  Python's exceptions, [break],
    [continue], [for ... else] and [try ... except ... finally] are modelled
    by a small state-and-exception monad and a loop combinator. *)

From Stdlib Require Import ZArith List String Ascii Bool Lia Floats.
From Stdlib Require Import Decimal DecimalString.
From Stdlib Require DecimalPos DecimalFacts.
Import ListNotations.

Open Scope string_scope.
Open Scope Z_scope.

(** ** Python runtime *)

(** The exception classes the two scripts can meet, as far as their [except]
    clauses tell them apart.  Every class here derives from [Exception]. *)
Inductive exn : Type :=
| ReqConnectionError      (* requests.exceptions.ConnectionError *)
| ReqOtherError           (* any other requests.exceptions.RequestException *)
| AttributeError
| IndexError
| KeyError
| TypeError
| ValueError
| OSError                 (* IOError raised by the file system *)
| NoSuchElementException  (* selenium *)
| TimeoutException        (* selenium *)
| WebDriverOtherError     (* any other selenium WebDriverException *)
| OtherException.

(** [isinstance] tests, one per class named in an [except] clause. *)
Definition is_ReqConnectionError (e : exn) : bool :=
  match e with ReqConnectionError => true | _ => false end.

Definition is_RequestException (e : exn) : bool :=
  match e with ReqConnectionError | ReqOtherError => true | _ => false end.

Definition is_AttributeError (e : exn) : bool :=
  match e with AttributeError => true | _ => false end.

Definition is_ValueError (e : exn) : bool :=
  match e with ValueError => true | _ => false end.

Definition is_IndexError (e : exn) : bool :=
  match e with IndexError => true | _ => false end.

(** [requests.exceptions.RequestException] derives from [IOError]. *)
Definition is_IOError (e : exn) : bool :=
  match e with OSError | ReqConnectionError | ReqOtherError => true | _ => false end.

Definition is_NoSuchElementException (e : exn) : bool :=
  match e with NoSuchElementException => true | _ => false end.

Definition is_TimeoutException (e : exn) : bool :=
  match e with TimeoutException => true | _ => false end.

(** [NoSuchElementException] and [TimeoutException] derive from
    [WebDriverException]. *)
Definition is_WebDriverException (e : exn) : bool :=
  match e with
  | NoSuchElementException | TimeoutException | WebDriverOtherError => true
  | _ => false
  end.

Definition is_Exception (e : exn) : bool := true.

(** The outcome of evaluating a Python expression or statement. *)
Inductive result (A : Type) : Type :=
| Ok (a : A)
| Raise (e : exn).
Arguments Ok {A} a.
Arguments Raise {A} e.

Definition is_ok {A} (r : result A) : bool :=
  match r with Ok _ => true | Raise _ => false end.

(** ** Observable events *)

Inductive level : Type := DEBUG | INFO | WARNING | ERROR.

Inductive get_site : Type :=
| PageFetch       (* scrape_books.py, line 32 *)
| CategoryFetch.  (* scrape_books.py, line 55 *)

Inductive event : Type :=
| EvGet (site : get_site) (url : string)   (* requests.get *)
| EvSleep (seconds : Z)                    (* time.sleep *)
| EvLog (lv : level) (msg : string)        (* logging.<lv>, the text before the first placeholder *)
| EvOpenWrite (path : string)              (* open(path, "w", encoding="utf-8") *)
| EvStartDriver                            (* webdriver.Chrome(...) *)
| EvNavigate (url : string)                (* driver.get *)
| EvFindRows                               (* driver.find_elements(By.CSS_SELECTOR, "tr.athing") *)
| EvQuit.                                  (* driver.quit *)

Definition is_sleep (ev : event) : bool :=
  match ev with EvSleep _ => true | _ => false end.

Definition is_get (ev : event) : bool :=
  match ev with EvGet _ _ => true | _ => false end.

Definition is_page_get (ev : event) : bool :=
  match ev with EvGet PageFetch _ => true | _ => false end.

Definition is_quit (ev : event) : bool :=
  match ev with EvQuit => true | _ => false end.

Definition is_log (lv : level) (ev : event) : bool :=
  match ev, lv with
  | EvLog DEBUG _, DEBUG | EvLog INFO _, INFO
  | EvLog WARNING _, WARNING | EvLog ERROR _, ERROR => true
  | _, _ => false
  end.

Definition count_events (p : event -> bool) (tr : list event) : nat :=
  List.length (filter p tr).

(** ** The state-and-exception monad

    A computation reads and updates a state and either yields a value or
    raises.  A raised exception keeps the state reached so far: Python does
    not undo the mutations made inside a [try] block. *)
Definition M (St A : Type) : Type := St -> result A * St.

Definition ret {St A} (a : A) : M St A := fun s => (Ok a, s).

Definition bind {St A B} (m : M St A) (f : A -> M St B) : M St B :=
  fun s =>
    match m s with
    | (Ok a, s') => f a s'
    | (Raise e, s') => (Raise e, s')
    end.

Definition raise {St A} (e : exn) : M St A := fun s => (Raise e, s).

(** Evaluating an expression whose outcome the environment has fixed. *)
Definition eval {St A} (r : result A) : M St A := fun s => (r, s).

Definition gets {St A} (f : St -> A) : M St A := fun s => (Ok (f s), s).

Definition modify {St} (f : St -> St) : M St unit := fun s => (Ok tt, f s).

(** [try: body except <classes>: handler except ...]: the first clause
    whose classes match handles the exception; one raised by a handler is not
    offered to the clauses below it. *)
Fixpoint dispatch {St A} (clauses : list ((exn -> bool) * (exn -> M St A)))
    (e : exn) : M St A :=
  match clauses with
  | [] => raise e
  | (catches, handler) :: rest => if catches e then handler e else dispatch rest e
  end.

Definition try_except {St A} (body : M St A)
    (clauses : list ((exn -> bool) * (exn -> M St A))) : M St A :=
  fun s =>
    match body s with
    | (Ok a, s') => (Ok a, s')
    | (Raise e, s') => dispatch clauses e s'
    end.

(** [try: body finally: cleanup]: the cleanup runs however the body ends,
    and the body's outcome stands unless the cleanup itself raises. *)
Definition try_finally {St A} (body : M St A) (cleanup : M St unit) : M St A :=
  fun s =>
    match body s with
    | (r, s') =>
        match cleanup s' with
        | (Ok _, s'') => (r, s'')
        | (Raise e, s'') => (Raise e, s'')
        end
    end.

Declare Scope monad_scope.
Delimit Scope monad_scope with monad.
Notation "x <- m ;; k" := (bind m (fun x => k))
  (at level 61, m at next level, right associativity) : monad_scope.
Notation "m ;; k" := (bind m (fun _ => k))
  (at level 61, right associativity) : monad_scope.
Open Scope monad_scope.

(** One turn of a Python loop body either falls through to the next turn
    (also what [continue] does) or leaves the loop with [break]. *)
Inductive ctl (B : Type) : Type :=
| Next
| Break (b : B).
Arguments Next {B}.
Arguments Break {B} b.

(** [for x in xs: body ... else: ...].  [Some b] when the loop was left by
    [break]; [None] when it ran to the end, which is when Python runs the
    [else] clause. *)
Fixpoint for_in {St A B} (xs : list A) (body : A -> M St (ctl B)) : M St (option B) :=
  match xs with
  | [] => ret None
  | x :: xs' =>
      c <- body x ;;
      match c with
      | Next => for_in xs' body
      | Break b => ret (Some b)
      end
  end.

(** [range(n)]: empty when [n <= 0]. *)
Definition py_range (n : Z) : list Z := map Z.of_nat (seq 0 (Z.to_nat n)).

(** [str(n)] of an [int]. *)
Definition py_str_int (n : Z) : string := NilZero.string_of_int (Z.to_int n).

Definition is_digit (c : ascii) : bool :=
  let n := nat_of_ascii c in ((48 <=? n) && (n <=? 57))%nat.

Definition digit_value (c : ascii) : Z := Z.of_nat (nat_of_ascii c - 48).

(** The digits of a decimal literal, where [int] allows one underscore
    between two digits. *)
Fixpoint digits_value (s : string) (acc : Z) (after_digit : bool) : option Z :=
  match s with
  | EmptyString => if after_digit then Some acc else None
  | String c s' =>
      if is_digit c then digits_value s' (10 * acc + digit_value c) true
      else if Ascii.eqb c "_" then
        if after_digit then digits_value s' acc false else None
      else None
  end.

(** [parse_int(integer)] of json.scanner, which is [int], on the text the
    number pattern has matched: ASCII digits after an optional sign;
    [ValueError] otherwise.  The limit that the interpreter puts on the
    number of digits, in [int(text)] as in [str(n)], is not modelled. *)
Definition parse_int (word : string) : result Z :=
  let signed :=
    match word with
    | String "+" s' => digits_value s' 0 false
    | String "-" s' => option_map Z.opp (digits_value s' 0 false)
    | _ => digits_value word 0 false
    end in
  match signed with
  | Some n => Ok n
  | None => Raise ValueError
  end.

(** [words[0]]. *)
Definition first_item (words : list string) : result string :=
  match words with
  | w :: _ => Ok w
  | [] => Raise IndexError
  end.

(** ** The file system *)

(** What a file holds for a program that opens it with
    [encoding="utf-8"]: a text, or something that cannot be read as one
    (bytes that are not UTF-8, a directory, a file without permission). *)
Inductive content : Type :=
| Text (text : string)
| Unreadable.

(** A path that is not there holds nothing. *)
Definition files : Type := string -> option content.

Definition write_file (fs : files) (path text : string) : files :=
  fun p => if String.eqb p path then Some (Text text) else fs p.

(** What [with open(path, "w", encoding="utf-8") as f: json.dump(data, f, ...)]
    meets: it goes through; or [open] raises before the file is touched; or
    the file is opened, which empties it, and the write raises after
    [written] characters reached it. *)
Inductive write_outcome : Type :=
| WriteOk
| OpenRaises (e : exn)
| DumpRaises (e : exn) (written : nat).

(** ** [json.dump(data, f, ensure_ascii=False, indent=4)]

    Python values as far as the two scripts build them and [json.load] can
    give them back.  A [str] is held as the bytes of its UTF-8 encoding, which
    is what the file, opened with [encoding="utf-8"], receives. *)
#[warnings="-register-all"]
Inductive pyval : Type :=
| PyNone
| PyBool (b : bool)
| PyInt (n : Z)
| PyFloat (x : float)
| PyStr (s : string)
| PyList (items : list pyval)
| PyDict (entries : list (string * pyval)).

Definition dquote : ascii := "034"%char.
Definition backslash : ascii := "092"%char.
Definition newline : ascii := "010"%char.

Definition str1 (c : ascii) : string := String c EmptyString.

Definition hex_digit (n : nat) : ascii :=
  match n with
  | 0%nat => "0" | 1%nat => "1" | 2%nat => "2" | 3%nat => "3"
  | 4%nat => "4" | 5%nat => "5" | 6%nat => "6" | 7%nat => "7"
  | 8%nat => "8" | 9%nat => "9" | 10%nat => "a" | 11%nat => "b"
  | 12%nat => "c" | 13%nat => "d" | 14%nat => "e" | _ => "f"
  end%char.

(** [ESCAPE_DCT] of json.encoder: the two-character escapes, and
    [\u00xx] for the remaining characters below 0x20.  With
    [ensure_ascii=False] every other character is written as it is. *)
Definition escape_char (c : ascii) : string :=
  let n := nat_of_ascii c in
  if (n =? 34)%nat then String backslash (str1 dquote)
  else if (n =? 92)%nat then String backslash (str1 backslash)
  else if (n =? 10)%nat then String backslash "n"
  else if (n =? 13)%nat then String backslash "r"
  else if (n =? 9)%nat then String backslash "t"
  else if (n =? 8)%nat then String backslash "b"
  else if (n =? 12)%nat then String backslash "f"
  else if (n <? 32)%nat then
    String backslash ("u00" ++ String (hex_digit (n / 16)) (str1 (hex_digit (n mod 16))))
  else str1 c.

Fixpoint escape_string (s : string) : string :=
  match s with
  | EmptyString => EmptyString
  | String c s' => escape_char c ++ escape_string s'
  end.

(** [py_encode_basestring]. *)
Definition encode_basestring (s : string) : string :=
  String dquote (escape_string s ++ str1 dquote).

Fixpoint spaces (n : nat) : string :=
  match n with
  | O => EmptyString
  | S n' => String " " (spaces n')
  end.

(** ["\n" + " " * (4 * level)]. *)
Definition newline_indent (lvl : nat) : string := String newline (spaces (4 * lvl)).

Section Encoder.

(** [float.__repr__] on a finite float. *)
Variable float_repr : float -> string.

(** [floatstr] of json.encoder, with the default [allow_nan=True]. *)
Definition floatstr (x : float) : string :=
  if PrimFloat.is_nan x then "NaN"
  else if PrimFloat.eqb x PrimFloat.infinity then "Infinity"
  else if PrimFloat.eqb x PrimFloat.neg_infinity then "-Infinity"
  else float_repr x.

(** [_iterencode] with [indent=4] and the separators that go with it:
    [","] and the new line between items, [": "] after a key. *)
Fixpoint iterencode (lvl : nat) (v : pyval) : string :=
  match v with
  | PyNone => "null"
  | PyBool true => "true"
  | PyBool false => "false"
  | PyInt n => py_str_int n
  | PyFloat x => floatstr x
  | PyStr s => encode_basestring s
  | PyList [] => "[]"
  | PyList items =>
      "[" ++ newline_indent (S lvl)
      ++ String.concat ("," ++ newline_indent (S lvl)) (map (iterencode (S lvl)) items)
      ++ newline_indent lvl ++ "]"
  | PyDict [] => "{}"
  | PyDict entries =>
      "{" ++ newline_indent (S lvl)
      ++ String.concat ("," ++ newline_indent (S lvl))
           (map (fun kv => encode_basestring (fst kv) ++ ": " ++ iterencode (S lvl) (snd kv))
                entries)
      ++ newline_indent lvl ++ "}"
  end.

Definition json_dump (v : pyval) : string := iterencode 0 v.

End Encoder.

(** ** [json.load(f)]

    The decoder of the json package, as json/decoder.py and json/scanner.py
    have it, on the text read from the file.  A position in the text is held
    as the text that is left from there on.  Reading a file opened in text
    mode turns every carriage return into a new line; that changes nothing
    for the decoder, which takes both for white space between values and
    refuses both inside a string, so it is left out. *)

(** [WHITESPACE_STR]: space, tab, new line, carriage return. *)
Definition is_json_ws (c : ascii) : bool :=
  let n := nat_of_ascii c in
  ((n =? 32) || (n =? 9) || (n =? 10) || (n =? 13))%nat.

(** [WHITESPACE.match(s, end).end()]. *)
Fixpoint skip_ws (s : string) : string :=
  match s with
  | EmptyString => EmptyString
  | String c s' => if is_json_ws c then skip_ws s' else s
  end.

(** [s[idx:idx + len(p)] == p], giving the text after [p]. *)
Fixpoint strip_prefix (p s : string) : option string :=
  match p with
  | EmptyString => Some s
  | String a p' =>
      match s with
      | EmptyString => None
      | String b s' => if Ascii.eqb a b then strip_prefix p' s' else None
      end
  end.

Definition is_empty (s : string) : bool :=
  match s with EmptyString => true | String _ _ => false end.

(** One hexadecimal digit of a [\uXXXX] escape. *)
Definition hex_value (c : ascii) : option N :=
  let n := N_of_ascii c in
  if ((48 <=? n) && (n <=? 57))%N then Some (n - 48)%N
  else if ((97 <=? n) && (n <=? 102))%N then Some (n - 87)%N
  else if ((65 <=? n) && (n <=? 70))%N then Some (n - 55)%N
  else None.

(** [_decode_uXXXX]: [None] where it raises. *)
Definition decode_uXXXX (h1 h2 h3 h4 : ascii) : option N :=
  match hex_value h1, hex_value h2, hex_value h3, hex_value h4 with
  | Some a, Some b, Some c, Some d => Some (((a * 16 + b) * 16 + c) * 16 + d)%N
  | _, _, _, _ => None
  end.

(** [chr(n)], as the bytes of its UTF-8 encoding (a lone surrogate in the
    three bytes that the general scheme gives it). *)
Definition utf8_chr (n : N) : string :=
  (if n <? 128 then str1 (ascii_of_N n)
   else if n <? 2048 then
     String (ascii_of_N (192 + n / 64)) (str1 (ascii_of_N (128 + n mod 64)))
   else if n <? 65536 then
     String (ascii_of_N (224 + n / 4096))
       (String (ascii_of_N (128 + (n / 64) mod 64)) (str1 (ascii_of_N (128 + n mod 64))))
   else
     String (ascii_of_N (240 + n / 262144))
       (String (ascii_of_N (128 + (n / 4096) mod 64))
          (String (ascii_of_N (128 + (n / 64) mod 64)) (str1 (ascii_of_N (128 + n mod 64))))))%N.

(** [BACKSLASH]: the character a two-character escape stands for. *)
Definition unescape (c : ascii) : option ascii :=
  if Ascii.eqb c dquote then Some dquote
  else if Ascii.eqb c backslash then Some backslash
  else if Ascii.eqb c "/" then Some "/"%char
  else if Ascii.eqb c "b" then Some "008"%char
  else if Ascii.eqb c "f" then Some "012"%char
  else if Ascii.eqb c "n" then Some "010"%char
  else if Ascii.eqb c "r" then Some "013"%char
  else if Ascii.eqb c "t" then Some "009"%char
  else None.

Definition prepend (pre : string) (r : result (string * string)) : result (string * string) :=
  match r with
  | Ok (str, rest) => Ok (pre ++ str, rest)
  | Raise e => Raise e
  end.

(** [py_scanstring(s, end, strict=True)], from the character after the
    opening quote: the string and the text after its closing quote.
    [JSONDecodeError] is a [ValueError]. *)
Fixpoint scanstring (s : string) : result (string * string) :=
  match s with
  | EmptyString => Raise ValueError
  | String c s1 =>
      if Ascii.eqb c dquote then Ok (EmptyString, s1)
      else if Ascii.eqb c backslash then
        match s1 with
        | EmptyString => Raise ValueError
        | String esc s2 =>
            if Ascii.eqb esc "u" then
              match s2 with
              | String h1 (String h2 (String h3 (String h4 s3))) =>
                  match decode_uXXXX h1 h2 h3 h4 with
                  | None => Raise ValueError
                  | Some uni =>
                      if ((55296 <=? uni) && (uni <=? 56319))%N then
                        match s3 with
                        | String b (String u (String g1 (String g2 (String g3 (String g4 s4))))) =>
                            if Ascii.eqb b backslash && Ascii.eqb u "u" then
                              match decode_uXXXX g1 g2 g3 g4 with
                              | None => Raise ValueError
                              | Some uni2 =>
                                  if ((56320 <=? uni2) && (uni2 <=? 57343))%N then
                                    prepend
                                      (utf8_chr (65536 + N.lor (N.shiftl (uni - 55296) 10)
                                                               (uni2 - 56320))%N)
                                      (scanstring s4)
                                  else prepend (utf8_chr uni) (scanstring s3)
                              end
                            else prepend (utf8_chr uni) (scanstring s3)
                        | _ => prepend (utf8_chr uni) (scanstring s3)
                        end
                      else prepend (utf8_chr uni) (scanstring s3)
                  end
              | _ => Raise ValueError
              end
            else
              match unescape esc with
              | Some ch => prepend (str1 ch) (scanstring s2)
              | None => Raise ValueError
              end
        end
      else if (nat_of_ascii c <? 32)%nat then Raise ValueError
      else prepend (str1 c) (scanstring s1)
  end.

(** The longest run of decimal digits at the head of [s], and the rest. *)
Fixpoint span_digits (s : string) : string * string :=
  match s with
  | EmptyString => (EmptyString, EmptyString)
  | String c s' =>
      if is_digit c then
        let (ds, rest) := span_digits s' in (String c ds, rest)
      else (EmptyString, s)
  end.

(** [0|[1-9][0-9]*]. *)
Definition match_digits (s : string) : option (string * string) :=
  match s with
  | EmptyString => None
  | String c s' =>
      if Ascii.eqb c "0" then Some (str1 c, s')
      else if is_digit c then
        let (ds, rest) := span_digits s' in Some (String c ds, rest)
      else None
  end.

(** [(\.[0-9]+)?]: the empty text when the group takes no part. *)
Definition match_frac (s : string) : string * string :=
  match s with
  | String c s' =>
      if Ascii.eqb c "." then
        match span_digits s' with
        | (EmptyString, _) => (EmptyString, s)
        | (ds, rest) => (String c ds, rest)
        end
      else (EmptyString, s)
  | EmptyString => (EmptyString, s)
  end.

(** [([eE][-+]?[0-9]+)?]. *)
Definition match_exp (s : string) : string * string :=
  match s with
  | String c s' =>
      if Ascii.eqb c "e" || Ascii.eqb c "E" then
        let (sign, s'') :=
          match s' with
          | String g t => if Ascii.eqb g "-" || Ascii.eqb g "+" then (str1 g, t)
                          else (EmptyString, s')
          | EmptyString => (EmptyString, s')
          end in
        match span_digits s'' with
        | (EmptyString, _) => (EmptyString, s)
        | (ds, rest) => (String c (sign ++ ds), rest)
        end
      else (EmptyString, s)
  | EmptyString => (EmptyString, s)
  end.

(** [NUMBER_RE.match(s, idx)]: the groups [integer], [frac], [exp] and the
    text after the match. *)
Definition match_number (s : string) : option (string * string * string * string) :=
  let signed :=
    match s with
    | String c s' =>
        if Ascii.eqb c "-" then
          match match_digits s' with
          | Some (ds, rest) => Some (String c ds, rest)
          | None => None
          end
        else match_digits s
    | EmptyString => None
    end in
  match signed with
  | None => None
  | Some (integer, rest) =>
      let (frac, rest1) := match_frac rest in
      let (exp, rest2) := match_exp rest1 in
      Some (integer, frac, exp, rest2)
  end.

(** What [dict(pairs)] keeps: a key met again takes the new value and
    stays where it was. *)
Fixpoint dict_set (k : string) (v : pyval) (d : list (string * pyval))
    : list (string * pyval) :=
  match d with
  | [] => [(k, v)]
  | (k', v') :: d' =>
      if String.eqb k' k then (k', v) :: d' else (k', v') :: dict_set k v d'
  end.

Definition dict_of_pairs (pairs : list (string * pyval)) : list (string * pyval) :=
  fold_left (fun d kv => dict_set (fst kv) (snd kv) d) pairs [].

(** The byte order mark, which [json.loads] refuses at the head of a text. *)
Definition bom : string := String "239" (String "187" (String "191" EmptyString)).

Section Decoder.

(** [float(text)] on the text of a JSON number. *)
Variable py_float : string -> float.

(** [_scan_once] on anything but a string, an object or an array. *)
Definition scan_atom (s : string) : result (pyval * string) :=
  match strip_prefix "null" s with
  | Some rest => Ok (PyNone, rest)
  | None =>
  match strip_prefix "true" s with
  | Some rest => Ok (PyBool true, rest)
  | None =>
  match strip_prefix "false" s with
  | Some rest => Ok (PyBool false, rest)
  | None =>
  match match_number s with
  | Some (integer, frac, exp, rest) =>
      if is_empty frac && is_empty exp then
        match parse_int integer with
        | Ok n => Ok (PyInt n, rest)
        | Raise e => Raise e
        end
      else Ok (PyFloat (py_float (integer ++ frac ++ exp)), rest)
  | None =>
  match strip_prefix "NaN" s with
  | Some rest => Ok (PyFloat nan, rest)
  | None =>
  match strip_prefix "Infinity" s with
  | Some rest => Ok (PyFloat infinity, rest)
  | None =>
  match strip_prefix "-Infinity" s with
  | Some rest => Ok (PyFloat neg_infinity, rest)
  | None => Raise ValueError
  end end end end end end end.

(** [JSONArray], from the character after the bracket; [items] is its
    loop. *)
Definition parse_array (items : string -> result (list pyval * string)) (s : string)
    : result (pyval * string) :=
  match skip_ws s with
  | EmptyString => Raise ValueError
  | String c rest as s1 =>
      if Ascii.eqb c "]" then Ok (PyList [], rest)
      else
        match items s1 with
        | Ok (vs, rest') => Ok (PyList vs, rest')
        | Raise e => Raise e
        end
  end.

(** [JSONObject], from the character after the brace; [pairs] is its
    loop, entered after the quote that opens a key. *)
Definition parse_object (pairs : string -> result (list (string * pyval) * string))
    (s : string) : result (pyval * string) :=
  match skip_ws s with
  | EmptyString => Raise ValueError
  | String c rest =>
      if Ascii.eqb c "}" then Ok (PyDict [], rest)
      else if Ascii.eqb c dquote then
        match pairs rest with
        | Ok (kvs, rest') => Ok (PyDict (dict_of_pairs kvs), rest')
        | Raise e => Raise e
        end
      else Raise ValueError
  end.

(** [_scan_once] and the two loops.  Every value met and every turn of a
    loop takes one unit of [fuel]; the depth at which the interpreter gives
    up is not modelled. *)
Fixpoint scan_once (fuel : nat) (s : string) {struct fuel} : result (pyval * string) :=
  match fuel with
  | O => Raise OtherException
  | S fuel' =>
      match s with
      | EmptyString => Raise ValueError
      | String c s' =>
          if Ascii.eqb c dquote then
            match scanstring s' with
            | Ok (str, rest) => Ok (PyStr str, rest)
            | Raise e => Raise e
            end
          else if Ascii.eqb c "{" then parse_object (object_pairs fuel') s'
          else if Ascii.eqb c "[" then parse_array (array_items fuel') s'
          else scan_atom s
      end
  end

with array_items (fuel : nat) (s : string) {struct fuel} : result (list pyval * string) :=
  match fuel with
  | O => Raise OtherException
  | S fuel' =>
      match scan_once fuel' s with
      | Raise e => Raise e
      | Ok (v, rest) =>
          match skip_ws rest with
          | EmptyString => Raise ValueError
          | String c rest' =>
              if Ascii.eqb c "]" then Ok ([v], rest')
              else if Ascii.eqb c "," then
                match array_items fuel' (skip_ws rest') with
                | Ok (vs, rest'') => Ok (v :: vs, rest'')
                | Raise e => Raise e
                end
              else Raise ValueError
          end
      end
  end

with object_pairs (fuel : nat) (s : string) {struct fuel}
    : result (list (string * pyval) * string) :=
  match fuel with
  | O => Raise OtherException
  | S fuel' =>
      match scanstring s with
      | Raise e => Raise e
      | Ok (key, rest) =>
          match skip_ws rest with
          | EmptyString => Raise ValueError
          | String c rest1 =>
              if Ascii.eqb c ":" then
                match scan_once fuel' (skip_ws rest1) with
                | Raise e => Raise e
                | Ok (v, rest2) =>
                    match skip_ws rest2 with
                    | EmptyString => Raise ValueError
                    | String d rest3 =>
                        if Ascii.eqb d "}" then Ok ([(key, v)], rest3)
                        else if Ascii.eqb d "," then
                          match skip_ws rest3 with
                          | EmptyString => Raise ValueError
                          | String q rest4 =>
                              if Ascii.eqb q dquote then
                                match object_pairs fuel' rest4 with
                                | Ok (kvs, rest5) => Ok ((key, v) :: kvs, rest5)
                                | Raise e => Raise e
                                end
                              else Raise ValueError
                          end
                        else Raise ValueError
                    end
                end
              else Raise ValueError
          end
      end
  end.

(** [json.loads(text)]: one value, with nothing but white space around
    it. *)
Definition json_loads (text : string) : result pyval :=
  match strip_prefix bom text with
  | Some _ => Raise ValueError
  | None =>
      match scan_once (S (String.length text)) (skip_ws text) with
      | Raise e => Raise e
      | Ok (v, rest) =>
          match skip_ws rest with
          | EmptyString => Ok v
          | String _ _ => Raise ValueError
          end
      end
  end.

End Decoder.

(** ** scrape_books.py *)
Module ScrapeBooks.

(** One [article.product_pod] of a catalogue page, as the statements of
    lines 42 to 50 read it: each field is what the expression yields, or
    the exception it raises (a missing tag, a missing attribute, a text
    that [float] refuses). *)
Record product_pod : Type := {
  pod_title : result string;    (* book.h3.a["title"] *)
  pod_price : result float;     (* float(book.find("p", class_="price_color").text.strip().replace("£", "")) *)
  pod_img_src : result string;  (* book.img["src"] *)
  pod_href : result string      (* book.h3.a["href"] *)
}.

(** An HTTP response, as the two parses of its body read it. *)
Record response : Type := {
  status_code : Z;
  products : list product_pod;        (* soup.find_all("article", class_="product_pod") *)
  breadcrumb : option (list string)   (* find("ul", class_="breadcrumb"), then the stripped text of each of its "a" *)
}.

(** The world outside the function.  [requests_get n url] is what the
    [n]-th call of [requests.get] answers when it asks for [url]. *)
Record env : Type := {
  requests_get : nat -> string -> result response;
  time_sleep : Z -> result unit;     (* time.sleep(seconds): it returns, or raises as for a negative delay *)
  open_write : write_outcome;
  float_repr : float -> string
}.

(** A collected item: the dictionary of lines 83 to 88.  [Categoria] holds
    the value of the variable [category], which is [None] until a category
    fetch assigns it. *)
Record book : Type := {
  Titulo : string;
  Precio : float;
  Categoria : option string;
  URL_de_la_imagen : string
}.

Definition book_dict (b : book) : pyval :=
  PyDict [ ("Título", PyStr (Titulo b));
           ("Precio", PyFloat (Precio b));
           ("Categoría", match Categoria b with Some c => PyStr c | None => PyNone end);
           ("URL de la imagen", PyStr (URL_de_la_imagen b)) ].

Record state : Type := {
  clock : nat;                  (* calls of requests.get made so far *)
  trace : list event;
  fs : files;
  books_scraped : Z;
  page_num : Z;
  all_books_data : list book
}.

Definition st_emit (ev : event) (s : state) : state :=
  {| clock := clock s; trace := trace s ++ [ev]; fs := fs s;
     books_scraped := books_scraped s; page_num := page_num s;
     all_books_data := all_books_data s |}.

Definition st_tick (s : state) : state :=
  {| clock := S (clock s); trace := trace s; fs := fs s;
     books_scraped := books_scraped s; page_num := page_num s;
     all_books_data := all_books_data s |}.

Definition st_append (b : book) (s : state) : state :=
  {| clock := clock s; trace := trace s; fs := fs s;
     books_scraped := books_scraped s; page_num := page_num s;
     all_books_data := all_books_data s ++ [b] |}.

Definition st_count (s : state) : state :=
  {| clock := clock s; trace := trace s; fs := fs s;
     books_scraped := books_scraped s + 1; page_num := page_num s;
     all_books_data := all_books_data s |}.

Definition st_next_page (s : state) : state :=
  {| clock := clock s; trace := trace s; fs := fs s;
     books_scraped := books_scraped s; page_num := page_num s + 1;
     all_books_data := all_books_data s |}.

Definition st_files (f : files) (s : state) : state :=
  {| clock := clock s; trace := trace s; fs := f;
     books_scraped := books_scraped s; page_num := page_num s;
     all_books_data := all_books_data s |}.

Definition emit (ev : event) : M state unit := modify (st_emit ev).

Definition log (lv : level) (msg : string) : M state unit := emit (EvLog lv msg).

Definition base_url : string := "https://books.toscrape.com/catalogue/".

Definition output_file : string := "books.json".

(** [f"{base_url}page-{page_num}.html"]. *)
Definition page_url (n : Z) : string :=
  base_url ++ "page-" ++ py_str_int n ++ ".html".

(** [book_soup.find("ul", class_="breadcrumb").find_all("a")[2].text.strip()]. *)
Definition find_category (r : response) : result string :=
  match breadcrumb r with
  | None => Raise AttributeError
  | Some anchors =>
      match nth_error anchors 2 with
      | Some text => Ok text
      | None => Raise IndexError
      end
  end.

Section Run.

Variable E : env.
Variables (num_books : Z) (price_limit : float) (max_retries retry_delay : Z).

(** [requests.get(url, headers=headers)]. *)
Definition http_get (site : get_site) (url : string) : M state response :=
  fun s => (requests_get E (clock s) url, st_tick (st_emit (EvGet site url) s)).

(** [time.sleep(seconds)]: the delay is recorded when the call
    returns; what it raises, no clause of the function is written
    for. *)
Definition sleep (seconds : Z) : M state unit :=
  eval (time_sleep E seconds) ;;
  emit (EvSleep seconds).

(** Lines 54 to 74: one turn of [for cat_attempt in range(max_retries)];
    [break] carries the value assigned to [category]. *)
Definition category_attempt (book_url : string) (cat_attempt : Z)
    : M state (ctl string) :=
  try_except
    (book_response <- http_get CategoryFetch book_url ;;
     category <- eval (find_category book_response) ;;
     ret (Break category))
    [ (fun e => is_ReqConnectionError e || is_AttributeError e,
       fun e =>
         log WARNING "Intento " ;;
         sleep retry_delay ;;
         ret Next) ].

(** Lines 52 to 74: [None] when the [else] clause of the loop is due. *)
Definition fetch_category (book_url : string) : M state (option string) :=
  for_in (py_range max_retries) (category_attempt book_url).

(** Lines 42 to 93: one turn of [for book in books]. *)
Definition process_book (b : product_pod) : M state (ctl unit) :=
  title <- eval (pod_title b) ;;
  price <- eval (pod_price b) ;;
  if PrimFloat.ltb price price_limit then
    src <- eval (pod_img_src b) ;;
    let image_url := base_url ++ src in
    href <- eval (pod_href b) ;;
    let book_url := base_url ++ href in
    category <- fetch_category book_url ;;
    match category with
    | None =>
        log ERROR "No se pudo obtener la categoría después de " ;;
        ret Next
    | Some c =>
        modify (st_append {| Titulo := title; Precio := price;
                             Categoria := Some c;
                             URL_de_la_imagen := image_url |}) ;;
        modify st_count ;;
        n <- gets books_scraped ;;
        if n >=? num_books then ret (Break tt) else ret Next
    end
  else ret Next.

(** Lines 32 to 102: the body of the [try] of one page attempt.  Every
    path through a page answered with 200 ends in a [break] of the
    attempt loop (lines 39, 96 and 98). *)
Definition read_page (url : string) : M state (ctl unit) :=
  response <- http_get PageFetch url ;;
  if status_code response =? 200 then
    match products response with
    | [] =>
        log INFO "No se encontraron más libros en la página." ;;
        ret (Break tt)
    | books =>
        for_in books process_book ;;
        ret (Break tt)
    end
  else
    log WARNING "Error al acceder a la página " ;;
    ret Next.

(** Lines 31 to 111: one turn of [for attempt in range(max_retries)]. *)
Definition page_attempt (url : string) (attempt : Z) : M state (ctl unit) :=
  c <- try_except (read_page url)
         [ (is_RequestException,
            fun e =>
              log ERROR "Error de solicitud al acceder a " ;;
              ret Next) ] ;;
  match c with
  | Break _ => ret (Break tt)
  | Next => sleep retry_delay ;; ret Next
  end.

(** Lines 27 to 118: the [while] loop.  It need not end, so it runs on
    fuel, one unit a page; [None] is out of fuel. *)
Fixpoint pagination (fuel : nat) (s : state) : option (result unit * state) :=
  if books_scraped s <? num_books then
    match fuel with
    | O => None
    | S fuel' =>
        let url := page_url (page_num s) in
        match for_in (py_range max_retries) (page_attempt url) s with
        | (Raise e, s') => Some (Raise e, s')
        | (Ok None, s') => Some (log ERROR "No se pudo acceder a la página " s')
        | (Ok (Some _), s') => pagination fuel' (st_next_page s')
        end
    end
  else Some (Ok tt, s).

(** [with open(path, "w", encoding="utf-8") as jsonfile:
    json.dump(..., jsonfile, ensure_ascii=False, indent=4)], where
    [content] is the text that [json.dump] produces. *)
Definition dump_to_file (path : string) (content : string) : M state unit :=
  emit (EvOpenWrite path) ;;
  files_now <- gets fs ;;
  match open_write E with
  | WriteOk => modify (st_files (write_file files_now path content))
  | OpenRaises e => raise e
  | DumpRaises e written =>
      modify (st_files (write_file files_now path (substring 0 written content))) ;;
      raise e
  end.

Definition books_json (data : list book) : string :=
  json_dump (float_repr E) (PyList (map book_dict data)).

(** Lines 120 to 129. *)
Definition persist : M state unit :=
  data <- gets all_books_data ;;
  try_except
    (dump_to_file output_file (books_json data) ;;
     log INFO "Se extrajeron ")
    [ (is_IOError,
       fun e => log ERROR "Error al escribir en el archivo JSON ") ].

Definition initial (files0 : files) : state :=
  {| clock := 0; trace := []; fs := files0;
     books_scraped := 0; page_num := 1; all_books_data := [] |}.

(** [scrape_books(num_books, price_limit, max_retries, retry_delay)],
    started on the file system [files0].  The function returns [None]. *)
Definition scrape_books (fuel : nat) (files0 : files) : option (result unit * state) :=
  match pagination fuel (initial files0) with
  | None => None
  | Some (Raise e, s) => Some (Raise e, s)
  | Some (Ok _, s) => Some (persist s)
  end.

End Run.

End ScrapeBooks.

(** ** scrape_hn.py *)
Module ScrapeHN.

Definition MAX_RETRIES : Z := 3.
Definition RETRY_DELAY : Z := 2.

(** The elements of the rendered page, as the lookups of lines 146 to 159
    read them: each is what the call yields or the exception it raises. *)
Record anchor : Type := {
  a_text : result string;            (* title_element.text *)
  a_href : result (option string)    (* title_element.get_attribute("href") *)
}.

Record score_span : Type := {
  span_text : result string          (* score_element.text *)
}.

Record subtext_row : Type := {
  find_score : result score_span     (* subtext_row.find_element(By.CSS_SELECTOR, "span.score") *)
}.

Record row : Type := {
  find_titleline : result anchor;    (* row.find_element(By.CSS_SELECTOR, "td.title > span.titleline > a") *)
  find_sibling : result subtext_row  (* row.find_element(By.XPATH, "./following-sibling::tr") *)
}.

(** The world outside the function; the browser oracles are asked with the
    attempt number of the retry loop that calls them. *)
Record env : Type := {
  start_driver : Z -> result unit;          (* lines 54 and 55 *)
  driver_get : Z -> result unit;            (* driver.get(hn_url) *)
  current_url : Z -> result string;         (* driver.current_url *)
  find_elements : Z -> result (list row);
  py_split : string -> list string;         (* text.split() *)
  py_int : string -> result Z;              (* int(text) *)
  open_write : write_outcome;
  float_repr : float -> string
}.

(** A collected item: the dictionary of line 169. *)
Record headline : Type := {
  title : string;
  score : Z;
  url : option string
}.

Definition headline_dict (h : headline) : pyval :=
  PyDict [ ("title", PyStr (title h));
           ("score", PyInt (score h));
           ("url", match url h with Some u => PyStr u | None => PyNone end) ].

Record state : Type := {
  trace : list event;
  fs : files;
  driver : option unit;         (* None, or the session *)
  rows : list row;
  news_items : list headline
}.

Definition st_emit (ev : event) (s : state) : state :=
  {| trace := trace s ++ [ev]; fs := fs s; driver := driver s;
     rows := rows s; news_items := news_items s |}.

Definition st_driver (d : option unit) (s : state) : state :=
  {| trace := trace s; fs := fs s; driver := d;
     rows := rows s; news_items := news_items s |}.

Definition st_rows (l : list row) (s : state) : state :=
  {| trace := trace s; fs := fs s; driver := driver s;
     rows := l; news_items := news_items s |}.

Definition st_items (l : list headline) (s : state) : state :=
  {| trace := trace s; fs := fs s; driver := driver s;
     rows := rows s; news_items := l |}.

Definition st_append (h : headline) (s : state) : state :=
  {| trace := trace s; fs := fs s; driver := driver s;
     rows := rows s; news_items := news_items s ++ [h] |}.

Definition st_files (f : files) (s : state) : state :=
  {| trace := trace s; fs := f; driver := driver s;
     rows := rows s; news_items := news_items s |}.

Definition emit (ev : event) : M state unit := modify (st_emit ev).

Definition log (lv : level) (msg : string) : M state unit := emit (EvLog lv msg).

(** [time.sleep(RETRY_DELAY)]: the script sleeps for its constant delay
    only. *)
Definition sleep (seconds : Z) : M state unit := emit (EvSleep seconds).

Definition hn_url : string := "https://news.ycombinator.com/".

(** How a retry loop of this script is left before its turns are used
    up: by [break], or by [return v] out of the function. *)
Inductive leave : Type :=
| Broke
| Returned (v : list headline).

Section Run.

Variable E : env.

(** [if driver: driver.quit()].  The variable still holds the session
    after [quit]. *)
Definition quit_if_driver : M state unit :=
  d <- gets driver ;;
  match d with
  | Some _ => emit EvQuit
  | None => ret tt
  end.

(** Lines 49 to 68: one turn of the loop that starts the browser. *)
Definition start_attempt (attempt : Z) : M state (ctl leave) :=
  try_except
    (log INFO "Intento " ;;
     emit EvStartDriver ;;
     eval (start_driver E attempt) ;;
     modify (st_driver (Some tt)) ;;
     log INFO "WebDriver iniciado correctamente." ;;
     ret (Break Broke))
    [ (is_WebDriverException,
       fun e =>
         log WARNING "Error al iniciar WebDriver (Intento " ;;
         if attempt <? MAX_RETRIES - 1 then
           sleep RETRY_DELAY ;; ret Next
         else
           log ERROR "No se pudo iniciar WebDriver después de varios intentos." ;;
           ret (Break (Returned []))) ].

(** Lines 77 to 99: one turn of the navigation loop. *)
Definition navigate_attempt (attempt : Z) : M state (ctl leave) :=
  try_except
    (log INFO "Intento " ;;
     emit (EvNavigate hn_url) ;;
     eval (driver_get E attempt) ;;
     eval (current_url E attempt) ;;
     log INFO "Navegación a " ;;
     sleep RETRY_DELAY ;;
     ret (Break Broke))
    [ (fun e => is_WebDriverException e || is_TimeoutException e,
       fun e =>
         log WARNING "Error al navegar a " ;;
         if attempt <? MAX_RETRIES - 1 then
           sleep RETRY_DELAY ;; ret Next
         else
           log ERROR "No se pudo cargar la página " ;;
           quit_if_driver ;;
           ret (Break (Returned []))) ].

(** Lines 105 to 130: one turn of the loop that locates the rows. *)
Definition find_attempt (attempt : Z) : M state (ctl leave) :=
  try_except
    (log INFO "Intento " ;;
     emit EvFindRows ;;
     found <- eval (find_elements E attempt) ;;
     modify (st_rows found) ;;
     match found with
     | [] =>
         log WARNING "No se encontraron elementos de noticias, reintentando..." ;;
         sleep RETRY_DELAY ;;
         ret Next
     | _ =>
         log INFO "Encontrados " ;;
         ret (Break Broke)
     end)
    [ (is_NoSuchElementException,
       fun e =>
         log WARNING "No se encontraron elementos 'tr.athing' (Intento " ;;
         if attempt <? MAX_RETRIES - 1 then
           sleep RETRY_DELAY ;; ret Next
         else
           log ERROR "No se pudieron encontrar elementos de noticias después de varios intentos." ;;
           quit_if_driver ;;
           ret (Break (Returned []))) ].

(** Lines 154 to 167: the score of a row; the variable keeps its
    initial [0] when the inner [try] ends in one of its two handlers. *)
Definition extract_score (subtext : subtext_row) : M state Z :=
  let score := 0 in
  try_except
    (score_element <- eval (find_score subtext) ;;
     text <- eval (span_text score_element) ;;
     score_text <- eval (first_item (py_split E text)) ;;
     eval (py_int E score_text))
    [ (is_NoSuchElementException,
       fun e => log DEBUG "No se encontró puntuación para el item " ;; ret score);
      (fun e => is_ValueError e || is_IndexError e,
       fun e => log WARNING "Error al parsear la puntuación para el item " ;; ret score) ].

(** Lines 141 to 181: one turn of [for i, row in enumerate(rows)].
    The defaults of lines 141 and 142 are read by the log messages of
    the handlers only; line 169 is reached after both names were
    assigned from the anchor. *)
Definition extract_row (r : row) : M state (ctl unit) :=
  try_except
    (title_element <- eval (find_titleline r) ;;
     title <- eval (a_text title_element) ;;
     url <- eval (a_href title_element) ;;
     subtext <- eval (find_sibling r) ;;
     score <- extract_score subtext ;;
     modify (st_append {| title := title; score := score; url := url |}) ;;
     log INFO "Procesado item ")
    [ (is_NoSuchElementException,
       fun e => log WARNING "Error al procesar el item ");
      (is_Exception,
       fun e => log ERROR "Error inesperado al procesar el item ") ] ;;
  ret Next.

(** The file write, as in [scrape_books.py]. *)
Definition dump_to_file (path : string) (content : string) : M state unit :=
  emit (EvOpenWrite path) ;;
  files_now <- gets fs ;;
  match open_write E with
  | WriteOk => modify (st_files (write_file files_now path content))
  | OpenRaises e => raise e
  | DumpRaises e written =>
      modify (st_files (write_file files_now path (substring 0 written content))) ;;
      raise e
  end.

Definition news_json (items : list headline) : string :=
  json_dump (float_repr E) (PyList (map headline_dict items)).

(** Lines 184 to 193. *)
Definition save (output_file : string) : M state (list headline) :=
  items <- gets news_items ;;
  try_except
    (dump_to_file output_file (news_json items) ;;
     log INFO "Scraping completado. " ;;
     ret items)
    [ (is_IOError,
       fun e =>
         log ERROR "Error al escribir en el archivo JSON " ;;
         ret items) ].

(** Lines 74 to 181: [Some v] when the function returns [v] before it
    reaches the file write. *)
Definition locate_and_extract : M state (option (list headline)) :=
  nav <- for_in (py_range MAX_RETRIES) navigate_attempt ;;
  match nav with
  | Some (Returned v) => ret (Some v)
  | _ =>
      modify (st_items []) ;;
      modify (st_rows []) ;;
      found <- for_in (py_range MAX_RETRIES) find_attempt ;;
      match found with
      | Some (Returned v) => ret (Some v)
      | _ =>
          located <- gets rows ;;
          match located with
          | [] =>
              log WARNING "No se procesaron noticias porque no se encontraron elementos." ;;
              quit_if_driver ;;
              ret (Some [])
          | _ =>
              for_in located extract_row ;;
              ret None
          end
      end
  end.

(** Lines 74 to 193: the body of the outer [try]. *)
Definition scrape (output_file : string) : M state (list headline) :=
  early <- locate_and_extract ;;
  match early with
  | Some v => ret v
  | None => save output_file
  end.

(** Lines 47 to 71: [Some v] when the function returns [v] here. *)
Definition acquire : M state (option (list headline)) :=
  modify (st_driver None) ;;
  started <- for_in (py_range MAX_RETRIES) start_attempt ;;
  match started with
  | Some (Returned v) => ret (Some v)
  | _ =>
      d <- gets driver ;;
      match d with
      | None => ret (Some [])
      | Some _ => ret None
      end
  end.

(** Lines 200 to 204. *)
Definition release : M state unit :=
  d <- gets driver ;;
  match d with
  | Some _ => emit EvQuit ;; log INFO "WebDriver cerrado."
  | None => ret tt
  end.

Definition initial (files0 : files) : state :=
  {| trace := []; fs := files0; driver := None; rows := []; news_items := [] |}.

(** [scrape_hacker_news(output_file)], started on the file system
    [files0]. *)
Definition scrape_hacker_news (output_file : string) (files0 : files)
    : result (list headline) * state :=
  (log INFO "Iniciando el scraping de Hacker News..." ;;
   early <- acquire ;;
   match early with
   | Some v => ret v
   | None =>
       try_finally
         (try_except (scrape output_file)
            [ (is_Exception,
               fun e =>
                 log ERROR "Ocurrió un error general durante el scraping: " ;;
                 ret []) ])
         release
   end) (initial files0).

End Run.

End ScrapeHN.

(** ** main.py *)
Module Main.

Definition BOOKS_FILE : string := "books.json".

(** What an endpoint holds while it runs: the log records it has made and
    the list of validated items it is building. *)
Record api_state (V : Type) : Type := {
  api_trace : list event;
  validated : list V
}.
Arguments api_trace {V} _.
Arguments validated {V} _.

Definition api_emit {V} (ev : event) (s : api_state V) : api_state V :=
  {| api_trace := api_trace s ++ [ev]; validated := validated s |}.

Definition api_events {V} (evs : list event) (s : api_state V) : api_state V :=
  {| api_trace := api_trace s ++ evs; validated := validated s |}.

Definition api_append {V} (x : V) (s : api_state V) : api_state V :=
  {| api_trace := api_trace s; validated := validated s ++ [x] |}.

Definition api_log {V} (lv : level) (msg : string) : M (api_state V) unit :=
  modify (api_emit (EvLog lv msg)).

Definition api_initial {V} : api_state V := {| api_trace := []; validated := [] |}.

(** How an endpoint ends: with the value it returns, or with the
    [HTTPException] it raises. *)
Inductive reply (A : Type) : Type :=
| Replied (a : A)
| HTTPException (status_code : Z).
Arguments Replied {A} a.
Arguments HTTPException {A} status_code.

(** [bool(value)] of a value read from JSON. *)
Definition py_truthy (v : pyval) : bool :=
  match v with
  | PyNone => false
  | PyBool b => b
  | PyInt n => negb (n =? 0)
  | PyFloat x => negb (PrimFloat.eqb x 0%float)
  | PyStr s => negb (is_empty s)
  | PyList items => match items with [] => false | _ :: _ => true end
  | PyDict entries => match entries with [] => false | _ :: _ => true end
  end.

Fixpoint dict_get (key : string) (d : list (string * pyval)) : option pyval :=
  match d with
  | [] => None
  | (k, v) :: d' => if String.eqb k key then Some v else dict_get key d'
  end.

(** [value.get(key, default)]: only a dictionary has the method. *)
Definition py_get (value : pyval) (key : string) (default : pyval) : result pyval :=
  match value with
  | PyDict d =>
      match dict_get key d with
      | Some v => Ok v
      | None => Ok default
      end
  | _ => Raise AttributeError
  end.

(** [value[key]] with a [str] key. *)
Definition py_getitem (value : pyval) (key : string) : result pyval :=
  match value with
  | PyDict d =>
      match dict_get key d with
      | Some v => Ok v
      | None => Raise KeyError
      end
  | _ => Raise TypeError
  end.

(** [needle in hay] on two [str]. *)
Fixpoint str_in (needle hay : string) : bool :=
  match strip_prefix needle hay with
  | Some _ => true
  | None =>
      match hay with
      | EmptyString => false
      | String _ hay' => str_in needle hay'
      end
  end.

(** [[x for x in xs if cond(x)]], where the condition may raise. *)
Fixpoint comprehension {A} (cond : A -> result bool) (xs : list A) : result (list A) :=
  match xs with
  | [] => Ok []
  | x :: xs' =>
      match cond x with
      | Raise e => Raise e
      | Ok keep =>
          match comprehension cond xs' with
          | Raise e => Raise e
          | Ok rest => Ok (if keep then x :: rest else rest)
          end
      end
  end.

(** A model called on the unpacked [value]: the call needs a mapping, and the model's
    constructor validates the keyword arguments. *)
Definition construct {V} (model : list (string * pyval) -> result V) (value : pyval)
    : result V :=
  match value with
  | PyDict d => model d
  | _ => Raise TypeError
  end.

(** One turn of a validation loop (lines 123 to 129, 136 to 142, 197 to 202
    and 229 to 235): the item is appended, or the failure is logged. *)
Definition validate_one {V} (model : list (string * pyval) -> result V)
    (warning : string) (value : pyval) : M (api_state V) (ctl unit) :=
  try_except
    (x <- eval (construct model value) ;;
     modify (api_append x))
    [ (is_Exception, fun e => api_log WARNING warning) ] ;;
  ret Next.

Section Run.

(** [float(text)], as the decoder calls it. *)
Variable py_float : string -> float.

(** [load_books_from_json], lines 50 to 72: the list it returns and what it
    logs.  A file that is not there makes [open] raise
    [FileNotFoundError]; one that cannot be read as a text makes [open] or
    [json.load] raise an exception of another class, a UnicodeDecodeError
    for one, which the last clause takes; a text that is not JSON makes
    [json.load] raise [JSONDecodeError]; a value that is not a list is
    refused. *)
Definition load_books_from_json (fs : files) : list pyval * list event :=
  match fs BOOKS_FILE with
  | None => ([], [EvLog WARNING "El archivo "])
  | Some Unreadable => ([], [EvLog ERROR "Error inesperado al leer "])
  | Some (Text text) =>
      match json_loads py_float text with
      | Ok (PyList books_data) => (books_data, [])
      | Ok _ => ([], [EvLog ERROR "El archivo "])
      | Raise e =>
          if is_ValueError e then ([], [EvLog ERROR "Error al decodificar JSON en "])
          else ([], [EvLog ERROR "Error inesperado al leer "])
      end
  end.

(** What the endpoints ask of the libraries: [str.strip] and [str.lower],
    and the constructors of the pydantic models [Book] (lines 25 to 30) and
    [Headline] (lines 33 to 36) on the keyword arguments they are given,
    which yield an instance or raise a validation error. *)
Variable str_strip : string -> string.
Variable str_lower : string -> string.
Variable BookT : Type.
Variable Book : list (string * pyval) -> result BookT.
Variable HeadlineT : Type.
Variable Headline : list (string * pyval) -> result HeadlineT.

(** The call of [load_books_from_json] from an endpoint. *)
Definition load {V} (fs : files) : M (api_state V) (list pyval) :=
  fun s =>
    (Ok (fst (load_books_from_json fs)),
     api_events (snd (load_books_from_json fs)) s).

(** [value.strip().lower()]: only a [str] has the method. *)
Definition strip_lower (value : pyval) : result string :=
  match value with
  | PyStr s => Ok (str_lower (str_strip s))
  | _ => Raise AttributeError
  end.

(** Lines 114 and 115: the condition of the comprehension. *)
Definition in_category (category_lower : string) (book : pyval) : result bool :=
  match py_get book "Categoría" PyNone with
  | Raise e => Raise e
  | Ok c =>
      if py_truthy c then
        match py_getitem book "Categoría" with
        | Raise e => Raise e
        | Ok v =>
            match strip_lower v with
            | Raise e => Raise e
            | Ok text => Ok (String.eqb text category_lower)
            end
        end
      else Ok false
  end.

(** [get_books(category)], lines 93 to 143, on the file system [fs]. *)
Definition get_books (fs : files) (category : option string)
    : result (list BookT) * api_state BookT :=
  (api_log INFO "Recibida solicitud GET /books. Categoría de filtro: " ;;
   books_data <- load fs ;;
   match books_data with
   | [] => ret []
   | _ :: _ =>
       match category with
       | Some (String _ _ as text) =>
           let category_lower := str_lower (str_strip text) in
           filtered_books <- eval (comprehension (in_category category_lower) books_data) ;;
           api_log INFO "Filtrando por categoría '" ;;
           for_in filtered_books
             (validate_one Book "Libro inválido encontrado y omitido: ") ;;
           gets validated
       | _ =>
           api_log INFO "Devolviendo todos los " ;;
           for_in books_data
             (validate_one Book "Libro inválido encontrado y omitido: ") ;;
           gets validated
       end
   end) api_initial.

(** Lines 171 to 202: one turn of [for book in books_data]. *)
Definition search_turn (query_lower search_in : string) (book : pyval)
    : M (api_state BookT) (ctl unit) :=
  title <- eval (py_get book "Título" (PyStr "")) ;;
  category <- eval (py_get book "Categoría" (PyStr "")) ;;
  let title := match title with PyStr s => s | _ => "" end in
  let category := match category with PyStr s => s | _ => "" end in
  let title_lower := str_lower (str_strip title) in
  let category_lower := str_lower (str_strip category) in
  let found :=
    if String.eqb search_in "title" || String.eqb search_in "all"
    then str_in query_lower title_lower else false in
  let found :=
    if negb found && (String.eqb search_in "category" || String.eqb search_in "all")
    then str_in query_lower category_lower else found in
  if found then
    validate_one Book "Libro inválido encontrado durante la búsqueda y omitido: " book
  else ret Next.

(** [search_books(query, search_in)], lines 147 to 207. *)
Definition search_books (fs : files) (query search_in : string)
    : result (list BookT) * api_state BookT :=
  (api_log INFO "Recibida solicitud GET /books/search. Query: '" ;;
   books_data <- load fs ;;
   match books_data with
   | [] => ret []
   | _ :: _ =>
       let query_lower := str_lower (str_strip query) in
       for_in books_data (search_turn query_lower search_in) ;;
       api_log INFO "Búsqueda por '" ;;
       gets validated
   end) api_initial.

(** [get_hacker_news_headlines()], lines 211 to 243, with the browser and
    the file system of [scrape_hacker_news]: the reply, the log records,
    those of the scraper among them, and the file system it leaves. *)
Definition get_hacker_news_headlines (E : ScrapeHN.env) (files0 : files)
    : reply (list HeadlineT) * api_state HeadlineT * files :=
  let run := ScrapeHN.scrape_hacker_news E "hacker_news.json" files0 in
  let s1 :=
    api_events (ScrapeHN.trace (snd run))
      (api_emit
         (EvLog INFO "Recibida solicitud GET /headlines. Ejecutando scrape_hacker_news.")
         api_initial) in
  let body : M (api_state HeadlineT) (list HeadlineT) :=
    headlines_data <- eval (fst run) ;;
    match headlines_data with
    | [] =>
        api_log WARNING "scrape_hacker_news no devolvió titulares." ;;
        ret []
    | _ :: _ =>
        api_log INFO "scrape_hacker_news completado. Obtenidos " ;;
        for_in (map ScrapeHN.headline_dict headlines_data)
          (validate_one Headline "Titular inválido encontrado y omitido: ") ;;
        gets validated
    end in
  match body s1 with
  | (Ok headlines, s2) => (Replied headlines, s2, ScrapeHN.fs (snd run))
  | (Raise e, s2) =>
      (HTTPException 500,
       api_emit (EvLog ERROR "Error inesperado al ejecutar scrape_hacker_news: ") s2,
       ScrapeHN.fs (snd run))
  end.

End Run.

Arguments search_turn str_strip str_lower {BookT} Book query_lower search_in book.
Arguments get_books py_float str_strip str_lower {BookT} Book fs category.
Arguments search_books py_float str_strip str_lower {BookT} Book fs query search_in.
Arguments get_hacker_news_headlines {HeadlineT} Headline E files0.

End Main.


(** * Specification vocabulary *)

Definition no_files : files := fun _ => None.

(** ** Statements about computations *)

Section Triples.

Context {St : Type}.

(** [hoare P m Q]: started in a state of [P], the computation [m] ends
    with an outcome and a state related by [Q]. *)
Definition hoare {A} (P : St -> Prop) (m : M St A) (Q : result A -> St -> Prop) : Prop :=
  forall s, P s -> Q (fst (m s)) (snd (m s)).

(** [m] keeps the state property [Inv], however it ends. *)
Definition preserves {A} (Inv : St -> Prop) (m : M St A) : Prop :=
  hoare Inv m (fun _ s => Inv s).

(** [m] raises nothing outside the classes of [C]. *)
Definition raises_only {A} (C : exn -> bool) (m : M St A) : Prop :=
  forall s, match fst (m s) with Ok _ => True | Raise e => C e = true end.

End Triples.

(** ** What is written and what is read back *)

(** A character that can carry a JSON number on. *)
Definition is_number_char (c : ascii) : bool :=
  is_digit c || Ascii.eqb c "." || Ascii.eqb c "e" || Ascii.eqb c "E"
  || Ascii.eqb c "+" || Ascii.eqb c "-".

(** A text before which a number ends where its own text ends. *)
Definition number_stops (rest : string) : Prop :=
  match rest with
  | EmptyString => True
  | String c _ => is_number_char c = false
  end.

(** The whole of [s] is one JSON number with a fraction or an exponent. *)
Definition json_float_literal (s : string) : bool :=
  match match_number s with
  | Some (_, frac, exp, EmptyString) => negb (is_empty frac && is_empty exp)
  | _ => false
  end.

Section ReadBack.

(** [float.__repr__] and [float(text)]. *)
Variable float_repr : float -> string.
Variable py_float : string -> float.

(** [floatstr] prints [x] with [float.__repr__]. *)
Definition repr_is_printed (x : float) : bool :=
  negb (PrimFloat.is_nan x) && negb (PrimFloat.eqb x infinity)
  && negb (PrimFloat.eqb x neg_infinity).

(** The text [float.__repr__] gives for [x] is a JSON number with a fraction
    or an exponent, and [float] reads [x] back from it. *)
Definition reads_back (x : float) : Prop :=
  repr_is_printed x = true ->
  json_float_literal (float_repr x) = true /\ py_float (float_repr x) = x.

(** The values [json.load] gives back as they were written: every float
    reads back and no dictionary holds a key twice. *)
#[warnings="-register-all"]
Inductive readable : pyval -> Prop :=
| readable_none : readable PyNone
| readable_bool b : readable (PyBool b)
| readable_int n : readable (PyInt n)
| readable_float x : reads_back x -> readable (PyFloat x)
| readable_str s : readable (PyStr s)
| readable_list items : Forall readable items -> readable (PyList items)
| readable_dict entries :
    NoDup (map fst entries) ->
    Forall (fun kv => readable (snd kv)) entries ->
    readable (PyDict entries).

End ReadBack.

(** One [key: value] of a dictionary, as [_iterencode_dict] writes it. *)
Definition encode_entry (float_repr : float -> string) (lvl : nat)
    (kv : string * pyval) : string :=
  encode_basestring (fst kv) ++ ": " ++ iterencode float_repr lvl (snd kv).

(** A character a JSON value starts with. *)
Definition is_value_head (c : ascii) : bool :=
  is_digit c || Ascii.eqb c "-" || Ascii.eqb c dquote || Ascii.eqb c "{"
  || Ascii.eqb c "[" || Ascii.eqb c "n" || Ascii.eqb c "t" || Ascii.eqb c "f"
  || Ascii.eqb c "N" || Ascii.eqb c "I".

Definition starts_value (s : string) : Prop :=
  exists c t, s = String c t /\ is_value_head c = true.

(** A text that no digit carries on. *)
Definition stops_digits (rest : string) : Prop :=
  match rest with
  | EmptyString => True
  | String c _ => is_digit c = false
  end.

(** The character a number starts with. *)
Definition is_number_head (c : ascii) : bool := is_digit c || Ascii.eqb c "-".

(** ** scrape_hn.py: sample pages and what a run should keep *)
Module HNSpec.
Import ScrapeHN.

(** Sample oracles: [str.split] on a text whose words are set apart by
    single or repeated spaces, and [int] on a word of ASCII digits. *)
Fixpoint split_spaces (word text : string) : list string :=
  match text with
  | EmptyString => if is_empty word then [] else [word]
  | String c rest =>
      if Ascii.eqb c " " then
        if is_empty word then split_spaces "" rest else word :: split_spaces "" rest
      else split_spaces (word ++ String c "") rest
  end.

Definition sample_split (text : string) : list string := split_spaces "" text.

Definition sample_int (word : string) : result Z := parse_int word.

(** A browser that starts and a page that never loads. *)
Definition env_navigation_down : env :=
  {| start_driver := fun _ => Ok tt;
     driver_get := fun _ => Raise TimeoutException;
     current_url := fun _ => Ok hn_url;
     find_elements := fun _ => Ok [];
     py_split := sample_split;
     py_int := sample_int;
     open_write := WriteOk;
     float_repr := fun _ => "0.0" |}.

(** A browser that never starts. *)
Definition env_no_browser : env :=
  {| start_driver := fun _ => Raise WebDriverOtherError;
     driver_get := fun _ => Ok tt;
     current_url := fun _ => Ok hn_url;
     find_elements := fun _ => Ok [];
     py_split := sample_split;
     py_int := sample_int;
     open_write := WriteOk;
     float_repr := fun _ => "0.0" |}.

Section Rows.

Variable E : env.

(** What lines 155 to 159 read: the element, its text, the first word
    of the text, the integer it spells; or the first exception on the
    way. *)
Definition score_lookup (sub : subtext_row) : result Z :=
  match find_score sub with
  | Ok span =>
      match span_text span with
      | Ok text =>
          match py_split E text with
          | w :: _ => py_int E w
          | [] => Raise IndexError
          end
      | Raise e => Raise e
      end
  | Raise e => Raise e
  end.

(** What the row loop appends for a row with a title anchor and a
    sibling row: the score read, or [0] from one of the two inner
    handlers; nothing when the score lookup raises anything else. *)
Definition row_score (sub : subtext_row) : result Z :=
  match score_lookup sub with
  | Ok n => Ok n
  | Raise e =>
      if is_NoSuchElementException e || is_ValueError e || is_IndexError e
      then Ok 0 else Raise e
  end.

(** The record a row contributes, [None] for a row that is skipped. *)
Definition row_record (r : row) : option headline :=
  match find_titleline r with
  | Ok a =>
      match a_text a, a_href a, find_sibling r with
      | Ok t, Ok u, Ok sub =>
          match row_score sub with
          | Ok n => Some {| title := t; score := n; url := u |}
          | Raise _ => None
          end
      | _, _, _ => None
      end
  | Raise _ => None
  end.

Definition kept (rs : list row) : list headline :=
  flat_map (fun r => match row_record r with Some h => [h] | None => [] end) rs.

End Rows.

(** The write goes through or fails with an [IOError]. *)
Definition write_benign (w : write_outcome) : Prop :=
  match w with
  | WriteOk => True
  | OpenRaises e | DumpRaises e _ => is_IOError e = true
  end.

(** Three rows of a rendered page: one with a title and a score, one
    whose title anchor is not found, one without a score element. *)
Definition anchor_one : anchor :=
  {| a_text := Ok "Show HN"; a_href := Ok (Some "https://example.org/") |}.

Definition row_scored : row :=
  {| find_titleline := Ok anchor_one;
     find_sibling := Ok {| find_score := Ok {| span_text := Ok "12 points" |} |} |}.

Definition row_without_title : row :=
  {| find_titleline := Raise NoSuchElementException;
     find_sibling := Ok {| find_score := Ok {| span_text := Ok "7 points" |} |} |}.

Definition row_without_score : row :=
  {| find_titleline := Ok anchor_one;
     find_sibling := Ok {| find_score := Raise NoSuchElementException |} |}.

(** A browser that works and shows the rows [rs]. *)
Definition env_rows (rs : list row) (w : write_outcome) : env :=
  {| start_driver := fun _ => Ok tt;
     driver_get := fun _ => Ok tt;
     current_url := fun _ => Ok hn_url;
     find_elements := fun _ => Ok rs;
     py_split := sample_split;
     py_int := sample_int;
     open_write := w;
     float_repr := fun _ => "0.0" |}.

(** The environment [E] with another outcome of the file write. *)
Definition with_open_write (E : env) (w : write_outcome) : env :=
  {| start_driver := start_driver E;
     driver_get := driver_get E;
     current_url := current_url E;
     find_elements := find_elements E;
     py_split := py_split E;
     py_int := py_int E;
     open_write := w;
     float_repr := float_repr E |}.

(** No row and no record yet. *)
Definition blank (s : state) : Prop := rows s = [] /\ news_items s = [].

(** No file was opened for writing yet. *)
Definition no_open (s : state) : Prop := forall p, ~ In (EvOpenWrite p) (trace s).

End HNSpec.

(** ** scrape_books.py: sample sites and failure classes *)
Module BooksSpec.
Import ScrapeBooks.

(** A page attempt fails: the answer is not a 200, or [requests.get]
    raises a RequestException. *)
Definition page_fails (r : result response) : Prop :=
  match r with
  | Ok resp => status_code resp <> 200
  | Raise e => is_RequestException e = true
  end.

(** A category attempt fails: [requests.get] raises a ConnectionError,
    or the page has no breadcrumb list (an AttributeError). *)
Definition category_fails (r : result response) : Prop :=
  match r with
  | Ok resp => breadcrumb resp = None
  | Raise e => is_ReqConnectionError e || is_AttributeError e = true
  end.

Definition pod (t : string) (p : float) (src href : string) : product_pod :=
  {| pod_title := Ok t; pod_price := Ok p; pod_img_src := Ok src; pod_href := Ok href |}.

Definition catalogue_page (pods : list product_pod) : response :=
  {| status_code := 200; products := pods; breadcrumb := None |}.

Definition detail_page (category : string) : response :=
  {| status_code := 200; products := [];
     breadcrumb := Some ["Home"; "Books"; category] |}.

Definition not_found : response :=
  {| status_code := 404; products := []; breadcrumb := None |}.

(** [time.sleep] as it takes a number of seconds: it refuses a negative
    one. *)
Definition sample_sleep (seconds : Z) : result unit :=
  if seconds <? 0 then Raise ValueError else Ok tt.

(** A server whose answers depend on the address alone. *)
Definition env_of_site (site : string -> result response) (w : write_outcome) : env :=
  {| requests_get := fun _ url => site url;
     time_sleep := sample_sleep;
     open_write := w;
     float_repr := fun _ => "0.0" |}.

Definition poetry_pod : product_pod :=
  pod "A Light in the Attic" 10.5%float "media/a.jpg" "a-light-in-the-attic_1000/index.html".

Definition poetry_book : book :=
  {| Titulo := "A Light in the Attic"; Precio := 10.5%float;
     Categoria := Some "Poetry";
     URL_de_la_imagen := base_url ++ "media/a.jpg" |}.

(** Page 1 is answered with 200 and lists nothing; page 2 lists a book. *)
Definition site_empty_first_page (url : string) : result response :=
  if String.eqb url (page_url 1) then Ok (catalogue_page [])
  else if String.eqb url (page_url 2) then Ok (catalogue_page [poetry_pod])
  else if String.eqb url (base_url ++ "a-light-in-the-attic_1000/index.html")
       then Ok (detail_page "Poetry")
  else Ok not_found.

(** Every page is answered with 200 and lists nothing. *)
Definition site_all_empty (url : string) : result response :=
  Ok (catalogue_page []).

(** Nothing answers. *)
Definition site_down (url : string) : result response :=
  Raise ReqConnectionError.

(** Page 1 lists a book whose price text [float] refuses. *)
Definition site_bad_price (url : string) : result response :=
  Ok (catalogue_page
        [ {| pod_title := Ok "Untitled"; pod_price := Raise ValueError;
             pod_img_src := Ok "media/u.jpg"; pod_href := Ok "untitled_1/index.html" |} ]).

(** A file system where an earlier run left one record. *)
Definition files_of_earlier_run : files :=
  write_file no_files output_file
    (books_json (env_of_site site_down WriteOk) [poetry_book]).

(** Every field of a listed book is read without an exception. *)
Definition pod_readable (b : product_pod) : Prop :=
  (exists t, pod_title b = Ok t) /\ (exists p, pod_price b = Ok p)
  /\ (exists src, pod_img_src b = Ok src) /\ (exists href, pod_href b = Ok href).

(** The failures [scrape_books] is written to absorb: [requests.get]
    raises nothing but a RequestException, every listed book is readable,
    a breadcrumb list, where there is one, has its third link, and the
    file write goes through or raises an IOError. *)
Definition absorbed_failures (E : env) : Prop :=
  (forall n url,
      match requests_get E n url with
      | Raise e => is_RequestException e = true
      | Ok resp =>
          Forall pod_readable (products resp)
          /\ find_category resp <> Raise IndexError
      end)
  /\ match open_write E with
     | WriteOk => True
     | OpenRaises e | DumpRaises e _ => is_IOError e = true
     end.

(** A book under the price limit whose detail page never answers. *)
Definition env_unreachable_detail : env := env_of_site site_down WriteOk.

Definition has_category (b : book) : Prop := exists c, Categoria b = Some c.

Definition all_categorised (s : state) : Prop := Forall has_category (all_books_data s).

Definition files_are (f : files) (s : state) : Prop := fs s = f.


End BooksSpec.

(** ** scrape_books.py: a static catalogue *)
Module SiteSpec.
Import ScrapeBooks BooksSpec.

Section Site.

(** A server whose answer depends on the address alone. *)
Variable site : string -> result response.
Variable price_limit : float.
Variable max_retries : Z.

(** The category a detail page gives, [None] when the lookup of
    line 61 fails on it. *)
Definition category_of (href : string) : option string :=
  match site (base_url ++ href) with
  | Ok resp =>
      match find_category resp with
      | Ok c => Some c
      | Raise _ => None
      end
  | Raise _ => None
  end.

(** The record of a listed book that qualifies: it is readable, its
    price is strictly below the limit and its category resolves. *)
Definition qualifying (b : product_pod) : option book :=
  match pod_title b, pod_price b with
  | Ok t, Ok p =>
      if PrimFloat.ltb p price_limit then
        match pod_img_src b, pod_href b with
        | Ok src, Ok href =>
            match category_of href with
            | Some c =>
                Some {| Titulo := t; Precio := p; Categoria := Some c;
                        URL_de_la_imagen := base_url ++ src |}
            | None => None
            end
        | _, _ => None
        end
      else None
  | _, _ => None
  end.

Definition qualifying_books (bs : list product_pod) : list book :=
  flat_map (fun b => match qualifying b with Some x => [x] | None => [] end) bs.

(** A listed book the loop can deal with: its title and price are
    readable and, when the price is below the limit, so are its image
    and link, and its detail page gives a category or fails the way
    the category loop retries. *)
Definition pod_well_behaved (b : product_pod) : Prop :=
  exists t p,
    pod_title b = Ok t /\ pod_price b = Ok p
    /\ (PrimFloat.ltb p price_limit = true ->
        exists src href,
          pod_img_src b = Ok src /\ pod_href b = Ok href
          /\ (category_of href <> None
              \/ category_fails (site (base_url ++ href)))).

(** The catalogue pages 1, 2, ... are answered with 200 and list
    [pages]. *)
Definition serves (first : Z) (pages : list (list product_pod)) : Prop :=
  forall k, (k < List.length pages)%nat ->
    exists resp,
      site (page_url (first + Z.of_nat k)) = Ok resp
      /\ status_code resp = 200
      /\ products resp = nth k pages [].


End Site.

(** A catalogue of two pages: on page 1 a book that qualifies, one
    that costs too much and one whose detail page never answers; on
    page 2 a second book that qualifies. *)
Definition costly_pod : product_pod :=
  pod "Sapiens" 54.25%float "media/s.jpg" "sapiens_996/index.html".

Definition orphan_pod : product_pod :=
  pod "Olio" 5.5%float "media/o.jpg" "olio_984/index.html".

Definition fiction_pod : product_pod :=
  pod "Soumission" 12.25%float "media/so.jpg" "soumission_998/index.html".

Definition site_two_pages (url : string) : result response :=
  if String.eqb url (page_url 1)
  then Ok (catalogue_page [poetry_pod; costly_pod; orphan_pod])
  else if String.eqb url (page_url 2) then Ok (catalogue_page [fiction_pod])
  else if String.eqb url (base_url ++ "a-light-in-the-attic_1000/index.html")
       then Ok (detail_page "Poetry")
  else if String.eqb url (base_url ++ "soumission_998/index.html")
       then Ok (detail_page "Fiction")
  else if String.eqb url (base_url ++ "olio_984/index.html")
       then Raise ReqConnectionError
  else Ok not_found.



Definition two_pages : list (list product_pod) :=
  [ [poetry_pod; costly_pod; orphan_pod]; [fiction_pod] ].

Definition ends_with_category_get (tr : list event) : Prop :=
  exists pre u, tr = (pre ++ [EvGet CategoryFetch u])%list.

Definition opt_list {A} (o : option A) : list A :=
  match o with Some x => [x] | None => [] end.

(** The two prices a run on [site_two_pages] collects below 20, as
    [float.__repr__] prints them and as [float] reads them. *)
Definition sample_repr (x : float) : string :=
  if PrimFloat.eqb x 10.5%float then "10.5" else "12.25".

Definition sample_float (text : string) : float :=
  if String.eqb text "10.5" then 10.5%float else 12.25%float.

Definition env_two_pages : env :=
  {| requests_get := fun _ url => site_two_pages url;
     time_sleep := sample_sleep;
     open_write := WriteOk;
     float_repr := sample_repr |}.

(** Page 1 lists two books.  A request for a detail page meets a
    connection that fails while it is one of the first three requests of
    the run, and a timeout when it is the fourth; from then on the detail
    pages answer. *)
Definition env_detail_recovers : env :=
  {| requests_get := fun n url =>
       if String.eqb url (page_url 1)
       then Ok (catalogue_page [poetry_pod; fiction_pod])
       else if (n <? 3)%nat then Raise ReqConnectionError
       else if (n =? 3)%nat then Raise ReqOtherError
       else if String.eqb url (base_url ++ "a-light-in-the-attic_1000/index.html")
            then Ok (detail_page "Poetry")
       else Ok (detail_page "Fiction");
     time_sleep := sample_sleep;
     open_write := WriteOk;
     float_repr := sample_repr |}.

End SiteSpec.


(** ** main.py: what the endpoints reply *)
Module MainSpec.
Import Main.

Section Replies.

Variable str_strip : string -> string.
Variable str_lower : string -> string.
Variable V : Type.
Variable model : list (string * pyval) -> result V.

(** The items the model accepts, in the order of the list. *)
Definition accepted (xs : list pyval) : list V :=
  flat_map (fun x => match construct model x with Ok v => [v] | Raise _ => [] end) xs.

(** The items the model refuses. *)
Definition refused (xs : list pyval) : list pyval :=
  filter (fun x => negb (is_ok (construct model x))) xs.

Definition is_dict (x : pyval) : bool :=
  match x with PyDict _ => true | _ => false end.

(** The text under [key], the empty text when the item has no such key or
    holds something else than a [str] there. *)
Definition field_text (key : string) (x : pyval) : string :=
  match x with
  | PyDict d =>
      match dict_get key d with
      | Some (PyStr s) => s
      | _ => ""
      end
  | _ => ""
  end.

(** An item the category filter can examine: a dictionary whose category,
    when it has one that is not falsy, is a [str]. *)
Definition filterable (x : pyval) : bool :=
  match x with
  | PyDict d =>
      match dict_get "Categoría" d with
      | None => true
      | Some (PyStr _) => true
      | Some c => negb (py_truthy c)
      end
  | _ => false
  end.

(** The item has a category that is not empty and that is [wanted] once
    stripped and lowered. *)
Definition has_category_text (wanted : string) (x : pyval) : bool :=
  negb (is_empty (field_text "Categoría" x))
  && String.eqb (str_lower (str_strip (field_text "Categoría" x))) wanted.

Definition is_one_of (text : string) (options : list string) : bool :=
  existsb (String.eqb text) options.

(** The query occurs in the title, when titles are searched, or in the
    category, when categories are. *)
Definition search_matches (query_lower search_in : string) (x : pyval) : bool :=
  is_one_of search_in ["title"; "all"]
  && str_in query_lower (str_lower (str_strip (field_text "Título" x)))
  || is_one_of search_in ["category"; "all"]
     && str_in query_lower (str_lower (str_strip (field_text "Categoría" x))).

End Replies.

Arguments accepted {V} model xs.
Arguments refused {V} model xs.

(** Sample oracles: texts without outer blanks and in lower case already,
    and a [Book] model that wants its four fields with their types. *)
Definition sample_strip (s : string) : string := s.

Definition sample_lower (s : string) : string := s.

Record sample_book : Type := {
  sb_title : string;
  sb_price : float;
  sb_category : string;
  sb_image : string
}.

Definition sample_Book (d : list (string * pyval)) : result sample_book :=
  match dict_get "Título" d, dict_get "Precio" d,
        dict_get "Categoría" d, dict_get "URL de la imagen" d with
  | Some (PyStr t), Some (PyFloat p), Some (PyStr c), Some (PyStr u) =>
      Ok {| sb_title := t; sb_price := p; sb_category := c; sb_image := u |}
  | _, _, _, _ => Raise ValueError
  end.

Definition sample_Headline (d : list (string * pyval)) : result (string * Z * string) :=
  match dict_get "title" d, dict_get "score" d, dict_get "url" d with
  | Some (PyStr t), Some (PyInt n), Some (PyStr u) => Ok (t, n, u)
  | _, _, _ => Raise ValueError
  end.

Definition poetry_record : pyval :=
  PyDict [ ("Título", PyStr "a light in the attic"); ("Precio", PyFloat 10.5%float);
           ("Categoría", PyStr "poetry"); ("URL de la imagen", PyStr "media/a.jpg") ].

Definition fiction_record : pyval :=
  PyDict [ ("Título", PyStr "soumission"); ("Precio", PyFloat 12.25%float);
           ("Categoría", PyStr "fiction"); ("URL de la imagen", PyStr "media/so.jpg") ].

(** A record without a price, which the model refuses. *)
Definition unpriced_record : pyval :=
  PyDict [ ("Título", PyStr "olio"); ("Categoría", PyStr "poetry") ].

(** A books.json that holds a record the model accepts, one it refuses
    and a number. *)
Definition files_with_number : files :=
  write_file no_files BOOKS_FILE
    (json_dump SiteSpec.sample_repr
       (PyList [poetry_record; unpriced_record; PyInt 7])).

(** A books.json that holds records only. *)
Definition files_with_records : files :=
  write_file no_files BOOKS_FILE
    (json_dump SiteSpec.sample_repr
       (PyList [poetry_record; unpriced_record; fiction_record])).

(** books.json is missing, cannot be read as a text, is no JSON text, or
    holds something else than a list. *)
Definition unreadable_books_file (py_float : string -> float) (fs : files) : Prop :=
  fs BOOKS_FILE = None
  \/ fs BOOKS_FILE = Some Unreadable
  \/ (exists text e, fs BOOKS_FILE = Some (Text text) /\ json_loads py_float text = Raise e)
  \/ (exists text v, fs BOOKS_FILE = Some (Text text) /\ json_loads py_float text = Ok v
                     /\ forall items, v <> PyList items).

Definition poetry_sample : sample_book :=
  {| sb_title := "a light in the attic"; sb_price := 10.5%float;
     sb_category := "poetry"; sb_image := "media/a.jpg" |}.

Definition fiction_sample : sample_book :=
  {| sb_title := "soumission"; sb_price := 12.25%float;
     sb_category := "fiction"; sb_image := "media/so.jpg" |}.

End MainSpec.

(** ** From the scraper to the endpoints *)
Module PipelineSpec.
Import ScrapeBooks.

Section Filter.

Variable str_strip : string -> string.
Variable str_lower : string -> string.

(** A collected book whose category is not empty and is [wanted] once
    stripped and lowered. *)
Definition book_in_category (wanted : string) (b : book) : bool :=
  match Categoria b with
  | Some c => negb (is_empty c) && String.eqb (str_lower (str_strip c)) wanted
  | None => false
  end.

End Filter.

End PipelineSpec.

(** ** scrape_books.py: what every run keeps *)
Module BooksInv.
Import ScrapeBooks.

(** The counter is the number of collected books. *)
Definition counted (s : state) : Prop :=
  books_scraped s = Z.of_nat (List.length (all_books_data s)).

(** Inside a turn of the [while] loop, before the target is reached. *)
Definition below_target (N : Z) (s : state) : Prop :=
  counted s /\ books_scraped s < N.

(** Between two turns of the [while] loop. *)
Definition within_target (N : Z) (s : state) : Prop :=
  counted s /\ books_scraped s <= Z.max 0 N.

(** No file was opened for writing yet, and none has changed. *)
Definition untouched (files0 : files) (s : state) : Prop :=
  fs s = files0 /\ forall p, ~ In (EvOpenWrite p) (trace s).

(** The record of line 113: the pagination gave up on a page. *)
Definition gave_up : event := EvLog ERROR "No se pudo acceder a la página ".

(** The book [b] is listed on a page that the server answered with 200. *)
Definition listed (E : env) (b : product_pod) : Prop :=
  exists n url resp,
    requests_get E n url = Ok resp /\ status_code resp = 200 /\ In b (products resp).

(** What lines 42 to 88 make of a listed book: the record [r] has the
    title and the price of a listed book, a price below the limit, the
    base address followed by the [src] of the image of that book as its
    image address, and as its category the third link of the breadcrumb
    list of an answer to the request for the detail page of that book. *)
Definition read_off (E : env) (L : float) (r : book) : Prop :=
  exists b src href n resp c,
    listed E b
    /\ pod_title b = Ok (Titulo r) /\ pod_price b = Ok (Precio r)
    /\ PrimFloat.ltb (Precio r) L = true
    /\ pod_img_src b = Ok src /\ URL_de_la_imagen r = base_url ++ src
    /\ pod_href b = Ok href
    /\ requests_get E n (base_url ++ href) = Ok resp
    /\ find_category resp = Ok c /\ Categoria r = Some c.

Definition all_read_off (E : env) (L : float) (s : state) : Prop :=
  Forall (read_off E L) (all_books_data s).

(** The write goes through or fails with an [IOError]. *)
Definition write_benign (w : write_outcome) : Prop :=
  match w with
  | WriteOk => True
  | OpenRaises e | DumpRaises e _ => is_IOError e = true
  end.

(** A detail page whose breadcrumb list has fewer than three links. *)
Definition short_breadcrumb (r : result response) : Prop :=
  match r with
  | Ok resp => exists anchors, breadcrumb resp = Some anchors /\ (List.length anchors < 3)%nat
  | Raise _ => False
  end.

Definition detail_without_category : response :=
  {| status_code := 200; products := []; breadcrumb := Some ["Home"] |}.

(** Page 1 lists a book whose detail page has a short breadcrumb list. *)
Definition site_short_breadcrumb (url : string) : result response :=
  if String.eqb url (page_url 1) then Ok (BooksSpec.catalogue_page [BooksSpec.poetry_pod])
  else Ok detail_without_category.

(** The detail page of the first book answers at the third request. *)
Definition env_flaky_detail : env :=
  {| requests_get := fun n url =>
       if String.eqb url (page_url 1) then Ok (BooksSpec.catalogue_page [BooksSpec.poetry_pod])
       else if (n <? 3)%nat then Raise ReqConnectionError
       else Ok (BooksSpec.detail_page "Poetry");
     time_sleep := BooksSpec.sample_sleep;
     open_write := WriteOk;
     float_repr := SiteSpec.sample_repr |}.

(** At the request number [n], the listed book [b] is read, is below the
    limit, and its detail page gives a category: the loop makes the record
    [r] of it. *)
Definition resolves (E : env) (L : float) (n : nat) (b : product_pod) (r : book) : Prop :=
  exists src href resp c,
    pod_title b = Ok (Titulo r) /\ pod_price b = Ok (Precio r)
    /\ PrimFloat.ltb (Precio r) L = true
    /\ pod_img_src b = Ok src /\ URL_de_la_imagen r = base_url ++ src
    /\ pod_href b = Ok href
    /\ requests_get E n (base_url ++ href) = Ok resp
    /\ find_category resp = Ok c /\ Categoria r = Some c.

(** At the request number [n], the listed book [b] is read, is below the
    limit, and the request for its detail page raises [e]. *)
Definition detail_raises (E : env) (L : float) (n : nat) (b : product_pod) (e : exn) : Prop :=
  exists t p src href,
    pod_title b = Ok t /\ pod_price b = Ok p /\ PrimFloat.ltb p L = true
    /\ pod_img_src b = Ok src /\ pod_href b = Ok href
    /\ requests_get E n (base_url ++ href) = Raise e.

(** Page 1 lists two books; the detail page of the second one times out
    once, at the third request. *)
Definition env_timeout_once : env :=
  {| requests_get := fun n url =>
       if String.eqb url (page_url 1)
       then Ok (BooksSpec.catalogue_page [BooksSpec.poetry_pod; SiteSpec.fiction_pod])
       else if String.eqb url (base_url ++ "a-light-in-the-attic_1000/index.html")
       then Ok (BooksSpec.detail_page "Poetry")
       else if (n =? 2)%nat then Raise ReqOtherError
       else Ok (BooksSpec.detail_page "Fiction");
     time_sleep := BooksSpec.sample_sleep;
     open_write := WriteOk;
     float_repr := SiteSpec.sample_repr |}.

Definition fiction_book : book :=
  {| Titulo := "Soumission"; Precio := 12.25%float;
     Categoria := Some "Fiction";
     URL_de_la_imagen := base_url ++ "media/so.jpg" |}.

(** The requests for the catalogue pages [first], [first + 1], ..., the
    page at place [i] being asked for [nth i counts] times. *)
Fixpoint page_requests (first : Z) (counts : list nat) : list event :=
  match counts with
  | [] => []
  | c :: rest => repeat (EvGet PageFetch (page_url first)) c ++ page_requests (first + 1) rest
  end.

(** The page requests made so far and the page the loop is at. *)
Definition requested (l : list event) (n : Z) (s : state) : Prop :=
  filter is_page_get (trace s) = l /\ page_num s = n.

End BooksInv.

(** ** scrape_hn.py: the phases of a run *)
Module HNInv.
Import ScrapeHN.

Definition quits (s : state) : nat := count_events is_quit (trace s).

Definition unopened (s : state) : Prop := forall p, ~ In (EvOpenWrite p) (trace s).

(** Nothing was quit, no file was opened and the files are as they were. *)
Definition clean (files0 : files) (s : state) : Prop :=
  fs s = files0 /\ quits s = 0%nat /\ unopened s.

(** Before a session exists. *)
Definition unstarted (files0 : files) (s : state) : Prop :=
  clean files0 s /\ driver s = None.

(** With a session, before any return. *)
Definition started (files0 : files) (s : state) : Prop :=
  clean files0 s /\ driver s = Some tt.

(** After one of the returns of lines 99, 130 and 138, which quit the
    session. *)
Definition quit_once (files0 : files) (s : state) : Prop :=
  fs s = files0 /\ quits s = 1%nat /\ unopened s /\ driver s = Some tt.

(** After the file write was attempted. *)
Definition saved (files0 : files) (out : string) (s : state) : Prop :=
  (forall p, p <> out -> fs s p = files0 p)
  /\ quits s = 0%nat /\ In (EvOpenWrite out) (trace s) /\ driver s = Some tt.

(** The state in which line 203 is reached. *)
Definition before_release (files0 : files) (out : string) (s : state) : Prop :=
  quit_once files0 s \/ started files0 s \/ saved files0 out s.

Definition released (s : state) : state :=
  st_emit (EvLog INFO "WebDriver cerrado.") (st_emit EvQuit s).

Definition is_start (ev : event) : bool :=
  match ev with EvStartDriver => true | _ => false end.

Definition is_navigate (ev : event) : bool :=
  match ev with EvNavigate _ => true | _ => false end.

Definition is_find_rows (ev : event) : bool :=
  match ev with EvFindRows => true | _ => false end.

(** At most [n] events of the kind [p] so far. *)
Definition at_most (p : event -> bool) (n : nat) (s : state) : Prop :=
  (count_events p (trace s) <= n)%nat.

(** The computation [m] makes at most [k] events of the kind [p]. *)
Definition adds (p : event -> bool) (k : nat) {A} (m : M state A) : Prop :=
  forall s, (count_events p (trace (snd (m s))) <= count_events p (trace s) + k)%nat.

End HNInv.


(** * Reasoning about the monad *)

Open Scope list_scope.

Section MonadFacts.

Context {St : Type}.

Lemma bind_ok {A B} (m : M St A) (f : A -> M St B) s a s' :
  m s = (Ok a, s') -> bind m f s = f a s'.
Proof. intros H. unfold bind. now rewrite H. Qed.

Lemma bind_raise {A B} (m : M St A) (f : A -> M St B) s e s' :
  m s = (Raise e, s') -> bind m f s = (Raise e, s').
Proof. intros H. unfold bind. now rewrite H. Qed.

Lemma bind_inv {A B} (m : M St A) (f : A -> M St B) s r s' :
  bind m f s = (r, s') ->
  (exists a s1, m s = (Ok a, s1) /\ f a s1 = (r, s'))
  \/ (exists e, m s = (Raise e, s') /\ r = Raise e).
Proof.
  unfold bind. destruct (m s) as [[a|e] s1]; intros H.
  - left. eauto.
  - right. inversion H; subst. eauto.
Qed.

Lemma for_in_app {A B} (xs ys : list A) (body : A -> M St (ctl B)) s :
  for_in (xs ++ ys) body s =
  match for_in xs body s with
  | (Ok None, s') => for_in ys body s'
  | other => other
  end.
Proof.
  revert s. induction xs as [|x xs IH]; intros s; simpl.
  - reflexivity.
  - unfold bind. destruct (body x s) as [[[|b]|e] s']; auto.
Qed.

Lemma preserves_ret {A} (Inv : St -> Prop) (a : A) : preserves Inv (ret a).
Proof. intros s H. exact H. Qed.

Lemma preserves_raise {A} (Inv : St -> Prop) e : preserves Inv (@raise St A e).
Proof. intros s H. exact H. Qed.

Lemma preserves_eval {A} (Inv : St -> Prop) (r : result A) : preserves Inv (eval r).
Proof. intros s H. exact H. Qed.

Lemma preserves_gets {A} (Inv : St -> Prop) (f : St -> A) : preserves Inv (gets f).
Proof. intros s H. exact H. Qed.

Lemma preserves_modify (Inv : St -> Prop) (f : St -> St) :
  (forall s, Inv s -> Inv (f s)) -> preserves Inv (modify f).
Proof. intros Hf s H. apply Hf, H. Qed.

Lemma preserves_bind {A B} (Inv : St -> Prop) (m : M St A) (f : A -> M St B) :
  preserves Inv m -> (forall a, preserves Inv (f a)) -> preserves Inv (bind m f).
Proof.
  intros Hm Hf s H. unfold bind. specialize (Hm s H).
  destruct (m s) as [[a|e] s']; simpl in *.
  - apply Hf, Hm.
  - exact Hm.
Qed.

Lemma preserves_dispatch {A} (Inv : St -> Prop) (clauses : list ((exn -> bool) * (exn -> M St A))) e :
  Forall (fun c => forall e', preserves Inv (snd c e')) clauses ->
  preserves Inv (dispatch clauses e).
Proof.
  induction 1 as [|[c h] rest Hh _ IH]; simpl.
  - apply preserves_raise.
  - destruct (c e); [apply Hh | apply IH].
Qed.

Lemma preserves_try_except {A} (Inv : St -> Prop) (body : M St A) clauses :
  preserves Inv body ->
  Forall (fun c => forall e, preserves Inv (snd c e)) clauses ->
  preserves Inv (try_except body clauses).
Proof.
  intros Hb Hc s H. unfold try_except. specialize (Hb s H).
  destruct (body s) as [[a|e] s']; simpl in *.
  - exact Hb.
  - apply (preserves_dispatch Inv clauses e Hc), Hb.
Qed.

Lemma preserves_try_finally {A} (Inv : St -> Prop) (body : M St A) cleanup :
  preserves Inv body -> preserves Inv cleanup -> preserves Inv (try_finally body cleanup).
Proof.
  intros Hb Hc s H. unfold try_finally. specialize (Hb s H).
  destruct (body s) as [r s']; simpl in *. specialize (Hc s' Hb).
  destruct (cleanup s') as [[u|e] s'']; exact Hc.
Qed.

Lemma preserves_for_in {A B} (Inv : St -> Prop) (xs : list A) (body : A -> M St (ctl B)) :
  (forall x, preserves Inv (body x)) -> preserves Inv (for_in xs body).
Proof.
  intros Hb. induction xs as [|x xs IH]; simpl.
  - apply preserves_ret.
  - apply preserves_bind; [apply Hb|]. intros [|b]; [exact IH | apply preserves_ret].
Qed.

Lemma raises_only_ret {A} C (a : A) : raises_only C (@ret St A a).
Proof. intros s. exact Logic.I. Qed.

Lemma raises_only_gets {A} C (f : St -> A) : raises_only C (gets f).
Proof. intros s. exact Logic.I. Qed.

Lemma raises_only_modify C (f : St -> St) : raises_only C (modify f).
Proof. intros s. exact Logic.I. Qed.

Lemma raises_only_bind {A B} C (m : M St A) (f : A -> M St B) :
  raises_only C m -> (forall a, raises_only C (f a)) -> raises_only C (bind m f).
Proof.
  intros Hm Hf s. unfold bind. specialize (Hm s).
  destruct (m s) as [[a|e] s']; simpl in *.
  - apply Hf.
  - exact Hm.
Qed.

Lemma raises_only_weaken {A} (C D : exn -> bool) (m : M St A) :
  (forall e, C e = true -> D e = true) -> raises_only C m -> raises_only D m.
Proof.
  intros HCD Hm s. specialize (Hm s). destruct (fst (m s)); auto.
Qed.

Lemma raises_only_for_in {A B} C (xs : list A) (body : A -> M St (ctl B)) :
  (forall x, raises_only C (body x)) -> raises_only C (for_in xs body).
Proof.
  intros Hb. induction xs as [|x xs IH]; simpl.
  - apply raises_only_ret.
  - apply raises_only_bind; [apply Hb|]. intros [|b]; [exact IH | apply raises_only_ret].
Qed.

(** A [try] with one clause lets through what its body raises outside
    the clause's classes, and what its handler raises. *)
Lemma raises_only_try_except1 {A} (C D : exn -> bool) (body : M St A) catches handler :
  raises_only C body ->
  (forall e, raises_only D (handler e)) ->
  (forall e, C e = true -> catches e = false -> D e = true) ->
  raises_only D (try_except body [(catches, handler)]).
Proof.
  intros Hb Hh HCD s. unfold try_except. specialize (Hb s).
  destruct (body s) as [[a|e] s']; simpl in *.
  - exact Logic.I.
  - destruct (catches e) eqn:Hc.
    + apply Hh.
    + simpl. apply HCD; assumption.
Qed.

Lemma hoare_for_in {A B} (Inv : St -> Prop) (Q : result (option B) -> St -> Prop)
    (xs : list A) (body : A -> M St (ctl B)) :
  (forall x, hoare Inv (body x)
               (fun r s => match r with
                           | Ok Next => Inv s
                           | Ok (Break b) => Q (Ok (Some b)) s
                           | Raise e => Q (Raise e) s
                           end)) ->
  (forall s, Inv s -> Q (Ok None) s) ->
  hoare Inv (for_in xs body) Q.
Proof.
  intros Hb Hend. induction xs as [|x xs IH]; intros s Hs; simpl.
  - apply Hend, Hs.
  - unfold bind. specialize (Hb x s Hs).
    destruct (body x s) as [[[|b]|e] s']; simpl in *; auto.
Qed.

End MonadFacts.

(** Splits a run of [x <- m ;; k] recorded in [H] into the run of [m] and,
    when [m] raised nothing, the run of [k]. *)
Ltac bind_split H a s1 H1 :=
  apply bind_inv in H;
  destruct H as [(a & s1 & H1 & H) | (? & H1 & H)].

Ltac preserves_step :=
  lazymatch goal with
  | |- preserves _ (bind _ _) => apply preserves_bind; [| intros ?]
  | |- preserves _ (ret _) => apply preserves_ret
  | |- preserves _ (raise _) => apply preserves_raise
  | |- preserves _ (eval _) => apply preserves_eval
  | |- preserves _ (gets _) => apply preserves_gets
  | |- preserves _ (modify _) => apply preserves_modify; intros ? ?
  | |- preserves _ (try_except _ _) =>
      apply preserves_try_except;
      [| repeat (apply Forall_cons; [simpl; intros ?|]); try apply Forall_nil]
  | |- preserves _ (try_finally _ _) => apply preserves_try_finally
  | |- preserves _ (for_in _ _) => apply preserves_for_in; intros ?
  | |- preserves _ (match ?x with _ => _ end) => destruct x
  | |- preserves _ (let _ := _ in _) => cbv zeta
  end.

(** * Reading back what [json.dump] wrote *)

Lemma append_assoc (a b c : string) : ((a ++ b) ++ c = a ++ (b ++ c))%string.
Proof. induction a as [|x a IH]; simpl; [reflexivity | now rewrite IH]. Qed.

Lemma append_nil_r (a : string) : (a ++ "" = a)%string.
Proof. induction a as [|x a IH]; simpl; [reflexivity | now rewrite IH]. Qed.

Lemma length_append (a b : string) :
  String.length (a ++ b) = (String.length a + String.length b)%nat.
Proof. induction a as [|x a IH]; simpl; [reflexivity | now rewrite IH]. Qed.

Lemma scanstring_escape s rest :
  scanstring (escape_string s ++ String dquote rest) = Ok (s, rest).
Proof.
  induction s as [|c s IH].
  - reflexivity.
  - cbn [escape_string]. rewrite append_assoc.
    set (t := (escape_string s ++ String dquote rest)%string) in *.
    destruct c as [[] [] [] [] [] [] [] []];
      match goal with
      | |- context [escape_char ?c] =>
          let e := eval vm_compute in (escape_char c) in change (escape_char c) with e
      end;
      simpl; rewrite IH; reflexivity.
Qed.

(** *** Numbers *)

Lemma number_stops_char c rest :
  number_stops (String c rest) ->
  is_digit c = false /\ Ascii.eqb c "." = false /\ Ascii.eqb c "e" = false
  /\ Ascii.eqb c "E" = false /\ Ascii.eqb c "+" = false /\ Ascii.eqb c "-" = false.
Proof.
  unfold number_stops, is_number_char. intros H.
  repeat (apply orb_false_iff in H; destruct H as [H ?]). auto 10.
Qed.

Lemma number_stops_digits rest : number_stops rest -> stops_digits rest.
Proof.
  destruct rest as [|c rest]; [exact (fun H => H)|].
  intros H. apply number_stops_char in H. apply H.
Qed.

Lemma span_digits_app s rest :
  stops_digits rest ->
  span_digits (s ++ rest)
  = (fst (span_digits s), (snd (span_digits s) ++ rest)%string).
Proof.
  intros H. induction s as [|c s IH]; simpl.
  - destruct rest as [|c rest]; simpl in *; [reflexivity | now rewrite H].
  - destruct (is_digit c); [|reflexivity].
    rewrite IH. now destruct (span_digits s).
Qed.

Lemma span_digits_text s : s = (fst (span_digits s) ++ snd (span_digits s))%string.
Proof.
  induction s as [|c s IH]; simpl; [reflexivity|].
  destruct (is_digit c); [|reflexivity].
  destruct (span_digits s) as [ds r]; simpl in *. now rewrite <- IH.
Qed.

Lemma match_digits_app s rest :
  number_stops rest ->
  match_digits (s ++ rest)
  = option_map (fun dr => (fst dr, (snd dr ++ rest)%string)) (match_digits s).
Proof.
  intros H. destruct s as [|c s]; simpl.
  - destruct rest as [|c rest]; [reflexivity|].
    apply number_stops_char in H. destruct H as (Hd & _). simpl. rewrite Hd.
    destruct (Ascii.eqb c "0") eqn:E0; [|reflexivity].
    apply Ascii.eqb_eq in E0. subst c. discriminate Hd.
  - destruct (Ascii.eqb c "0"); [reflexivity|].
    destruct (is_digit c); [|reflexivity].
    rewrite span_digits_app by now apply number_stops_digits.
    now destruct (span_digits s).
Qed.

Lemma match_digits_text s ds r : match_digits s = Some (ds, r) -> s = (ds ++ r)%string.
Proof.
  destruct s as [|c s]; simpl; [discriminate|].
  destruct (Ascii.eqb c "0").
  - intros H. now inversion H.
  - destruct (is_digit c); [|discriminate].
    pose proof (span_digits_text s) as Ht.
    destruct (span_digits s) as [d r']; simpl in Ht. intros H. injection H as Hds Hr. subst ds r.
    simpl. now rewrite <- Ht.
Qed.

Lemma match_frac_app r rest :
  number_stops rest ->
  match_frac (r ++ rest) = (fst (match_frac r), (snd (match_frac r) ++ rest)%string).
Proof.
  intros H. destruct r as [|c s]; simpl.
  - destruct rest as [|c rest]; [reflexivity|].
    apply number_stops_char in H. destruct H as (_ & Hp & _). simpl. now rewrite Hp.
  - destruct (Ascii.eqb c "."); [|reflexivity].
    rewrite span_digits_app by now apply number_stops_digits.
    destruct (span_digits s) as [[|d ds] r']; reflexivity.
Qed.

Lemma match_frac_text r : r = (fst (match_frac r) ++ snd (match_frac r))%string.
Proof.
  destruct r as [|c s]; simpl; [reflexivity|].
  destruct (Ascii.eqb c "."); [|reflexivity].
  pose proof (span_digits_text s) as Ht.
  destruct (span_digits s) as [[|d ds] r']; simpl in *; [reflexivity|].
  now rewrite <- Ht.
Qed.

Lemma match_exp_app r rest :
  number_stops rest ->
  match_exp (r ++ rest) = (fst (match_exp r), (snd (match_exp r) ++ rest)%string).
Proof.
  intros H. pose proof (number_stops_digits rest H) as Hd.
  destruct r as [|c s]; simpl.
  - destruct rest as [|c rest]; [reflexivity|].
    apply number_stops_char in H. destruct H as (_ & _ & He & HE & _). simpl.
    now rewrite He, HE.
  - destruct (Ascii.eqb c "e" || Ascii.eqb c "E"); [|reflexivity].
    destruct s as [|g t]; simpl.
    + destruct rest as [|g rest]; [reflexivity|].
      apply number_stops_char in H. destruct H as (Hg & _ & _ & _ & Hplus & Hminus).
      rewrite Hminus, Hplus. simpl. now rewrite Hg.
    + destruct (Ascii.eqb g "-" || Ascii.eqb g "+").
      * rewrite span_digits_app by assumption.
        destruct (span_digits t) as [[|d ds] r']; reflexivity.
      * change (String g (t ++ rest)) with (String g t ++ rest)%string.
        rewrite span_digits_app by assumption.
        destruct (span_digits (String g t)) as [[|d ds] r']; reflexivity.
Qed.

Lemma match_exp_text r : r = (fst (match_exp r) ++ snd (match_exp r))%string.
Proof.
  destruct r as [|c s]; simpl; [reflexivity|].
  destruct (Ascii.eqb c "e" || Ascii.eqb c "E"); [|reflexivity].
  destruct s as [|g t]; [reflexivity|].
  destruct (Ascii.eqb g "-" || Ascii.eqb g "+").
  - pose proof (span_digits_text t) as Ht.
    destruct (span_digits t) as [[|d ds] r']; simpl in *; [reflexivity|].
    now rewrite <- Ht.
  - pose proof (span_digits_text (String g t)) as Ht.
    destruct (span_digits (String g t)) as [[|d ds] r']; simpl in *; [reflexivity|].
    now rewrite <- Ht.
Qed.

Lemma match_number_app s rest :
  number_stops rest ->
  match_number (s ++ rest)
  = option_map (fun m => match m with
                         | (integer, frac, exp, r) => (integer, frac, exp, (r ++ rest)%string)
                         end) (match_number s).
Proof.
  intros H. unfold match_number.
  assert (Hs : match (s ++ rest)%string with
               | String c s' =>
                   if Ascii.eqb c "-" then
                     match match_digits s' with
                     | Some (ds, r) => Some (String c ds, r)
                     | None => None
                     end
                   else match_digits (s ++ rest)
               | EmptyString => None
               end
               = option_map (fun dr => (fst dr, (snd dr ++ rest)%string))
                   match s with
                   | String c s' =>
                       if Ascii.eqb c "-" then
                         match match_digits s' with
                         | Some (ds, r) => Some (String c ds, r)
                         | None => None
                         end
                       else match_digits s
                   | EmptyString => None
                   end).
  { destruct s as [|c s'].
    - destruct rest as [|c rest]; [reflexivity|].
      change ("" ++ String c rest)%string with (String c rest). cbv iota beta.
      pose proof (number_stops_char _ _ H) as (_ & _ & _ & _ & _ & Hm). rewrite Hm.
      exact (match_digits_app "" (String c rest) H).
    - change (String c s' ++ rest)%string with (String c (s' ++ rest)).
      cbv iota beta. destruct (Ascii.eqb c "-").
      + rewrite match_digits_app by assumption.
        now destruct (match_digits s') as [[ds r]|].
      + exact (match_digits_app (String c s') rest H). }
  rewrite Hs. clear Hs.
  destruct (match s with
            | String c s' =>
                if Ascii.eqb c "-" then
                  match match_digits s' with
                  | Some (ds, r) => Some (String c ds, r)
                  | None => None
                  end
                else match_digits s
            | EmptyString => None
            end) as [[integer r]|]; simpl; [|reflexivity].
  rewrite match_frac_app by assumption.
  destruct (match_frac r) as [frac r1]; simpl.
  rewrite match_exp_app by assumption.
  now destruct (match_exp r1) as [exp r2].
Qed.

Lemma match_number_text s integer frac exp r :
  match_number s = Some (integer, frac, exp, r) ->
  s = (integer ++ frac ++ exp ++ r)%string.
Proof.
  unfold match_number.
  assert (Hs : forall i r0,
             match s with
             | String c s' =>
                 if Ascii.eqb c "-" then
                   match match_digits s' with
                   | Some (ds, r) => Some (String c ds, r)
                   | None => None
                   end
                 else match_digits s
             | EmptyString => None
             end = Some (i, r0) -> s = (i ++ r0)%string).
  { intros i r0. destruct s as [|c s']; [discriminate|].
    destruct (Ascii.eqb c "-").
    - destruct (match_digits s') as [[ds r']|] eqn:E; [|discriminate].
      intros Hi. injection Hi as Hi Hr. subst i r0. simpl. f_equal.
      now apply match_digits_text.
    - apply match_digits_text. }
  destruct (match s with
            | String c s' =>
                if Ascii.eqb c "-" then
                  match match_digits s' with
                  | Some (ds, r) => Some (String c ds, r)
                  | None => None
                  end
                else match_digits s
            | EmptyString => None
            end) as [[i r0]|]; [|discriminate].
  specialize (Hs i r0 eq_refl).
  pose proof (match_frac_text r0) as Hf.
  destruct (match_frac r0) as [fr r1]; simpl in Hf.
  pose proof (match_exp_text r1) as He.
  destruct (match_exp r1) as [ex r2]; simpl in He.
  intros H. injection H as H1 H2 H3 H4. subst integer frac exp r.
  now rewrite <- He, <- Hf.
Qed.

Lemma match_number_head c s m :
  match_number (String c s) = Some m -> is_number_head c = true.
Proof.
  unfold match_number, is_number_head.
  destruct (Ascii.eqb c "-"); [intros _; apply orb_true_r|].
  simpl. destruct (Ascii.eqb c "0") eqn:E0.
  - apply Ascii.eqb_eq in E0. subst c. reflexivity.
  - destruct (is_digit c); [reflexivity | discriminate].
Qed.

Lemma number_head_facts c :
  is_number_head c = true ->
  Ascii.eqb c dquote = false /\ Ascii.eqb c "{" = false /\ Ascii.eqb c "[" = false
  /\ Ascii.eqb "n" c = false /\ Ascii.eqb "t" c = false /\ Ascii.eqb "f" c = false
  /\ is_json_ws c = false /\ Ascii.eqb "239" c = false.
Proof.
  destruct c as [[] [] [] [] [] [] [] []]; intros H; try discriminate H;
    repeat split; reflexivity.
Qed.

(** *** The text of an [int] *)

Lemma span_digits_uint l rest :
  stops_digits rest ->
  span_digits (NilEmpty.string_of_uint l ++ rest) = (NilEmpty.string_of_uint l, rest).
Proof.
  intros H. induction l; simpl; try (rewrite IHl; reflexivity).
  destruct rest as [|c rest]; simpl in *; [reflexivity | now rewrite H].
Qed.

Lemma digits_value_uint l : forall acc : positive,
  digits_value (NilEmpty.string_of_uint l) (Z.pos acc) true
  = Some (Z.pos (Pos.of_uint_acc l acc)).
Proof.
  induction l; intros acc; cbn [NilEmpty.string_of_uint Pos.of_uint_acc];
    try reflexivity;
    rewrite <- IHl; cbn [digits_value];
    match goal with
    | |- context [is_digit ?c] =>
        change (is_digit c) with true;
        let v := eval vm_compute in (digit_value c) in change (digit_value c) with v
    end;
    cbv iota; f_equal; lia.
Qed.

Lemma to_uint_head_nonzero p l : Pos.to_uint p <> D0 l.
Proof.
  intros E.
  pose proof (DecimalPos.Unsigned.to_of (Pos.to_uint p)) as H.
  rewrite DecimalPos.Unsigned.of_to in H. simpl in H. rewrite E in H.
  rewrite DecimalFacts.unorm_D0 in H.
  destruct (nzhead l) as [|u|u|u|u|u|u|u|u|u|u] eqn:Hn;
    [ assert (Hz : unorm l = zero) by (now apply DecimalFacts.unorm_0);
      rewrite Hz in H; apply (DecimalPos.Unsigned.to_uint_nonzero p); now rewrite E
    | exact (DecimalFacts.nzhead_nonzero l u Hn)
    | rewrite DecimalFacts.unorm_nzhead in H by (rewrite Hn; discriminate);
      rewrite Hn in H; discriminate H .. ].
Qed.

(** What [scan_atom] finds at the text of an [int]. *)
Lemma scan_atom_int py_float n rest :
  number_stops rest ->
  scan_atom py_float (py_str_int n ++ rest) = Ok (PyInt n, rest).
Proof.
  intros H. pose proof (number_stops_digits rest H) as Hd.
  assert (Hpos : forall p,
    match_number (NilEmpty.string_of_uint (Pos.to_uint p) ++ rest)
    = Some (NilEmpty.string_of_uint (Pos.to_uint p), "", "", rest)%string
    /\ digits_value (NilEmpty.string_of_uint (Pos.to_uint p)) 0 false = Some (Z.pos p)
    /\ exists c t, NilEmpty.string_of_uint (Pos.to_uint p) = String c t
                   /\ is_digit c = true).
  { intros p.
    pose proof (DecimalPos.Unsigned.of_to p) as Hof.
    rewrite match_number_app by assumption.
    destruct (Pos.to_uint p) as [|l|l|l|l|l|l|l|l|l|l] eqn:E;
      [ exfalso; now apply (DecimalPos.Unsigned.to_uint_nonnil p)
      | exfalso; now apply (to_uint_head_nonzero p l) | .. ];
      (split; [| split; [| eexists; eexists; split; reflexivity ]]).
    all: try (unfold match_number; cbn [NilEmpty.string_of_uint];
              unfold match_digits;
              match goal with
              | |- context [Ascii.eqb ?c "-"] => change (Ascii.eqb c "-") with false
              end;
              match goal with
              | |- context [Ascii.eqb ?c "0"] => change (Ascii.eqb c "0") with false
              end;
              match goal with
              | |- context [is_digit ?c] => change (is_digit c) with true
              end;
              cbv iota;
              pose proof (span_digits_uint l "" I) as Hs;
              rewrite append_nil_r in Hs; rewrite Hs; reflexivity).
    all: cbn [NilEmpty.string_of_uint digits_value];
         match goal with
         | |- context [is_digit ?c] =>
             change (is_digit c) with true;
             let v := eval vm_compute in (digit_value c) in change (digit_value c) with v
         end;
         cbv iota; simpl Z.add;
         rewrite digits_value_uint; simpl in Hof; now inversion Hof. }
  unfold py_str_int. destruct n as [|p|p]; simpl Z.to_int.
  - (* 0 *)
    unfold scan_atom. simpl NilZero.string_of_int.
    change ("0" ++ rest)%string with (String "0" rest).
    cbn [strip_prefix]. change (Ascii.eqb "n" "0") with false.
    change (Ascii.eqb "t" "0") with false. change (Ascii.eqb "f" "0") with false.
    cbv iota.
    change (String "0" rest) with ("0" ++ rest)%string.
    rewrite (match_number_app "0" rest H). reflexivity.
  - destruct (Hpos p) as (Hm & Hv & c & t & Ht & Hc).
    assert (Hz : NilZero.string_of_int (Pos (Pos.to_uint p))
                 = NilEmpty.string_of_uint (Pos.to_uint p)).
    { simpl. destruct (Pos.to_uint p) eqn:E; try reflexivity.
      exfalso. now apply (DecimalPos.Unsigned.to_uint_nonnil p). }
    rewrite Hz.
    pose proof (number_head_facts c) as Hf.
    unfold is_number_head in Hf. rewrite Hc in Hf.
    destruct (Hf eq_refl) as (_ & _ & _ & Hn & Htt & Hff & _).
    assert (Hnull : forall w a, Ascii.eqb a c = false ->
              strip_prefix (String a w)
                (NilEmpty.string_of_uint (Pos.to_uint p) ++ rest) = None).
    { intros w a Ha. rewrite Ht. cbn [append strip_prefix]. now rewrite Ha. }
    unfold scan_atom. rewrite !Hnull by assumption. rewrite Hm.
    cbn [is_empty andb]. unfold parse_int.
    assert (Hw : match NilEmpty.string_of_uint (Pos.to_uint p) with
                 | String "+" s' => digits_value s' 0 false
                 | String "-" s' => option_map Z.opp (digits_value s' 0 false)
                 | _ => digits_value (NilEmpty.string_of_uint (Pos.to_uint p)) 0 false
                 end = Some (Z.pos p)).
    { rewrite <- Hv. rewrite Ht.
      destruct c as [[] [] [] [] [] [] [] []]; try discriminate Hc; reflexivity. }
    rewrite Hw. reflexivity.
  - destruct (Hpos p) as (Hm & Hv & c & t & Ht & Hc).
    assert (Hz : NilZero.string_of_int (Neg (Pos.to_uint p))
                 = String "-" (NilEmpty.string_of_uint (Pos.to_uint p))).
    { simpl. destruct (Pos.to_uint p) eqn:E; try reflexivity.
      exfalso. now apply (DecimalPos.Unsigned.to_uint_nonnil p). }
    rewrite Hz. unfold scan_atom.
    change (String "-" (NilEmpty.string_of_uint (Pos.to_uint p)) ++ rest)%string
      with (String "-" (NilEmpty.string_of_uint (Pos.to_uint p) ++ rest)).
    cbn [strip_prefix]. change (Ascii.eqb "n" "-") with false.
    change (Ascii.eqb "t" "-") with false. change (Ascii.eqb "f" "-") with false.
    cbv iota.
    assert (Hmn : match_number (String "-" (NilEmpty.string_of_uint (Pos.to_uint p) ++ rest))
                  = Some (String "-" (NilEmpty.string_of_uint (Pos.to_uint p)), "", "", rest)%string).
    { unfold match_number in *. change (Ascii.eqb "-" "-") with true. cbv iota.
      rewrite Ht in Hm |- *. cbn [append] in Hm |- *.
      assert (Hcm : Ascii.eqb c "-" = false)
        by (destruct c as [[] [] [] [] [] [] [] []]; try discriminate Hc; reflexivity).
      rewrite Hcm in Hm.
      destruct (match_digits (String c (t ++ rest))) as [[ds r]|]; [|discriminate Hm].
      destruct (match_frac r) as [fr r1]. destruct (match_exp r1) as [ex r2].
      now inversion Hm. }
    rewrite Hmn. cbn [is_empty andb]. unfold parse_int. rewrite Hv. reflexivity.
Qed.

(** *** The text of a [float] *)

Lemma is_nan_eq x : PrimFloat.is_nan x = true -> x = nan.
Proof.
  unfold PrimFloat.is_nan. rewrite eqb_spec. intros H.
  apply Prim2SF_inj. change (Prim2SF nan) with S754_nan.
  destruct (Prim2SF x) as [s|s| |s m e]; try reflexivity; exfalso.
  - discriminate H.
  - unfold SFeqb in H. simpl in H. destruct s; discriminate H.
  - unfold SFeqb in H. simpl in H. rewrite Z.compare_refl in H.
    rewrite Pos.compare_cont_refl in H. destruct s; discriminate H.
Qed.

Lemma eqb_infinity x : PrimFloat.eqb x infinity = true -> x = infinity.
Proof.
  rewrite eqb_spec. intros H. apply Prim2SF_inj.
  change (Prim2SF infinity) with (S754_infinity false) in *.
  destruct (Prim2SF x) as [s|s| |s m e]; unfold SFeqb in H; simpl in H;
    try discriminate H.
  destruct s; [discriminate H | reflexivity].
Qed.

Lemma eqb_neg_infinity x : PrimFloat.eqb x neg_infinity = true -> x = neg_infinity.
Proof.
  rewrite eqb_spec. intros H. apply Prim2SF_inj.
  change (Prim2SF neg_infinity) with (S754_infinity true) in *.
  destruct (Prim2SF x) as [s|s| |s m e]; unfold SFeqb in H; simpl in H;
    try discriminate H.
  destruct s; [reflexivity | discriminate H].
Qed.

Lemma scan_atom_number py_float s integer frac exp rest :
  match_number s = Some (integer, frac, exp, rest) ->
  scan_atom py_float s
  = if is_empty frac && is_empty exp then
      match parse_int integer with
      | Ok n => Ok (PyInt n, rest)
      | Raise e => Raise e
      end
    else Ok (PyFloat (py_float (integer ++ frac ++ exp)%string), rest).
Proof.
  intros Hm. destruct s as [|c s]; [discriminate Hm|].
  pose proof (number_head_facts c (match_number_head c s _ Hm))
    as (_ & _ & _ & Hn & Ht & Hf & _).
  unfold scan_atom. cbn [strip_prefix]. rewrite Hn, Ht, Hf, Hm. reflexivity.
Qed.

Lemma scan_atom_float float_repr py_float x rest :
  reads_back float_repr py_float x ->
  number_stops rest ->
  scan_atom py_float (floatstr float_repr x ++ rest) = Ok (PyFloat x, rest).
Proof.
  intros Hx Hrest. unfold floatstr, reads_back, repr_is_printed in *.
  destruct (PrimFloat.is_nan x) eqn:Hnan.
  { apply is_nan_eq in Hnan. subst x. reflexivity. }
  destruct (PrimFloat.eqb x infinity) eqn:Hinf.
  { apply eqb_infinity in Hinf. subst x. reflexivity. }
  destruct (PrimFloat.eqb x neg_infinity) eqn:Hninf.
  { apply eqb_neg_infinity in Hninf. subst x. reflexivity. }
  destruct (Hx eq_refl) as (Hlit & Hback).
  unfold json_float_literal in Hlit.
  destruct (match_number (float_repr x)) as [[[[integer frac] exp] r]|] eqn:Hm;
    [|discriminate Hlit].
  destruct r; [|discriminate Hlit].
  pose proof (match_number_text _ _ _ _ _ Hm) as Htext.
  rewrite append_nil_r in Htext.
  rewrite (scan_atom_number py_float _ integer frac exp rest).
  - apply negb_true_iff in Hlit. rewrite Hlit.
    now rewrite <- Htext, Hback.
  - rewrite match_number_app by assumption. now rewrite Hm.
Qed.

(** *** Values *)

Lemma value_head_facts c :
  is_value_head c = true ->
  is_json_ws c = false /\ Ascii.eqb c "]" = false /\ Ascii.eqb c "}" = false
  /\ Ascii.eqb "239" c = false.
Proof.
  destruct c as [[] [] [] [] [] [] [] []]; intros H; try discriminate H;
    repeat split; reflexivity.
Qed.

Lemma number_head_value c : is_number_head c = true -> is_value_head c = true.
Proof.
  destruct c as [[] [] [] [] [] [] [] []]; intros H; try discriminate H; reflexivity.
Qed.

Lemma starts_value_app s rest : starts_value s -> starts_value (s ++ rest).
Proof. intros (c & t & -> & H). exists c, (t ++ rest)%string. now split. Qed.

Lemma skip_ws_value s : starts_value s -> skip_ws s = s.
Proof.
  intros (c & t & -> & H). apply value_head_facts in H. destruct H as (H & _).
  simpl. now rewrite H.
Qed.

Lemma skip_ws_spaces n s : skip_ws (spaces n ++ s) = skip_ws s.
Proof. induction n as [|n IH]; [reflexivity | exact IH]. Qed.

Lemma skip_ws_newline_indent n s : skip_ws (newline_indent n ++ s) = skip_ws s.
Proof. unfold newline_indent. simpl. apply skip_ws_spaces. Qed.

Lemma number_stops_newline_indent n s : number_stops (newline_indent n ++ s).
Proof. reflexivity. Qed.

Lemma length_newline_indent n : (1 <= String.length (newline_indent n))%nat.
Proof. unfold newline_indent. simpl. lia. Qed.

Lemma py_str_int_head n : exists c t, py_str_int n = String c t /\ is_number_head c = true.
Proof.
  unfold py_str_int. destruct n as [|p|p]; simpl.
  - eexists. eexists. split; reflexivity.
  - destruct (Pos.to_uint p) as [|l|l|l|l|l|l|l|l|l|l] eqn:E;
      [ exfalso; now apply (DecimalPos.Unsigned.to_uint_nonnil p)
      | exfalso; now apply (to_uint_head_nonzero p l) | .. ];
      (eexists; eexists; split; reflexivity).
  - eexists. eexists. split; reflexivity.
Qed.

Section RoundTrip.

Variable float_repr : float -> string.
Variable py_float : string -> float.

Lemma floatstr_head x :
  reads_back float_repr py_float x ->
  exists c t, floatstr float_repr x = String c t /\ is_value_head c = true.
Proof.
  intros Hx. unfold floatstr, reads_back, repr_is_printed in *.
  destruct (PrimFloat.is_nan x); [eexists; eexists; split; reflexivity|].
  destruct (PrimFloat.eqb x infinity); [eexists; eexists; split; reflexivity|].
  destruct (PrimFloat.eqb x neg_infinity); [eexists; eexists; split; reflexivity|].
  destruct (Hx eq_refl) as (Hlit & _). unfold json_float_literal in Hlit.
  destruct (float_repr x) as [|c t]; [discriminate Hlit|].
  destruct (match_number (String c t)) as [m|] eqn:Hm; [|discriminate Hlit].
  exists c, t. split; [reflexivity|].
  apply number_head_value. eapply match_number_head, Hm.
Qed.

Lemma iterencode_list lvl x xs :
  iterencode float_repr lvl (PyList (x :: xs))
  = ("[" ++ newline_indent (S lvl)
     ++ String.concat ("," ++ newline_indent (S lvl)) (map (iterencode float_repr (S lvl)) (x :: xs))
     ++ newline_indent lvl ++ "]")%string.
Proof. reflexivity. Qed.

Lemma iterencode_dict lvl kv kvs :
  iterencode float_repr lvl (PyDict (kv :: kvs))
  = ("{" ++ newline_indent (S lvl)
     ++ String.concat ("," ++ newline_indent (S lvl))
          (map (encode_entry float_repr (S lvl)) (kv :: kvs))
     ++ newline_indent lvl ++ "}")%string.
Proof. reflexivity. Qed.

Lemma encode_entry_cons lvl key v :
  encode_entry float_repr lvl (key, v)
  = String dquote
      (escape_string key
       ++ String dquote (String ":" (String " " (iterencode float_repr lvl v)))).
Proof.
  unfold encode_entry, encode_basestring. simpl. now rewrite append_assoc.
Qed.

Lemma length_encode_entry lvl key v :
  (S (String.length (iterencode float_repr lvl v))
   <= String.length (encode_entry float_repr lvl (key, v)))%nat.
Proof.
  rewrite encode_entry_cons. simpl. rewrite length_append. simpl. lia.
Qed.

Lemma iterencode_head lvl v : readable float_repr py_float v -> starts_value (iterencode float_repr lvl v).
Proof.
  intros Hv. destruct Hv as [ | b | n | x Hx | s | items _ | entries _ _ ].
  - eexists. eexists. split; reflexivity.
  - destruct b; eexists; eexists; split; reflexivity.
  - destruct (py_str_int_head n) as (c & t & Ht & Hc).
    exists c, t. split; [exact Ht | now apply number_head_value].
  - now apply floatstr_head.
  - eexists. eexists. split; reflexivity.
  - destruct items; eexists; eexists; split; reflexivity.
  - destruct entries; eexists; eexists; split; reflexivity.
Qed.

Lemma scan_once_atom fuel c t :
  Ascii.eqb c dquote = false -> Ascii.eqb c "{" = false -> Ascii.eqb c "[" = false ->
  scan_once py_float (S fuel) (String c t) = scan_atom py_float (String c t).
Proof. intros H1 H2 H3. simpl. now rewrite H1, H2, H3. Qed.

Lemma concat_map_cons {A} (sep : string) (g : A -> string) x y l :
  String.concat sep (map g (x :: y :: l))
  = (g x ++ sep ++ String.concat sep (map g (y :: l)))%string.
Proof. reflexivity. Qed.

Lemma dict_set_fresh k v d :
  ~ In k (map fst d) -> dict_set k v d = d ++ [(k, v)].
Proof.
  induction d as [|[k' v'] d IH]; simpl; intros H; [reflexivity|].
  destruct (String.eqb k' k) eqn:E.
  - apply String.eqb_eq in E. exfalso. apply H. now left.
  - rewrite IH; [reflexivity|]. intros Hin. apply H. now right.
Qed.

Lemma dict_of_pairs_nodup entries :
  NoDup (map fst entries) -> dict_of_pairs entries = entries.
Proof.
  unfold dict_of_pairs.
  assert (H : forall l acc, NoDup (map fst (acc ++ l)) ->
            fold_left (fun d kv => dict_set (fst kv) (snd kv) d) l acc = acc ++ l).
  { induction l as [|[k v] l IH]; intros acc Hnd; simpl.
    - now rewrite List.app_nil_r.
    - rewrite dict_set_fresh.
      + rewrite IH; rewrite <- List.app_assoc; [reflexivity | exact Hnd].
      + rewrite map_app in Hnd. simpl in Hnd.
        apply NoDup_remove_2 in Hnd. intros Hin. apply Hnd.
        apply in_or_app. now left. }
  intros Hnd. now apply (H entries []).
Qed.

Lemma parse_array_items items n T :
  starts_value T ->
  parse_array items (newline_indent n ++ T)
  = match items T with
    | Ok (vs, r) => Ok (PyList vs, r)
    | Raise e => Raise e
    end.
Proof.
  intros H. unfold parse_array. rewrite skip_ws_newline_indent.
  rewrite skip_ws_value by assumption.
  destruct H as (c & t & -> & Hc). apply value_head_facts in Hc.
  destruct Hc as (_ & Hc & _). now rewrite Hc.
Qed.

Theorem scan_once_iterencode : forall fuel v lvl rest,
  readable float_repr py_float v ->
  (String.length (iterencode float_repr lvl v) < fuel)%nat ->
  number_stops rest ->
  scan_once py_float fuel (iterencode float_repr lvl v ++ rest) = Ok (v, rest).
Proof.
  induction fuel as [fuel IH] using lt_wf_ind.
  intros v lvl rest Hv Hfuel Hrest.
  destruct fuel as [|f]; [lia|].
  destruct Hv as [ | b | n | x Hx | s | items Hitems | entries Hnd Hentries ].
  - reflexivity.
  - destruct b; reflexivity.
  - (* int *)
    destruct (py_str_int_head n) as (c & t & Ht & Hc).
    pose proof (number_head_facts c Hc) as (H1 & H2 & H3 & _).
    cbn [iterencode]. pose proof (scan_atom_int py_float n rest Hrest) as Ha.
    rewrite Ht in *. cbn [append] in *. now rewrite scan_once_atom.
  - (* float *)
    pose proof (scan_atom_float float_repr py_float x rest Hx Hrest) as Ha.
    cbn [iterencode].
    destruct (floatstr float_repr x) as [|c t] eqn:Ht.
    + destruct (floatstr_head x Hx) as (c & t & Hc & _). congruence.
    + cbn [append] in *.
      destruct (Ascii.eqb c dquote) eqn:E1; [|destruct (Ascii.eqb c "{") eqn:E2;
        [|destruct (Ascii.eqb c "[") eqn:E3; [|now rewrite scan_once_atom]]].
      * apply Ascii.eqb_eq in E1. subst c. discriminate Ha.
      * apply Ascii.eqb_eq in E2. subst c. discriminate Ha.
      * apply Ascii.eqb_eq in E3. subst c. discriminate Ha.
  - (* str *)
    cbn [iterencode]. unfold encode_basestring. cbn [append].
    rewrite append_assoc. cbn [append str1].
    cbn [scan_once]. change (Ascii.eqb dquote dquote) with true. cbv iota.
    now rewrite scanstring_escape.
  - (* list *)
    destruct items as [|x xs]; [reflexivity|].
    rewrite iterencode_list in *.
    set (sep := ("," ++ newline_indent (S lvl))%string) in *.
    assert (Hloop : forall xs x k,
      (k <= f)%nat ->
      (S (String.length (String.concat sep (map (iterencode float_repr (S lvl)) (x :: xs)))) < k)%nat ->
      Forall (readable float_repr py_float) (x :: xs) ->
      array_items py_float k
        (String.concat sep (map (iterencode float_repr (S lvl)) (x :: xs))
         ++ newline_indent lvl ++ "]" ++ rest)
      = Ok (x :: xs, rest)).
    { clear Hitems Hfuel xs x.
      induction xs as [|y ys IHxs]; intros x k Hk Hlen Hall;
        (destruct k as [|k']; [lia|]); inversion Hall as [|? ? Hx Hrest']; subst.
      - cbn [map String.concat] in *. cbn [array_items].
        rewrite IH; [| lia | assumption | lia | apply number_stops_newline_indent].
        rewrite skip_ws_newline_indent. reflexivity.
      - rewrite concat_map_cons in *. rewrite !append_assoc.
        rewrite !length_append in Hlen.
        cbn [array_items].
        rewrite IH; [| lia | assumption | lia | reflexivity].
        unfold sep at 1. cbn [append skip_ws]. change (is_json_ws ",") with false.
        cbv iota. change (Ascii.eqb "," "]") with false.
        change (Ascii.eqb "," ",") with true. cbv iota.
        rewrite skip_ws_newline_indent.
        rewrite skip_ws_value.
        2:{ inversion Hrest' as [|? ? Hy _]; subst.
            destruct (iterencode_head (S lvl) y Hy) as (c & t & Ht & Hc).
            destruct ys; cbn [map String.concat]; rewrite Ht;
              eexists; eexists; split; try reflexivity; exact Hc. }
        assert (Hsep : (1 <= String.length sep)%nat) by (unfold sep; simpl; lia).
        assert (Hr := IHxs y k'). cbn [append] in Hr |- *.
        rewrite Hr; [reflexivity | lia | lia | assumption]. }
    rewrite !append_assoc. cbn [append scan_once].
    change (Ascii.eqb "[" dquote) with false. change (Ascii.eqb "[" "{") with false.
    change (Ascii.eqb "[" "[") with true. cbv iota.
    assert (Hhead : starts_value
              (String.concat sep (map (iterencode float_repr (S lvl)) (x :: xs))
               ++ newline_indent lvl ++ "]" ++ rest)).
    { apply starts_value_app.
      inversion Hitems as [|? ? Hx _]; subst.
      destruct (iterencode_head (S lvl) x Hx) as (c & t & Ht & Hc).
      destruct xs; cbn [map String.concat]; rewrite Ht;
        eexists; eexists; split; try reflexivity; exact Hc. }
    rewrite !length_append in Hfuel. cbn [String.length] in Hfuel.
    pose proof (length_newline_indent (S lvl)).
    assert (Hr := Hloop xs x f). cbn [append] in Hr, Hhead |- *.
    rewrite parse_array_items by assumption.
    rewrite Hr; [reflexivity | lia | lia | assumption].
  - (* dict *)
    destruct entries as [|kv kvs]; [reflexivity|].
    rewrite iterencode_dict in *.
    set (sep := ("," ++ newline_indent (S lvl))%string) in *.
    assert (Hsep : (1 <= String.length sep)%nat) by (unfold sep; simpl; lia).
    assert (Hloop : forall kvs kv k,
      (k <= f)%nat ->
      (S (String.length
            (String.concat sep (map (encode_entry float_repr (S lvl)) (kv :: kvs)))) < k)%nat ->
      Forall (fun kv => readable float_repr py_float (snd kv)) (kv :: kvs) ->
      exists tail,
        String.concat sep (map (encode_entry float_repr (S lvl)) (kv :: kvs))
        = String dquote tail
        /\ object_pairs py_float k (tail ++ newline_indent lvl ++ "}" ++ rest)
           = Ok (kv :: kvs, rest)).
    { clear Hnd Hentries Hfuel kvs kv.
      induction kvs as [|kv' kvs' IHkvs]; intros [key v] k Hk Hlen Hall;
        (destruct k as [|k']; [lia|]); inversion Hall as [|? ? Hx Hrest']; subst;
        simpl snd in Hx; pose proof (length_encode_entry (S lvl) key v) as Hle.
      - cbn [map String.concat] in *. rewrite encode_entry_cons.
        eexists. split; [reflexivity|].
        rewrite !append_assoc. cbn [append object_pairs].
        rewrite scanstring_escape. cbn [skip_ws].
        change (is_json_ws ":") with false. cbv iota.
        change (Ascii.eqb ":" ":") with true. cbv iota.
        cbn [skip_ws]. change (is_json_ws " ") with true. cbv iota.
        rewrite skip_ws_value
          by (apply starts_value_app; now apply iterencode_head).
        rewrite IH; [| lia | assumption | lia | apply number_stops_newline_indent].
        rewrite skip_ws_newline_indent. reflexivity.
      - rewrite concat_map_cons in *. rewrite !length_append in Hlen.
        destruct (IHkvs kv' k') as (tail & Htail & Hrun); [lia | lia | assumption |].
        rewrite Htail. rewrite encode_entry_cons.
        eexists. split; [reflexivity|].
        rewrite !append_assoc. cbn [append object_pairs].
        rewrite scanstring_escape. cbn [skip_ws].
        change (is_json_ws ":") with false. cbv iota.
        change (Ascii.eqb ":" ":") with true. cbv iota.
        cbn [skip_ws]. change (is_json_ws " ") with true. cbv iota.
        rewrite skip_ws_value
          by (apply starts_value_app; now apply iterencode_head).
        rewrite IH; [| lia | assumption | lia | reflexivity].
        unfold sep. cbn [append skip_ws]. change (is_json_ws ",") with false.
        cbv iota. change (Ascii.eqb "," "}") with false.
        change (Ascii.eqb "," ",") with true. cbv iota.
        rewrite skip_ws_newline_indent. cbn [skip_ws].
        change (is_json_ws dquote) with false. cbv iota.
        change (Ascii.eqb dquote dquote) with true. cbv iota.
        cbn [append] in Hrun. rewrite Hrun. reflexivity. }
    rewrite !length_append in Hfuel. cbn [String.length] in Hfuel.
    pose proof (length_newline_indent (S lvl)).
    destruct (Hloop kvs kv f) as (tail & Htail & Hrun); [lia | lia | assumption |].
    rewrite Htail. rewrite !append_assoc. cbn [append scan_once].
    change (Ascii.eqb "{" dquote) with false. change (Ascii.eqb "{" "{") with true.
    cbv iota. unfold parse_object. rewrite skip_ws_newline_indent.
    cbn [append skip_ws]. change (is_json_ws dquote) with false. cbv iota.
    change (Ascii.eqb dquote "}") with false.
    change (Ascii.eqb dquote dquote) with true. cbv iota.
    cbn [append] in Hrun. rewrite Hrun. now rewrite dict_of_pairs_nodup.
Qed.

(** What is written by [json.dump] is read back by [json.loads]. *)
Lemma json_loads_dump v :
  readable float_repr py_float v ->
  json_loads py_float (json_dump float_repr v) = Ok v.
Proof.
  intros Hv. unfold json_loads, json_dump.
  pose proof (iterencode_head 0 v Hv) as Hhead.
  rewrite skip_ws_value by assumption.
  assert (Hbom : strip_prefix bom (iterencode float_repr 0 v) = None).
  { destruct Hhead as (c & t & -> & Hc). apply value_head_facts in Hc.
    destruct Hc as (_ & _ & _ & Hc). unfold bom. cbn [strip_prefix]. now rewrite Hc. }
  rewrite Hbom.
  rewrite <- (append_nil_r (iterencode float_repr 0 v)) at 2.
  rewrite scan_once_iterencode; [reflexivity | assumption | lia | exact I].
Qed.

End RoundTrip.

Lemma readable_book_dict float_repr py_float (b : ScrapeBooks.book) :
  reads_back float_repr py_float (ScrapeBooks.Precio b) ->
  readable float_repr py_float (ScrapeBooks.book_dict b).
Proof.
  intros Hp. unfold ScrapeBooks.book_dict. apply readable_dict.
  - simpl. repeat constructor; simpl; intuition discriminate.
  - apply Forall_cons; [apply readable_str|].
    apply Forall_cons; [apply readable_float; exact Hp|].
    apply Forall_cons; [simpl; destruct (ScrapeBooks.Categoria b); constructor|].
    apply Forall_cons; [apply readable_str|]. apply Forall_nil.
Qed.

Lemma readable_headline_dict float_repr py_float (h : ScrapeHN.headline) :
  readable float_repr py_float (ScrapeHN.headline_dict h).
Proof.
  unfold ScrapeHN.headline_dict. apply readable_dict.
  - simpl. repeat constructor; simpl; intuition discriminate.
  - apply Forall_cons; [apply readable_str|].
    apply Forall_cons; [apply readable_int|].
    apply Forall_cons; [simpl; destruct (ScrapeHN.url h); constructor|].
    apply Forall_nil.
Qed.

Lemma ltb_not_nan x y : PrimFloat.ltb x y = true -> PrimFloat.is_nan x = false.
Proof.
  intros H. destruct (PrimFloat.is_nan x) eqn:E; [|reflexivity].
  apply is_nan_eq in E. subst x. rewrite ltb_spec in H.
  change (Prim2SF nan) with S754_nan in H. discriminate H.
Qed.


Module HNFacts.

Import ScrapeHN HNSpec.

Lemma extract_score_spec E sub s :
  match row_score E sub with
  | Ok n => fst (extract_score E sub s) = Ok n
  | Raise e => fst (extract_score E sub s) = Raise e
  end /\ news_items (snd (extract_score E sub s)) = news_items s
      /\ rows (snd (extract_score E sub s)) = rows s.
Proof.
  unfold extract_score, row_score, score_lookup, try_except, bind, eval, first_item.
  destruct (find_score sub) as [span|e]; simpl.
  - destruct (span_text span) as [text|e]; simpl.
    + destruct (py_split E text) as [|w ws]; simpl; auto.
      destruct (py_int E w) as [n|e]; simpl; auto.
      destruct e; simpl; auto.
    + destruct e; simpl; auto.
  - destruct e; simpl; auto.
Qed.

Lemma extract_row_spec E r s :
  fst (extract_row E r s) = Ok Next
  /\ news_items (snd (extract_row E r s)) =
       news_items s ++ match row_record E r with Some h => [h] | None => [] end
  /\ rows (snd (extract_row E r s)) = rows s.
Proof.
  destruct (extract_row E r s) as [res s1] eqn:Hrun.
  unfold extract_row, row_record, try_except, bind, eval in *.
  destruct (find_titleline r) as [a|e]; simpl in *.
  2:{ destruct e; inversion Hrun; subst; simpl; rewrite app_nil_r; auto. }
  destruct (a_text a) as [t|e]; simpl in *.
  2:{ destruct e; inversion Hrun; subst; simpl; rewrite app_nil_r; auto. }
  destruct (a_href a) as [u|e]; simpl in *.
  2:{ destruct e; inversion Hrun; subst; simpl; rewrite app_nil_r; auto. }
  destruct (find_sibling r) as [sub|e]; simpl in *.
  2:{ destruct e; inversion Hrun; subst; simpl; rewrite app_nil_r; auto. }
  destruct (extract_score_spec E sub s) as (Hr & Hi & Hw).
  destruct (extract_score E sub s) as [res2 s2]; simpl in *.
  destruct (row_score E sub) as [n|e]; subst res2; simpl in *.
  - inversion Hrun; subst; simpl. rewrite Hi, Hw. auto.
  - destruct e; inversion Hrun; subst; simpl; rewrite Hi, Hw, app_nil_r; auto.
Qed.

Lemma row_loop_spec E rs : forall s,
  fst (for_in rs (extract_row E) s) = Ok None
  /\ news_items (snd (for_in rs (extract_row E) s)) = news_items s ++ kept E rs
  /\ rows (snd (for_in rs (extract_row E) s)) = rows s.
Proof.
  induction rs as [|r rs IH]; intros s; simpl.
  - rewrite app_nil_r. auto.
  - unfold bind. destruct (extract_row_spec E r s) as (Hr & Hi & Hw).
    destruct (extract_row E r s) as [res s1]; simpl in *. subst res.
    destruct (IH s1) as (Hr' & Hi' & Hw').
    rewrite Hr', Hi', Hw', Hi, Hw, <- app_assoc. auto.
Qed.

(** ** The rows read and the sequence returned *)

Ltac hn_unfold :=
  unfold acquire, release, locate_and_extract, start_attempt, navigate_attempt,
    find_attempt, quit_if_driver, sleep, log, emit.

Ltac hn_preserves closer :=
  hn_unfold; repeat (preserves_step; try solve [closer]).

Lemma acquire_blank E : preserves blank (acquire E).
Proof. hn_preserves ltac:(unfold blank in *; simpl; auto). Qed.

Lemma release_blank : preserves blank release.
Proof. hn_preserves ltac:(unfold blank in *; simpl; auto). Qed.

Ltac hn_compute H :=
  cbv beta iota zeta delta
    [navigate_attempt find_attempt start_attempt quit_if_driver release save
     dump_to_file sleep log emit
     try_except try_finally dispatch bind eval modify gets ret raise
     is_WebDriverException is_TimeoutException is_NoSuchElementException
     is_IOError is_Exception orb andb] in H.

Lemma navigate_loop_spec E :
  hoare blank (for_in (py_range MAX_RETRIES) (navigate_attempt E))
    (fun r s => blank s /\ match r with
                           | Ok (Some (Returned v)) => v = []
                           | _ => True
                           end).
Proof.
  apply hoare_for_in; [|auto].
  intros a s Hs.
  destruct (navigate_attempt E a s) as [res s1] eqn:Hrun.
  hn_compute Hrun. unfold blank in *.
  destruct (driver_get E a) as [[]|e].
  - destruct (current_url E a) as [u|e].
    + inversion Hrun; subst; simpl. auto.
    + destruct e; hn_compute Hrun.
      all: try (inversion Hrun; subst; simpl; now auto).
      all: destruct (a <? MAX_RETRIES - 1); simpl in Hrun.
      all: try destruct (driver s); inversion Hrun; subst; simpl; auto.
  - destruct e; hn_compute Hrun.
    all: try (inversion Hrun; subst; simpl; now auto).
    all: destruct (a <? MAX_RETRIES - 1); simpl in Hrun.
    all: try destruct (driver s); inversion Hrun; subst; simpl; auto.
Qed.

Lemma find_loop_spec E :
  hoare blank (for_in (py_range MAX_RETRIES) (find_attempt E))
    (fun r s => match r with
                | Ok (Some Broke) => rows s <> [] /\ news_items s = []
                | Ok (Some (Returned v)) => v = [] /\ blank s
                | _ => blank s
                end).
Proof.
  apply hoare_for_in; [|auto].
  intros a s Hs.
  destruct (find_attempt E a s) as [res s1] eqn:Hrun.
  hn_compute Hrun. unfold blank in *. destruct Hs as [Hrows Hitems].
  destruct (find_elements E a) as [[|r rs]|e].
  - inversion Hrun; subst; simpl. split; auto.
  - inversion Hrun; subst; simpl. split; [discriminate | auto].
  - destruct e; hn_compute Hrun.
    all: try (inversion Hrun; subst; simpl; split; now auto).
    all: destruct (a <? MAX_RETRIES - 1); simpl in Hrun.
    all: try destruct (driver s); inversion Hrun; subst; simpl; repeat split; auto.
Qed.

Lemma kept_nil_blank E s : blank s -> news_items s = kept E (rows s).
Proof. intros [Hr Hi]. rewrite Hr, Hi. reflexivity. Qed.

Lemma locate_and_extract_spec E :
  hoare blank (locate_and_extract E)
    (fun r s => news_items s = kept E (rows s)
                /\ match r with
                   | Ok (Some v) => v = []  /\ blank s
                   | Ok None => True
                   | Raise _ => blank s
                   end).
Proof.
  intros s Hs.
  destruct (locate_and_extract E s) as [res sf] eqn:Hrun. simpl.
  unfold locate_and_extract in Hrun.
  bind_split Hrun nav s1 Hnav.
  2:{ subst res. pose proof (navigate_loop_spec E s Hs) as L.
      rewrite Hnav in L. simpl in L. destruct L as [L _].
      split; [apply kept_nil_blank|]; auto. }
  pose proof (navigate_loop_spec E s Hs) as L. rewrite Hnav in L. simpl in L.
  destruct L as [Hb1 Hv].
  assert (Hcont : forall r s',
    (modify (st_items []) ;; modify (st_rows []) ;;
     found <- for_in (py_range MAX_RETRIES) (find_attempt E) ;;
     match found with
     | Some (Returned v) => ret (Some v)
     | _ =>
         located <- gets rows ;;
         match located with
         | [] =>
             log WARNING "No se procesaron noticias porque no se encontraron elementos." ;;
             quit_if_driver ;;
             ret (Some [])
         | _ => for_in located (extract_row E) ;; ret None
         end
     end) s1 = (r, s') ->
    news_items s' = kept E (rows s')
    /\ match r with
       | Ok (Some v) => v = [] /\ blank s'
       | Ok None => True
       | Raise _ => blank s'
       end).
  { clear Hrun. intros r s' Hrun.
    bind_split Hrun u1 s2 H1; [|discriminate H1].
    bind_split Hrun u2 s3 H2; [|discriminate H2].
    cbv [modify] in H1, H2. inversion H1; subst s2. inversion H2; subst s3.
    clear H1 H2.
    assert (Hb2 : blank (st_rows [] (st_items [] s1))) by (split; reflexivity).
    pose proof (find_loop_spec E _ Hb2) as Hfind.
    bind_split Hrun found s4 Hf.
    2:{ subst r. rewrite Hf in Hfind. simpl in Hfind.
        split; [apply kept_nil_blank|]; auto. }
    rewrite Hf in Hfind. simpl in Hfind.
    destruct found as [[|v]|].
    - (* break: rows were found *)
      destruct Hfind as [Hne Hit].
      bind_split Hrun located s5 Hg; [|discriminate Hg].
      cbv [gets] in Hg. inversion Hg; subst located s5. clear Hg.
      destruct (rows s4) as [|r0 rs] eqn:Hrows; [congruence|].
      destruct (row_loop_spec E (r0 :: rs) s4) as (Hr & Hi & Hw).
      bind_split Hrun o s6 Hl.
      2:{ rewrite Hl in Hr. discriminate Hr. }
      rewrite Hl in Hr, Hi, Hw. simpl in Hr, Hi, Hw.
      cbv [ret] in Hrun. inversion Hrun; subst r s'.
      rewrite Hi, Hw, Hit, Hrows. auto.
    - destruct Hfind as [-> Hb]. cbv [ret] in Hrun. inversion Hrun; subst.
      split; [apply kept_nil_blank|]; auto.
    - destruct Hfind as [Hr Hi].
      bind_split Hrun located s5 Hg; [|discriminate Hg].
      cbv [gets] in Hg. inversion Hg; subst located s5. clear Hg.
      rewrite Hr in Hrun.
      hn_compute Hrun. destruct (driver _) in Hrun; inversion Hrun; subst; simpl.
      all: unfold blank; simpl; rewrite Hr, Hi; repeat split; auto. }
  destruct nav as [[|v]|].
  - apply Hcont, Hrun.
  - subst v. cbv [ret] in Hrun. inversion Hrun; subst.
    split; [apply kept_nil_blank|]; auto.
  - apply Hcont, Hrun.
Qed.

Lemma kept_length E rs : (List.length (kept E rs) <= List.length rs)%nat.
Proof.
  induction rs as [|r rs IH]; simpl; [lia|].
  rewrite length_app. destruct (row_record E r); simpl; lia.
Qed.

Lemma save_spec E out s :
  write_benign (open_write E) ->
  fst (save E out s) = Ok (news_items s)
  /\ news_items (snd (save E out s)) = news_items s
  /\ rows (snd (save E out s)) = rows s.
Proof.
  intros Hw. destruct (save E out s) as [res s1] eqn:Hrun. simpl.
  hn_compute Hrun. destruct (open_write E) as [|e|e n]; simpl in Hw.
  - inversion Hrun; subst; simpl; auto.
  - destruct e; try discriminate Hw; inversion Hrun; subst; simpl; auto.
  - destruct e; try discriminate Hw; inversion Hrun; subst; simpl; auto.
Qed.

Lemma scrape_spec E out :
  write_benign (open_write E) ->
  hoare blank (scrape E out)
    (fun r s => match r with
                | Ok v => v = kept E (rows s)
                | Raise _ => blank s
                end).
Proof.
  intros Hw s Hs.
  destruct (scrape E out s) as [res sf] eqn:Hrun. simpl.
  unfold scrape in Hrun.
  pose proof (locate_and_extract_spec E s Hs) as L.
  bind_split Hrun early s1 Hl.
  2:{ subst res. rewrite Hl in L. simpl in L. tauto. }
  rewrite Hl in L. simpl in L. destruct L as [Hk Hv].
  destruct early as [v|].
  - cbv [ret] in Hrun. inversion Hrun; subst. destruct Hv as [-> [Hr _]].
    now rewrite Hr.
  - destruct (save_spec E out s1 Hw) as (Hr & Hi & Hrw).
    rewrite Hrun in Hr, Hi, Hrw. simpl in *. subst res. now rewrite Hrw.
Qed.

Lemma release_spec s :
  fst (release s) = Ok tt /\ rows (snd (release s)) = rows s.
Proof.
  cbv [release bind gets emit log modify]. destruct (driver s); auto.
Qed.

Lemma scrape_hacker_news_kept E out files0 :
  write_benign (open_write E) ->
  forall v, fst (scrape_hacker_news E out files0) = Ok v ->
  v = kept E (rows (snd (scrape_hacker_news E out files0))).
Proof.
  intros Hw v.
  destruct (scrape_hacker_news E out files0) as [res sf] eqn:Hrun. simpl.
  intros ->. unfold scrape_hacker_news in Hrun.
  bind_split Hrun u s1 H1; [|discriminate Hrun].
  cbv [log emit modify] in H1. inversion H1; subst u s1. clear H1.
  set (s0 := st_emit _ (initial files0)) in *.
  assert (Hb0 : blank s0) by (split; reflexivity).
  pose proof (acquire_blank E s0 Hb0) as Hacq.
  bind_split Hrun early s1 Ha; [|discriminate Hrun].
  rewrite Ha in Hacq. simpl in Hacq.
  destruct early as [v0|].
  - (* the session was not acquired: the function returned before the [try] *)
    assert (Hv0 : v0 = []).
    { clear Hrun. unfold acquire in Ha.
      bind_split Ha u1 s2 H1; [|discriminate Ha].
      bind_split Ha started s3 H2; [|discriminate Ha].
      assert (Hst : match started with Some (Returned w) => w = [] | _ => True end).
      { clear Ha.
        assert (Hh : hoare (fun _ => True) (for_in (py_range MAX_RETRIES) (start_attempt E))
                       (fun r _ => match r with
                                   | Ok (Some (Returned w)) => w = []
                                   | _ => True
                                   end)).
        { apply hoare_for_in; [|auto]. intros a s _.
          destruct (start_attempt E a s) as [r' s'] eqn:Hs. simpl.
          hn_compute Hs. destruct (start_driver E a) as [[]|e].
          - inversion Hs; subst; exact I.
          - destruct e; hn_compute Hs.
            all: try (inversion Hs; subst; exact I).
            all: destruct (a <? MAX_RETRIES - 1); inversion Hs; subst; auto. }
        specialize (Hh s2 I). rewrite H2 in Hh. exact Hh. }
      destruct started as [[|w]|].
      + bind_split Ha d s4 H3; [|discriminate Ha].
        destruct d; cbv [ret] in Ha; inversion Ha; reflexivity.
      + cbv [ret] in Ha. inversion Ha. congruence.
      + bind_split Ha d s4 H3; [|discriminate Ha].
        destruct d; cbv [ret] in Ha; inversion Ha; reflexivity. }
    cbv [ret] in Hrun. inversion Hrun; subst.
    destruct Hacq as [-> _]. reflexivity.
  - unfold try_finally in Hrun.
    pose proof (scrape_spec E out Hw s1 Hacq) as Hs.
    unfold try_except in Hrun.
    destruct (scrape E out s1) as [[w|e] s2]; simpl in Hs.
    + destruct (release_spec s2) as (Hr & Hrw).
      destruct (release s2) as [ru s3]; simpl in Hr, Hrw. subst ru.
      inversion Hrun; subst. now rewrite Hrw.
    + simpl in Hrun. cbv [log emit modify bind ret] in Hrun.
      set (s3 := st_emit _ s2) in *.
      destruct (release_spec s3) as (Hr & Hrw).
      destruct (release s3) as [ru s4]; simpl in Hr, Hrw. subst ru.
      inversion Hrun; subst.
      rewrite Hrw. destruct Hs as [Hr _]. simpl. now rewrite Hr.
Qed.

(** * Claims on scrape_hacker_news *)

Lemma row_record_skipped E r :
  (exists e, find_titleline r = Raise e)
  \/ (exists a e, find_titleline r = Ok a /\ (a_text a = Raise e \/ a_href a = Raise e))
  \/ (exists e, find_sibling r = Raise e)
  \/ (exists sub e,
        find_sibling r = Ok sub /\ score_lookup E sub = Raise e
        /\ is_NoSuchElementException e || is_ValueError e || is_IndexError e = false) ->
  row_record E r = None.
Proof.
  unfold row_record, row_score.
  intros [(e & H) | [(a & e & H & [Ha | Ha]) | [(e & H) | (sub & e & H & Hl & He)]]].
  - now rewrite H.
  - rewrite H, Ha. reflexivity.
  - rewrite H, Ha. destruct (a_text a); reflexivity.
  - rewrite H. destruct (find_titleline r) as [a|]; [|reflexivity].
    destruct (a_text a), (a_href a); reflexivity.
  - rewrite H, Hl, He. destruct (find_titleline r) as [a|]; [|reflexivity].
    destruct (a_text a), (a_href a); reflexivity.
Qed.

(** C2, as the source has it.  When the file write goes through or fails
    with an IOError, the sequence returned holds, in the order of the
    located rows, one record for each row that is kept and nothing for a
    row that is skipped, so it is at most as long as the list of rows.  A
    row is skipped when the lookup of its title anchor, of the text or the
    href of the anchor, or of its sibling row raises, and when the lookup
    of its score raises anything but NoSuchElementException, ValueError
    and IndexError.  Every other row is kept, with the text and the href
    of its anchor as title and url; its score is the integer that [int]
    reads from the first word of the score text, and 0 when the score
    element is not found, when the text has no word and when [int] raises
    ValueError. *)
Theorem scrape_hacker_news_keeps_readable_rows :
  forall (E : env) (output_file : string) (files0 : files) (v : list headline),
    write_benign (open_write E) ->
    fst (scrape_hacker_news E output_file files0) = Ok v ->
    let located := rows (snd (scrape_hacker_news E output_file files0)) in
    v = kept E located
    /\ (List.length v <= List.length located)%nat
    /\ (forall r,
          (exists e, find_titleline r = Raise e)
          \/ (exists a e, find_titleline r = Ok a
                          /\ (a_text a = Raise e \/ a_href a = Raise e))
          \/ (exists e, find_sibling r = Raise e)
          \/ (exists sub e,
                find_sibling r = Ok sub /\ score_lookup E sub = Raise e
                /\ is_NoSuchElementException e || is_ValueError e || is_IndexError e
                   = false) ->
          row_record E r = None)
    /\ (forall r a t u sub,
          find_titleline r = Ok a -> a_text a = Ok t -> a_href a = Ok u ->
          find_sibling r = Ok sub ->
          (forall span text w ws n,
              find_score sub = Ok span -> span_text span = Ok text ->
              py_split E text = w :: ws -> py_int E w = Ok n ->
              row_record E r = Some {| title := t; score := n; url := u |})
          /\ (find_score sub = Raise NoSuchElementException
              \/ (exists span text,
                    find_score sub = Ok span /\ span_text span = Ok text
                    /\ (py_split E text = []
                        \/ exists w ws, py_split E text = w :: ws
                                        /\ py_int E w = Raise ValueError)) ->
              row_record E r = Some {| title := t; score := 0; url := u |})
          /\ (forall e,
                score_lookup E sub = Raise e ->
                is_NoSuchElementException e || is_ValueError e || is_IndexError e = true ->
                row_record E r = Some {| title := t; score := 0; url := u |})).
Proof.
  intros E out files0 v Hw Hv located.
  assert (Hk : v = kept E located) by (apply scrape_hacker_news_kept; assumption).
  split; [exact Hk|]. split; [rewrite Hk; apply kept_length|].
  split; [apply row_record_skipped|].
  intros r a t u sub Ht Hx Hu Hs. unfold row_record, row_score, score_lookup.
  rewrite Ht, Hx, Hu, Hs. split; [|split].
  - intros span text w ws n Hf Hsp Hsplit Hint.
    rewrite Hf, Hsp, Hsplit, Hint. reflexivity.
  - intros [Hm | (span & text & Hf & Hsp & [Hi | (w & ws & Hsplit & Hp)])].
    + rewrite Hm. reflexivity.
    + rewrite Hf, Hsp, Hi. reflexivity.
    + rewrite Hf, Hsp, Hsplit, Hp. reflexivity.
  - intros e Hl He. rewrite Hl, He. reflexivity.
Qed.

Lemma scrape_hacker_news_keeps_readable_rows_witness :
  let E := env_rows [row_scored; row_without_title; row_without_score] WriteOk in
  let v := [ {| title := "Show HN"; score := 12; url := Some "https://example.org/" |};
             {| title := "Show HN"; score := 0; url := Some "https://example.org/" |} ] in
  v = kept E (rows (snd (scrape_hacker_news E "hacker_news.json" no_files)))
  /\ (List.length v <= List.length (rows (snd (scrape_hacker_news E "hacker_news.json" no_files))))%nat.
Proof.
  intros E v.
  pose proof (scrape_hacker_news_keeps_readable_rows E "hacker_news.json" no_files v
                I eq_refl) as H.
  split; [exact (proj1 H) | exact (proj1 (proj2 H))].
Defined.

(** C2, as the claim states it, fails: a located row whose title anchor is
    not found is not in the sequence returned. *)
Lemma row_without_title_is_dropped :
  rows (snd (scrape_hacker_news (env_rows [row_without_title] WriteOk)
               "hacker_news.json" no_files)) = [row_without_title]
  /\ fst (scrape_hacker_news (env_rows [row_without_title] WriteOk)
            "hacker_news.json" no_files) = Ok [].
Proof. split; reflexivity. Qed.

(** C4 at the failing input: the browser starts and the page never loads.
    [driver.quit] is called at line 98 and again in the [finally] clause. *)
Theorem navigation_exhausted_quits_twice :
  forall (output_file : string) (files0 : files),
    fst (scrape_hacker_news env_navigation_down output_file files0) = Ok []
    /\ count_events is_quit
         (trace (snd (scrape_hacker_news env_navigation_down output_file files0))) = 2%nat.
Proof. intros. split; reflexivity. Qed.

(** A run that reads its rows and writes its file calls [driver.quit] once. *)
Lemma successful_run_quits_once :
  forall (output_file : string) (files0 : files),
    count_events is_quit
      (trace (snd (scrape_hacker_news (env_rows [row_scored] WriteOk)
                     output_file files0))) = 1%nat.
Proof. intros. reflexivity. Qed.

(** ** The file write *)

Ltac no_open_closer :=
  unfold no_open in *; simpl; try assumption;
  let p := fresh "p" in
  let Hin := fresh "Hin" in
  intros p Hin; apply in_app_or in Hin;
  destruct Hin as [Hin|[Hin|[]]];
  [ match goal with H : forall q, ~ In (EvOpenWrite q) _ |- _ => eapply H; eassumption end
  | discriminate Hin ].

Ltac hn_preserves_all closer :=
  repeat (first
    [ progress unfold acquire, release, locate_and_extract, start_attempt,
        navigate_attempt, find_attempt, extract_row, extract_score,
        quit_if_driver, sleep, log, emit
    | preserves_step ];
    try solve [closer]).

Lemma acquire_no_open E : preserves no_open (acquire E).
Proof. hn_preserves_all no_open_closer. Qed.

Lemma locate_and_extract_no_open E : preserves no_open (locate_and_extract E).
Proof. hn_preserves_all no_open_closer. Qed.

Lemma release_no_open : preserves no_open release.
Proof. hn_preserves_all no_open_closer. Qed.

Lemma release_frame s :
  fst (release s) = Ok tt
  /\ fs (snd (release s)) = fs s
  /\ news_items (snd (release s)) = news_items s
  /\ exists evs, trace (snd (release s)) = trace s ++ evs.
Proof.
  cbv [release bind gets emit log modify]. destruct (driver s); simpl.
  - repeat split. exists [EvQuit; EvLog INFO "WebDriver cerrado."%string].
    now rewrite <- app_assoc.
  - repeat split. exists []. now rewrite app_nil_r.
Qed.

Lemma save_failed E out s e :
  is_IOError e = true ->
  (open_write E = OpenRaises e \/ exists n, open_write E = DumpRaises e n) ->
  fst (save E out s) = Ok (news_items s)
  /\ news_items (snd (save E out s)) = news_items s
  /\ trace (snd (save E out s))
     = trace s ++ [EvOpenWrite out; EvLog ERROR "Error al escribir en el archivo JSON "%string].
Proof.
  intros He Hw. destruct (save E out s) as [res s1] eqn:Hrun. simpl.
  hn_compute Hrun.
  destruct Hw as [Hw | (n & Hw)]; rewrite Hw in Hrun; hn_compute Hrun;
    destruct e; try discriminate He; inversion Hrun; subst; simpl;
    rewrite <- app_assoc; auto.
Qed.

Lemma save_written E out s :
  open_write E = WriteOk ->
  fst (save E out s) = Ok (news_items s)
  /\ fs (snd (save E out s)) out = Some (Text (news_json E (news_items s))).
Proof.
  intros Hw. destruct (save E out s) as [res s1] eqn:Hrun. simpl.
  hn_compute Hrun. rewrite Hw in Hrun. inversion Hrun; subst. simpl.
  unfold write_file. now rewrite String.eqb_refl.
Qed.

(** A run up to the file write: either it ends before the write, and then
    its trace has no write and it does not depend on the outcome of the
    write; or it reaches [save] in a state that does not depend on it. *)
Lemma scrape_hacker_news_cases E out files0 :
  (no_open (snd (scrape_hacker_news E out files0)))
  \/ exists s2,
       (forall w,
           scrape_hacker_news (with_open_write E w) out files0
           = (let (r, s3) := save (with_open_write E w) out s2 in
              match r with
              | Ok v => (Ok v, snd (release s3))
              | Raise _ =>
                  (Ok [], snd (release
                                 (st_emit (EvLog ERROR
                                    "Ocurrió un error general durante el scraping: "%string) s3)))
              end)).
Proof.
  pose (s0 := st_emit (EvLog INFO "Iniciando el scraping de Hacker News..."%string)
                (initial files0)).
  assert (Hn0 : no_open s0) by (intros p [H|[]]; discriminate H).
  assert (Hstart : forall E',
    scrape_hacker_news E' out files0
    = match acquire E' s0 with
      | (Ok (Some v), s1) => (Ok v, s1)
      | (Ok None, s1) =>
          try_finally
            (try_except (scrape E' out)
               [ (is_Exception,
                  fun e =>
                    log ERROR "Ocurrió un error general durante el scraping: "%string ;;
                    ret []) ])
            release s1
      | (Raise e, s1) => (Raise e, s1)
      end).
  { intros E'. unfold scrape_hacker_news. unfold bind at 1.
    cbv [log emit modify]. unfold bind at 1. fold s0.
    destruct (acquire E' s0) as [[[v|]|e] s1]; reflexivity. }
  pose proof (acquire_no_open E s0 Hn0) as Hacq.
  rewrite (Hstart E).
  destruct (acquire E s0) as [[[v|]|e] s1] eqn:Ha; simpl in Hacq.
  - left. exact Hacq.
  - unfold try_finally, try_except, scrape. unfold bind at 1.
    pose proof (locate_and_extract_no_open E s1 Hacq) as Hloc.
    destruct (locate_and_extract E s1) as [[[v|]|e] s2] eqn:Hl; simpl in Hloc.
    + left. cbv [ret]. pose proof (release_no_open s2 Hloc) as Hr.
      destruct (release s2) as [[u|e] s3]; exact Hr.
    + right. exists s2. intros w. rewrite (Hstart (with_open_write E w)).
      change (acquire (with_open_write E w)) with (acquire E). rewrite Ha.
      unfold try_finally, try_except, scrape. unfold bind at 1.
      change (locate_and_extract (with_open_write E w)) with (locate_and_extract E).
      rewrite Hl.
      destruct (save (with_open_write E w) out s2) as [[v|e] s3].
      * destruct (release_frame s3) as (Hr & _).
        destruct (release s3) as [ru s4]. simpl in Hr. subst ru. reflexivity.
      * simpl. cbv [log emit modify bind ret].
        match goal with
        | |- context [release ?st] =>
            destruct (release_frame st) as (Hr & _);
            destruct (release st) as [ru s4]; simpl in Hr; subst ru
        end. reflexivity.
    + left. simpl. cbv [log emit modify bind ret].
      match goal with
      | |- context [release ?st] =>
          assert (Hn : no_open st) by no_open_closer;
          pose proof (release_no_open st Hn) as Hr;
          destruct (release st) as [[u|e'] s3]; exact Hr
      end.
  - left. exact Hacq.
Qed.

Lemma with_open_write_same E : with_open_write E (open_write E) = E.
Proof. destruct E; reflexivity. Qed.


Lemma save_raises E out s e :
  is_IOError e = false ->
  (open_write E = OpenRaises e \/ exists n, open_write E = DumpRaises e n) ->
  exists s3,
    save E out s = (Raise e, s3) /\ news_items s3 = news_items s.
Proof.
  intros He Hw. destruct (save E out s) as [res s3] eqn:Hrun. hn_compute Hrun.
  destruct Hw as [Hw | (n & Hw)]; rewrite Hw in Hrun; hn_compute Hrun;
    destruct e; try discriminate He; inversion Hrun; subst;
    eexists; split; reflexivity.
Qed.

Lemma news_json_reads_back E py_float items :
  json_loads py_float (news_json E items) = Ok (PyList (map headline_dict items)).
Proof.
  unfold news_json. apply json_loads_dump. apply readable_list.
  apply Forall_map. apply Forall_forall. intros h _. apply readable_headline_dict.
Qed.

(** C8, as the source has it.  A run of [scrape_hacker_news] whose file
    write raises holds the records that the same run returns, and leaves
    in the file, when the write goes through.  When the write raises an
    IOError the error is logged and the function still returns these
    records.  When it raises anything else the clause of line 195 takes
    it: the error is logged and the function returns the empty list.
    Nothing is raised in either case. *)
Theorem write_failure_keeps_the_result :
  forall (E : env) (output_file : string) (files0 : files) (e : exn)
         (py_float : string -> float),
    (open_write E = OpenRaises e \/ exists n, open_write E = DumpRaises e n) ->
    In (EvOpenWrite output_file) (trace (snd (scrape_hacker_news E output_file files0))) ->
    let failed := scrape_hacker_news E output_file files0 in
    let written := scrape_hacker_news (with_open_write E WriteOk) output_file files0 in
    fst written = Ok (news_items (snd failed))
    /\ (exists text,
          fs (snd written) output_file = Some (Text text)
          /\ json_loads py_float text
             = Ok (PyList (map headline_dict (news_items (snd failed)))))
    /\ (is_IOError e = true ->
        fst failed = Ok (news_items (snd failed))
        /\ In (EvLog ERROR "Error al escribir en el archivo JSON "%string)
              (trace (snd failed)))
    /\ (is_IOError e = false ->
        fst failed = Ok []
        /\ In (EvLog ERROR "Ocurrió un error general durante el scraping: "%string)
              (trace (snd failed))).
Proof.
  intros E out files0 e py_float Hw Hreach failed written.
  destruct (scrape_hacker_news_cases E out files0) as [Hno | (s2 & Hcases)].
  { exfalso. exact (Hno out Hreach). }
  assert (Hf : failed = scrape_hacker_news (with_open_write E (open_write E)) out files0)
    by (now rewrite with_open_write_same).
  rewrite (Hcases (open_write E)) in Hf. rewrite with_open_write_same in Hf.
  assert (Hwr : written = scrape_hacker_news (with_open_write E WriteOk) out files0)
    by reflexivity.
  rewrite (Hcases WriteOk) in Hwr.
  destruct (save_written (with_open_write E WriteOk) out s2 eq_refl) as (Hr' & Hfs').
  destruct (save (with_open_write E WriteOk) out s2) as [r' s3']. simpl in Hr', Hfs'.
  subst r'.
  destruct (release_frame s3') as (_ & Hrf & _).
  assert (Hitems : news_items (snd failed) = news_items s2).
  { rewrite Hf. destruct (is_IOError e) eqn:He.
    - destruct (save_failed E out s2 e He Hw) as (Hr & Hi & _).
      destruct (save E out s2) as [r s3]. simpl in Hr, Hi. subst r. simpl.
      destruct (release_frame s3) as (_ & _ & Hri & _). now rewrite Hri.
    - destruct (save_raises E out s2 e He Hw) as (s3 & Hs & Hi). rewrite Hs. simpl.
      match goal with
      | |- context [release ?st] => destruct (release_frame st) as (_ & _ & Hri & _)
      end.
      rewrite Hri. exact Hi. }
  split; [|split; [|split]].
  - rewrite Hwr, Hitems. reflexivity.
  - exists (news_json E (news_items s2)). rewrite Hwr. simpl. rewrite Hrf, Hfs', Hitems.
    split; [reflexivity | apply news_json_reads_back].
  - intros He. rewrite Hitems. rewrite Hf.
    destruct (save_failed E out s2 e He Hw) as (Hr & Hi & Ht).
    destruct (save E out s2) as [r s3]. simpl in Hr, Hi, Ht. subst r. simpl.
    destruct (release_frame s3) as (_ & _ & _ & evs & Hrt).
    split; [reflexivity|]. rewrite Hrt, Ht.
    apply in_or_app. left. apply in_or_app. right. right. left. reflexivity.
  - intros He. rewrite Hf.
    destruct (save_raises E out s2 e He Hw) as (s3 & Hs & _). rewrite Hs. simpl.
    match goal with
    | |- context [release ?st] => destruct (release_frame st) as (_ & _ & _ & evs & Hrt)
    end.
    split; [reflexivity|]. rewrite Hrt. simpl.
    apply in_or_app. left. apply in_or_app. right. now left.
Qed.

Lemma write_failure_keeps_the_result_witness :
  let E := env_rows [row_scored] (OpenRaises OSError) in
  let failed := scrape_hacker_news E "hacker_news.json" no_files in
  let written := scrape_hacker_news (with_open_write E WriteOk) "hacker_news.json" no_files in
  fst written = Ok (news_items (snd failed))
  /\ fst failed = Ok (news_items (snd failed))
  /\ In (EvLog ERROR "Error al escribir en el archivo JSON "%string) (trace (snd failed)).
Proof.
  intros E failed written.
  destruct (write_failure_keeps_the_result E "hacker_news.json" no_files OSError
              SiteSpec.sample_float) as (Hw & _ & Hio & _).
  - left. reflexivity.
  - vm_compute. tauto.
  - split; [exact Hw | exact (Hio eq_refl)].
Defined.

(** C8, as the claim states it, fails: [json.dump] raises a ValueError on
    the one record of the run, and the function returns the empty list. *)
Lemma other_write_failure_loses_the_result :
  fst (scrape_hacker_news (env_rows [row_scored] (DumpRaises ValueError 10))
         "hacker_news.json" no_files) = Ok []
  /\ news_items (snd (scrape_hacker_news (env_rows [row_scored] (DumpRaises ValueError 10))
                        "hacker_news.json" no_files))
     = [ {| title := "Show HN"; score := 12; url := Some "https://example.org/" |} ]
  /\ fst (scrape_hacker_news (env_rows [row_scored] WriteOk) "hacker_news.json" no_files)
     = Ok [ {| title := "Show HN"; score := 12; url := Some "https://example.org/" |} ].
Proof. repeat split; reflexivity. Qed.

End HNFacts.


Module BooksFacts.

Import ScrapeBooks BooksSpec SiteSpec BooksInv.

Ltac bk_compute H :=
  cbv beta iota zeta delta
    [page_attempt read_page category_attempt http_get persist dump_to_file
     sleep log emit
     try_except try_finally dispatch bind eval modify gets ret raise
     is_RequestException is_ReqConnectionError is_AttributeError
     is_IOError is_Exception orb andb] in H;
  repeat match goal with
         | Hs : time_sleep _ _ = _ |- _ => rewrite Hs in H
         end.

(** ** The delay *)

Lemma sleep_returns E D s :
  time_sleep E D = Ok tt -> sleep E D s = (Ok tt, st_emit (EvSleep D) s).
Proof. intros H. cbv [sleep bind eval emit modify]. now rewrite H. Qed.

Lemma sleep_raises E D e s :
  time_sleep E D = Raise e -> sleep E D s = (Raise e, s).
Proof. intros H. cbv [sleep bind eval emit modify]. now rewrite H. Qed.

(** ** One failed attempt *)

Lemma page_attempt_failed E N L R D url a s :
  time_sleep E D = Ok tt ->
  page_fails (requests_get E (clock s) url) ->
  exists lv msg,
    page_attempt E N L R D url a s =
    (Ok Next,
     st_emit (EvSleep D)
       (st_emit (EvLog lv msg) (st_tick (st_emit (EvGet PageFetch url) s)))).
Proof.
  intros Hsl Hf. destruct (page_attempt E N L R D url a s) as [res s1] eqn:Hrun.
  bk_compute Hrun. unfold page_fails in Hf.
  destruct (requests_get E (clock s) url) as [resp|e].
  - apply Z.eqb_neq in Hf. rewrite Hf in Hrun. inversion Hrun; subst. eauto.
  - destruct e; try discriminate Hf; inversion Hrun; subst; eauto.
Qed.

Lemma category_attempt_failed E D u a s :
  time_sleep E D = Ok tt ->
  category_fails (requests_get E (clock s) u) ->
  category_attempt E D u a s =
  (Ok Next,
   st_emit (EvSleep D)
     (st_emit (EvLog WARNING "Intento ") (st_tick (st_emit (EvGet CategoryFetch u) s)))).
Proof.
  intros Hsl Hf. destruct (category_attempt E D u a s) as [res s1] eqn:Hrun.
  bk_compute Hrun. unfold category_fails in Hf.
  destruct (requests_get E (clock s) u) as [resp|e].
  - unfold find_category in Hrun. rewrite Hf in Hrun. simpl in Hrun.
    inversion Hrun; subst. reflexivity.
  - destruct e; try discriminate Hf; inversion Hrun; subst; reflexivity.
Qed.

Lemma category_attempt_resolved E D u a s resp c :
  requests_get E (clock s) u = Ok resp ->
  find_category resp = Ok c ->
  category_attempt E D u a s =
  (Ok (Break c), st_tick (st_emit (EvGet CategoryFetch u) s)).
Proof.
  intros Hg Hc. destruct (category_attempt E D u a s) as [res s1] eqn:Hrun.
  bk_compute Hrun. rewrite Hg in Hrun. rewrite Hc in Hrun. now inversion Hrun.
Qed.

Lemma py_range_cons R :
  1 <= R -> py_range R = 0 :: map Z.of_nat (seq 1 (Z.to_nat R - 1)).
Proof.
  intros H. unfold py_range.
  destruct (Z.to_nat R) as [|n] eqn:Hn; [lia|].
  simpl. now rewrite Nat.sub_0_r.
Qed.

Lemma py_range_nonpos R : R <= 0 -> py_range R = [].
Proof.
  intros H. unfold py_range. destruct (Z.to_nat R) eqn:Hn; [reflexivity|lia].
Qed.

(** ** An empty page *)

Lemma page_attempt_empty E N L R D url a s resp :
  requests_get E (clock s) url = Ok resp ->
  status_code resp = 200 ->
  products resp = [] ->
  page_attempt E N L R D url a s =
  (Ok (Break tt),
   st_emit (EvLog INFO "No se encontraron más libros en la página.")
     (st_tick (st_emit (EvGet PageFetch url) s))).
Proof.
  intros Hg Hs Hp. destruct (page_attempt E N L R D url a s) as [res s1] eqn:Hrun.
  bk_compute Hrun. rewrite Hg, Hs, Hp in Hrun. simpl in Hrun. now inversion Hrun.
Qed.

Lemma pagination_all_empty w N L R D :
  1 <= R ->
  forall fuel s,
    books_scraped s < N ->
    pagination (env_of_site site_all_empty w) N L R D fuel s = None.
Proof.
  intros HR. induction fuel as [|fuel IH]; intros s Hlt; simpl.
  - apply Z.ltb_lt in Hlt. now rewrite Hlt.
  - pose proof Hlt as Hlt'. apply Z.ltb_lt in Hlt'. rewrite Hlt'.
    rewrite (py_range_cons R HR). simpl for_in. unfold bind at 1.
    erewrite page_attempt_empty; [| reflexivity | reflexivity | reflexivity].
    cbv [ret]. apply IH. exact Hlt.
Qed.

(** C3 at the failing input: page 1 is answered with 200 and lists no
    book, page 2 lists one.  The [break] of line 39 leaves the attempt loop
    only: page 2 is fetched and its book collected.  And on a site whose
    every page is empty the loop never ends, whatever the fuel. *)
Theorem empty_page_does_not_end_pagination :
  (exists s,
      scrape_books (env_of_site site_empty_first_page WriteOk) 1 20%float 3 1 2 no_files
      = Some (Ok tt, s)
      /\ filter is_page_get (trace s)
         = [EvGet PageFetch (page_url 1); EvGet PageFetch (page_url 2)]
      /\ all_books_data s = [poetry_book])
  /\ (forall (w : write_outcome) (num_books : Z) (price_limit : float)
             (max_retries retry_delay : Z) (fuel : nat) (files0 : files),
        1 <= num_books -> 1 <= max_retries ->
        scrape_books (env_of_site site_all_empty w) num_books price_limit
          max_retries retry_delay fuel files0 = None).
Proof.
  split.
  - eexists. split; [vm_compute; reflexivity|]. split; reflexivity.
  - intros w N L R D fuel files0 HN HR. unfold scrape_books.
    rewrite pagination_all_empty; auto. simpl. lia.
Qed.

(** ** Exhausted retry loops *)

Lemma category_loop_exhausted E D u : time_sleep E D = Ok tt -> forall n k s,
  (forall i, (i < n)%nat -> category_fails (requests_get E (clock s + i) u)) ->
  exists s',
    for_in (map Z.of_nat (seq k n)) (category_attempt E D u) s = (Ok None, s')
    /\ all_books_data s' = all_books_data s
    /\ books_scraped s' = books_scraped s
    /\ page_num s' = page_num s
    /\ fs s' = fs s
    /\ clock s' = (clock s + n)%nat
    /\ trace s' = trace s ++
         List.concat (repeat [EvGet CategoryFetch u; EvLog WARNING "Intento "; EvSleep D] n).
Proof.
  intros Hsl. induction n as [|n IH]; intros k s Hf; simpl.
  - exists s. cbv [ret]. rewrite Nat.add_0_r, app_nil_r. repeat split; reflexivity.
  - unfold bind at 1. rewrite category_attempt_failed; [| exact Hsl |].
    2:{ specialize (Hf 0%nat). rewrite Nat.add_0_r in Hf. apply Hf. lia. }
    set (s1 := st_emit _ (st_emit _ (st_tick _))).
    destruct (IH (S k) s1) as (s' & Hrun & Hd & Hc & Hp & Hfs & Hcl & Htr).
    { intros i Hi. specialize (Hf (S i)). subst s1. simpl.
      replace (S (clock s + i)) with (clock s + S i)%nat by lia. apply Hf. lia. }
    exists s'. rewrite Hrun. subst s1. simpl in *.
    rewrite Htr, Hcl, <- !app_assoc. simpl. repeat split; auto.
Qed.

Lemma fetch_category_exhausted E R D u s :
  time_sleep E D = Ok tt ->
  (forall i, (i < Z.to_nat R)%nat -> category_fails (requests_get E (clock s + i) u)) ->
  exists s',
    fetch_category E R D u s = (Ok None, s')
    /\ all_books_data s' = all_books_data s
    /\ books_scraped s' = books_scraped s
    /\ page_num s' = page_num s
    /\ fs s' = fs s
    /\ clock s' = (clock s + Z.to_nat R)%nat
    /\ trace s' = trace s ++
         List.concat (repeat [EvGet CategoryFetch u; EvLog WARNING "Intento "; EvSleep D]
                   (Z.to_nat R)).
Proof. intros Hsl H. unfold fetch_category, py_range. now apply category_loop_exhausted. Qed.

Lemma page_loop_exhausted E N L R D url : time_sleep E D = Ok tt -> forall n k s,
  (forall i, (i < n)%nat -> page_fails (requests_get E (clock s + i) url)) ->
  exists s',
    for_in (map Z.of_nat (seq k n)) (page_attempt E N L R D url) s = (Ok None, s')
    /\ all_books_data s' = all_books_data s
    /\ books_scraped s' = books_scraped s
    /\ page_num s' = page_num s
    /\ fs s' = fs s
    /\ count_events is_sleep (trace s') = (count_events is_sleep (trace s) + n)%nat
    /\ count_events is_page_get (trace s') = (count_events is_page_get (trace s) + n)%nat.
Proof.
  intros Hdelay. induction n as [|n IH]; intros k s Hf; simpl.
  - exists s. cbv [ret]. rewrite !Nat.add_0_r. repeat split; reflexivity.
  - unfold bind at 1.
    destruct (page_attempt_failed E N L R D url (Z.of_nat k) s Hdelay) as (lv & msg & Hrun).
    { specialize (Hf 0%nat). rewrite Nat.add_0_r in Hf. apply Hf. lia. }
    rewrite Hrun.
    set (s1 := st_emit _ (st_emit _ (st_tick _))).
    destruct (IH (S k) s1) as (s' & Hrun' & Hd & Hc & Hp & Hfs & Hsl & Hpg).
    { intros i Hi. specialize (Hf (S i)). subst s1. simpl.
      replace (S (clock s + i)) with (clock s + S i)%nat by lia. apply Hf. lia. }
    exists s'. rewrite Hrun'. subst s1. simpl in *.
    rewrite Hsl, Hpg. unfold count_events. rewrite !filter_app, !length_app. simpl.
    repeat split; auto; lia.
Qed.

(** ** Invariants of a run *)

Ltac bk_preserves closer :=
  repeat (first
    [ progress unfold fetch_category, category_attempt, process_book, read_page,
        page_attempt, sleep, log, emit
    | lazymatch goal with
      | |- preserves _ (http_get _ _ _) => intros ? ?
      | |- preserves _ (if ?c then _ else _) => destruct c eqn:?
      | _ => preserves_step
      end ];
    try solve [closer]).

Lemma page_attempt_categorised E N L R D url a :
  preserves all_categorised (page_attempt E N L R D url a).
Proof.
  bk_preserves ltac:(unfold all_categorised in *; simpl; auto).
  unfold all_categorised in *. simpl. apply Forall_app. split; [assumption|].
  constructor; [|constructor]. eexists. reflexivity.
Qed.


Lemma page_attempt_files E N L R D url a f :
  preserves (files_are f) (page_attempt E N L R D url a).
Proof. bk_preserves ltac:(unfold files_are in *; simpl; auto). Qed.

Lemma pagination_preserves E N L R D (Inv : state -> Prop) :
  (forall url a, preserves Inv (page_attempt E N L R D url a)) ->
  (forall s, Inv s -> Inv (st_next_page s)) ->
  (forall s ev, Inv s -> Inv (st_emit ev s)) ->
  forall fuel s r s',
    Inv s -> pagination E N L R D fuel s = Some (r, s') -> Inv s'.
Proof.
  intros Hatt Hnext Hemit.
  induction fuel as [|fuel IH]; intros s r s' Hs Hrun; simpl in Hrun.
  - destruct (books_scraped s <? N); [discriminate|]. now inversion Hrun; subst.
  - destruct (books_scraped s <? N); [|now inversion Hrun; subst].
    pose proof (preserves_for_in Inv (py_range R) (page_attempt E N L R D (page_url (page_num s)))
                  (Hatt _) s Hs) as Hloop.
    destruct (for_in (py_range R) (page_attempt E N L R D (page_url (page_num s))) s)
      as [[[u|]|e] s1]; simpl in Hloop.
    + eapply IH; [|exact Hrun]. apply Hnext, Hloop.
    + cbv [log emit modify] in Hrun. inversion Hrun; subst. apply Hemit, Hloop.
    + now inversion Hrun; subst.
Qed.

Lemma persist_data E s : all_books_data (snd (persist E s)) = all_books_data s.
Proof.
  destruct (persist E s) as [res s1] eqn:Hrun. bk_compute Hrun.
  destruct (open_write E) as [|e|e n].
  - inversion Hrun; subst; reflexivity.
  - destruct e; inversion Hrun; subst; reflexivity.
  - destruct e; inversion Hrun; subst; reflexivity.
Qed.

Lemma persist_written E s :
  open_write E = WriteOk ->
  persist E s =
  (Ok tt,
   st_emit (EvLog INFO "Se extrajeron ")
     (st_files (write_file (fs s) output_file (books_json E (all_books_data s)))
        (st_emit (EvOpenWrite output_file) s))).
Proof.
  intros Hw. destruct (persist E s) as [res s1] eqn:Hrun. bk_compute Hrun.
  rewrite Hw in Hrun. now inversion Hrun.
Qed.

Lemma scrape_books_inv E N L R D fuel files0 r s :
  scrape_books E N L R D fuel files0 = Some (r, s) ->
  exists s1,
    pagination E N L R D fuel (initial files0) = Some (r, s1) /\ s = s1 /\ r <> Ok tt
    \/ pagination E N L R D fuel (initial files0) = Some (Ok tt, s1)
       /\ persist E s1 = (r, s).
Proof.
  unfold scrape_books. intros H.
  destruct (pagination E N L R D fuel (initial files0)) as [[[[]|e] s1]|];
    [| |discriminate].
  - exists s1. right. split; [reflexivity|]. now inversion H.
  - exists s1. left. inversion H; subst. repeat split. discriminate.
Qed.

Lemma scrape_books_categorised E N L R D fuel files0 r s :
  scrape_books E N L R D fuel files0 = Some (r, s) -> all_categorised s.
Proof.
  intros H. apply scrape_books_inv in H.
  assert (Hp : forall r1 s1, pagination E N L R D fuel (initial files0) = Some (r1, s1) ->
                             all_categorised s1).
  { intros r1 s1. apply (pagination_preserves E N L R D all_categorised).
    - intros. apply page_attempt_categorised.
    - auto.
    - auto.
    - constructor. }
  destruct H as (s1 & [(Hrun & -> & _) | (Hrun & Hper)]).
  - eapply Hp, Hrun.
  - unfold all_categorised. replace s with (snd (persist E s1)) by now rewrite Hper.
    rewrite persist_data. eapply Hp, Hrun.
Qed.


Lemma pagination_files E N L R D fuel files0 r s :
  pagination E N L R D fuel (initial files0) = Some (r, s) -> fs s = files0.
Proof.
  apply (pagination_preserves E N L R D (files_are files0)).
  - intros. apply page_attempt_files.
  - auto.
  - auto.
  - reflexivity.
Qed.

Lemma scrape_books_written E N L R D fuel files0 s :
  open_write E = WriteOk ->
  scrape_books E N L R D fuel files0 = Some (Ok tt, s) ->
  fs s output_file = Some (Text (books_json E (all_books_data s))).
Proof.
  intros Hw Hrun. apply scrape_books_inv in Hrun.
  destruct Hrun as (s1 & [(_ & _ & Hne) | (Hpag & Hper)]); [congruence|].
  rewrite persist_written in Hper by assumption. inversion Hper; subst. simpl.
  unfold write_file. now rewrite String.eqb_refl.
Qed.

Lemma process_book_unresolved E N L R D b s t p src href :
  pod_title b = Ok t -> pod_price b = Ok p ->
  pod_img_src b = Ok src -> pod_href b = Ok href ->
  PrimFloat.ltb p L = true ->
  time_sleep E D = Ok tt ->
  (forall i, (i < Z.to_nat R)%nat ->
             category_fails (requests_get E (clock s + i) (base_url ++ href)%string)) ->
  exists s',
    process_book E N L R D b s = (Ok Next, s')
    /\ all_books_data s' = all_books_data s
    /\ books_scraped s' = books_scraped s
    /\ exists pre,
         trace s' = pre ++ [EvLog ERROR "No se pudo obtener la categoría después de "].
Proof.
  intros Ht Hp Hsrc Hh Hlt Hsl Hf.
  destruct (fetch_category_exhausted E R D _ s Hsl Hf)
    as (s1 & Hrun & Hd & Hc & _).
  unfold process_book. rewrite Ht, Hp, Hsrc, Hh.
  cbv [eval]. unfold bind at 1 2. rewrite Hlt. unfold bind at 1 2 3.
  rewrite Hrun. cbv [log emit modify bind ret].
  eexists. split; [reflexivity|]. simpl. repeat split; auto. eexists. reflexivity.
Qed.

Ltac untouched_closer :=
  unfold untouched in *; simpl;
  match goal with
  | H : _ /\ _ |- _ => destruct H as [? ?]
  end;
  split;
  [ assumption
  | first
      [ assumption
      | let p := fresh "p" in
        let Hin := fresh "Hin" in
        intros p Hin; apply in_app_or in Hin;
        destruct Hin as [Hin|[Hin|[]]];
        [ match goal with
          | H : forall q, ~ In (EvOpenWrite q) _ |- _ => eapply H; eassumption
          end
        | discriminate Hin ] ] ].

Lemma page_attempt_untouched E N L R D url a files0 :
  preserves (untouched files0) (page_attempt E N L R D url a).
Proof. bk_preserves untouched_closer. Qed.

Lemma pagination_untouched E N L R D files0 : forall fuel s r s',
  untouched files0 s ->
  pagination E N L R D fuel s = Some (r, s') -> untouched files0 s'.
Proof.
  induction fuel as [|fuel IH]; intros s r s' Hs Hrun; cbn [pagination] in Hrun.
  - destruct (books_scraped s <? N); [discriminate|]. now inversion Hrun; subst.
  - destruct (books_scraped s <? N); [|now inversion Hrun; subst].
    pose proof (preserves_for_in (untouched files0) (py_range R)
                  (page_attempt E N L R D (page_url (page_num s)))
                  (fun a => page_attempt_untouched E N L R D _ a files0) s Hs) as Hl.
    destruct (for_in (py_range R) (page_attempt E N L R D (page_url (page_num s))) s)
      as [[[u|]|e] s1]; cbn [fst snd] in Hl.
    + eapply IH; [|exact Hrun]. exact Hl.
    + cbv [log emit modify] in Hrun. inversion Hrun; subst. untouched_closer.
    + now inversion Hrun; subst.
Qed.

Lemma initial_untouched files0 : untouched files0 (initial files0).
Proof. split; [reflexivity | intros p []]. Qed.

Lemma books_json_reads_back E py_float data :
  Forall (fun b => reads_back (float_repr E) py_float (Precio b)) data ->
  json_loads py_float (books_json E data) = Ok (PyList (map book_dict data)).
Proof.
  intros Hp. unfold books_json. apply json_loads_dump. apply readable_list.
  apply Forall_map. eapply Forall_impl; [|exact Hp].
  intros b Hb. now apply readable_book_dict.
Qed.

(** * Claims on scrape_books *)

(** C5, as the source has it.  Each time a listed book below the price
    limit is processed and its category fetch fails, by a ConnectionError
    or on a page without a breadcrumb list, at each of its [max_retries]
    attempts, with a delay that returns, that turn of the book loop logs
    the failure, appends nothing, leaves the count as it was and goes on
    with the next book.  And in every run, however it ends, each collected
    record has a category that is a string, and so has each record that a
    write that goes through leaves in books.json. *)
Theorem unresolved_category_drops_the_book :
  (forall (E : env) (num_books : Z) (price_limit : float) (max_retries retry_delay : Z)
          (b : product_pod) (s : state) (t : string) (p : float) (src href : string),
      pod_title b = Ok t -> pod_price b = Ok p ->
      pod_img_src b = Ok src -> pod_href b = Ok href ->
      PrimFloat.ltb p price_limit = true ->
      time_sleep E retry_delay = Ok tt ->
      (forall i, (i < Z.to_nat max_retries)%nat ->
                 category_fails (requests_get E (clock s + i) (base_url ++ href)%string)) ->
      let run := process_book E num_books price_limit max_retries retry_delay b s in
      fst run = Ok Next
      /\ all_books_data (snd run) = all_books_data s
      /\ books_scraped (snd run) = books_scraped s
      /\ exists pre,
           trace (snd run)
           = pre ++ [EvLog ERROR "No se pudo obtener la categoría después de "%string])
  /\ (forall (E : env) (num_books : Z) (price_limit : float) (max_retries retry_delay : Z)
             (fuel : nat) (files0 : files) (r : result unit) (s : state)
             (py_float : string -> float),
        scrape_books E num_books price_limit max_retries retry_delay fuel files0
        = Some (r, s) ->
        Forall (fun b => exists c,
                    Categoria b = Some c
                    /\ book_dict b
                       = PyDict [ ("Título", PyStr (Titulo b)); ("Precio", PyFloat (Precio b));
                                  ("Categoría", PyStr c);
                                  ("URL de la imagen", PyStr (URL_de_la_imagen b)) ]%string)
          (all_books_data s)
        /\ (r = Ok tt -> open_write E = WriteOk ->
            exists text,
              fs s output_file = Some (Text text)
              /\ (Forall (fun b => reads_back (float_repr E) py_float (Precio b))
                    (all_books_data s) ->
                  json_loads py_float text
                  = Ok (PyList (map book_dict (all_books_data s)))))).
Proof.
  split.
  - intros E N L R D b s t p src href Ht Hp Hsrc Hh Hlt Hsl Hf run.
    destruct (process_book_unresolved E N L R D b s t p src href Ht Hp Hsrc Hh Hlt Hsl Hf)
      as (s' & Hrun & Hd & Hc & Htr).
    subst run. rewrite Hrun. simpl. auto.
  - intros E N L R D fuel files0 r s py_float Hrun. split.
    + pose proof (scrape_books_categorised E N L R D fuel files0 r s Hrun) as Hcat.
      eapply Forall_impl; [|exact Hcat]. intros b (c & Hc). exists c.
      split; [exact Hc|]. unfold book_dict. now rewrite Hc.
    + intros -> Hw. exists (books_json E (all_books_data s)).
      split; [eapply scrape_books_written; eassumption|].
      apply books_json_reads_back.
Qed.

Lemma unresolved_category_drops_the_book_witness :
  let run := process_book env_unreachable_detail 5 20%float 3 1 poetry_pod (initial no_files) in
  fst run = Ok Next
  /\ all_books_data (snd run) = []
  /\ books_scraped (snd run) = 0.
Proof.
  intros run.
  destruct (proj1 unresolved_category_drops_the_book env_unreachable_detail 5 20%float 3 1
              poetry_pod (initial no_files) _ _ _ _ eq_refl eq_refl eq_refl eq_refl eq_refl
              eq_refl (fun i _ => eq_refl)) as (Hr & Hd & Hc & _).
  split; [exact Hr|]. split; [exact Hd | exact Hc].
Defined.

(** C5, as the claim states it, fails: the category fetch of the first
    book of page 1 fails at both of its attempts and the book is dropped;
    the category fetch of the second book then times out, which the page
    loop takes as a failure of the page; the page is read again, the
    category of the first book is fetched at once, and the book is
    collected and written to books.json. *)
Lemma dropped_book_is_collected_on_page_retry :
  exists s,
    scrape_books env_detail_recovers 2 20%float 2 1 1 no_files = Some (Ok tt, s)
    /\ trace s
       = [ EvGet PageFetch (page_url 1);
           EvGet CategoryFetch (base_url ++ "a-light-in-the-attic_1000/index.html");
           EvLog WARNING "Intento "; EvSleep 1;
           EvGet CategoryFetch (base_url ++ "a-light-in-the-attic_1000/index.html");
           EvLog WARNING "Intento "; EvSleep 1;
           EvLog ERROR "No se pudo obtener la categoría después de ";
           EvGet CategoryFetch (base_url ++ "soumission_998/index.html");
           EvLog ERROR "Error de solicitud al acceder a "; EvSleep 1;
           EvGet PageFetch (page_url 1);
           EvGet CategoryFetch (base_url ++ "a-light-in-the-attic_1000/index.html");
           EvGet CategoryFetch (base_url ++ "soumission_998/index.html");
           EvOpenWrite output_file; EvLog INFO "Se extrajeron " ]%string
    /\ all_books_data s = [poetry_book; fiction_book]
    /\ fs s output_file = Some (Text (books_json env_detail_recovers [poetry_book; fiction_book])).
Proof.
  eexists. split; [vm_compute; reflexivity|]. repeat split; reflexivity.
Qed.

Lemma persist_open_refused E s e :
  open_write E = OpenRaises e -> is_IOError e = true ->
  persist E s
  = (Ok tt,
     st_emit (EvLog ERROR "Error al escribir en el archivo JSON ")
       (st_emit (EvOpenWrite output_file) s)).
Proof.
  intros Hw He. destruct (persist E s) as [res s1] eqn:Hrun. bk_compute Hrun.
  rewrite Hw in Hrun. destruct e; try discriminate He; now inversion Hrun.
Qed.

(** C10, as the source has it.  A run that reaches the file write, and
    whose write goes through, leaves in books.json the text that
    [json.dump] makes of the records of that run, from which [json.load]
    reads these records back, and leaves every other file as it was.
    When the first page fails at every attempt and the delay returns, the
    run ends with no record and the file holds an empty array.  And when
    [open] raises an IOError, the error is logged, nothing is raised and
    every file, books.json too, is as it was. *)
Theorem successful_write_replaces_books_json :
  (forall (E : env) (num_books : Z) (price_limit : float) (max_retries retry_delay : Z)
          (fuel : nat) (files0 : files) (s : state) (py_float : string -> float),
      open_write E = WriteOk ->
      scrape_books E num_books price_limit max_retries retry_delay fuel files0
      = Some (Ok tt, s) ->
      exists text,
        fs s = write_file files0 output_file text
        /\ text = json_dump (float_repr E) (PyList (map book_dict (all_books_data s)))
        /\ (Forall (fun b => reads_back (float_repr E) py_float (Precio b))
              (all_books_data s) ->
            json_loads py_float text = Ok (PyList (map book_dict (all_books_data s)))))
  /\ (forall (E : env) (num_books : Z) (price_limit : float) (max_retries retry_delay : Z)
             (fuel : nat) (files0 : files),
        open_write E = WriteOk ->
        time_sleep E retry_delay = Ok tt ->
        1 <= num_books -> (1 <= fuel)%nat ->
        (forall n, page_fails (requests_get E n (page_url 1))) ->
        exists s,
          scrape_books E num_books price_limit max_retries retry_delay fuel files0
          = Some (Ok tt, s)
          /\ all_books_data s = []
          /\ fs s = write_file files0 output_file "[]")
  /\ (forall (E : env) (num_books : Z) (price_limit : float) (max_retries retry_delay : Z)
             (fuel : nat) (files0 : files) (r : result unit) (s : state) (e : exn),
        open_write E = OpenRaises e -> is_IOError e = true ->
        scrape_books E num_books price_limit max_retries retry_delay fuel files0
        = Some (r, s) ->
        In (EvOpenWrite output_file) (trace s) ->
        r = Ok tt
        /\ fs s = files0
        /\ exists pre,
             trace s = pre ++ [EvOpenWrite output_file;
                               EvLog ERROR "Error al escribir en el archivo JSON "%string]).
Proof.
  split; [|split].
  - intros E N L R D fuel files0 s py_float Hw Hrun. apply scrape_books_inv in Hrun.
    destruct Hrun as (s1 & [(_ & _ & Hne) | (Hpag & Hper)]); [congruence|].
    rewrite persist_written in Hper by assumption. inversion Hper; subst. simpl.
    exists (books_json E (all_books_data s1)).
    rewrite (pagination_files E N L R D fuel files0 _ _ Hpag).
    split; [reflexivity|]. split; [reflexivity|]. apply books_json_reads_back.
  - intros E N L R D fuel files0 Hw Hsl HN Hfuel Hfail.
    destruct fuel as [|fuel]; [lia|].
    unfold scrape_books. simpl pagination.
    assert (Hc : (0 <? N) = true) by (apply Z.ltb_lt; lia). rewrite Hc.
    destruct (page_loop_exhausted E N L R D (page_url 1) Hsl (Z.to_nat R) 0 (initial files0))
      as (s1 & Hloop & Hd & _ & _ & Hfs & _).
    { intros i _. apply Hfail. }
    unfold py_range. rewrite Hloop. cbv [log emit modify].
    rewrite persist_written by assumption.
    eexists. split; [reflexivity|]. simpl. rewrite Hd, Hfs. split; reflexivity.
  - intros E N L R D fuel files0 r s e Hw He Hrun Hin. apply scrape_books_inv in Hrun.
    destruct Hrun as (s1 & [(Hpag & -> & Hne) | (Hpag & Hper)]).
    + exfalso.
      destruct (pagination_untouched E N L R D files0 _ _ _ _ (initial_untouched files0) Hpag)
        as [_ Hno].
      exact (Hno _ Hin).
    + rewrite (persist_open_refused E s1 e Hw He) in Hper. inversion Hper; subst. simpl.
      split; [reflexivity|].
      split; [apply (pagination_files E N L R D fuel files0 _ _ Hpag)|].
      exists (trace s1). now rewrite <- app_assoc.
Qed.

Lemma successful_write_replaces_books_json_witness :
  exists s,
    scrape_books (env_of_site site_down WriteOk) 50 20%float 3 1 1 files_of_earlier_run
    = Some (Ok tt, s)
    /\ all_books_data s = []
    /\ fs s = write_file files_of_earlier_run output_file "[]".
Proof.
  apply (proj1 (proj2 successful_write_replaces_books_json) (env_of_site site_down WriteOk)
           50 20%float 3 1 1%nat files_of_earlier_run eq_refl eq_refl).
  - lia.
  - lia.
  - intros n. reflexivity.
Defined.

(** C10, as the claim states it, fails: the first page fails at every
    attempt and [open] raises; books.json keeps the record of the earlier
    run and is not replaced by an empty array. *)
Lemma failed_write_keeps_books_json :
  exists s,
    scrape_books (env_of_site site_down (OpenRaises OSError)) 50 20%float 3 1 1
      files_of_earlier_run = Some (Ok tt, s)
    /\ all_books_data s = []
    /\ fs s output_file = files_of_earlier_run output_file
    /\ fs s output_file <> Some (Text "[]").
Proof.
  eexists. split; [vm_compute; reflexivity|].
  split; [reflexivity|]. split; [reflexivity|]. vm_compute. discriminate.
Qed.

(** ** What a run can raise *)

Section Absorbed.

Variable E : env.
Variables (N : Z) (L : float) (R D : Z).
Hypothesis Habs : absorbed_failures E.
Hypothesis Hdelay : time_sleep E D = Ok tt.

Lemma sleep_never_raises C : raises_only C (sleep E D).
Proof. intros s. now rewrite sleep_returns. Qed.

Lemma http_get_raises site url :
  forall s, match fst (http_get E site url s) with
            | Ok resp => Forall pod_readable (products resp)
                         /\ find_category resp <> Raise IndexError
            | Raise e => is_RequestException e = true
            end.
Proof. intros s. unfold http_get. simpl. apply (proj1 Habs). Qed.

Lemma category_attempt_raises u a :
  raises_only is_RequestException (category_attempt E D u a).
Proof.
  intros s. pose proof (http_get_raises CategoryFetch u s) as Hg.
  destruct (category_attempt E D u a s) as [res s1] eqn:Hrun. simpl.
  unfold category_attempt, try_except in Hrun. unfold bind at 1 in Hrun.
  destruct (http_get E CategoryFetch u s) as [[resp|e] s0]; simpl in Hg.
  - destruct Hg as [_ Hc]. cbv [bind eval ret] in Hrun.
    unfold find_category in *.
    destruct (breadcrumb resp) as [anchors|].
    + destruct (nth_error anchors 2); [|congruence]. now inversion Hrun.
    + bk_compute Hrun. now inversion Hrun.
  - destruct e; try discriminate Hg; bk_compute Hrun; now inversion Hrun.
Qed.

Lemma process_book_raises b :
  pod_readable b -> raises_only is_RequestException (process_book E N L R D b).
Proof.
  intros ((t & Ht) & (p & Hp) & (src & Hsrc) & (href & Hh)).
  unfold process_book. rewrite Ht, Hp, Hsrc, Hh.
  apply raises_only_bind; [intros s; exact I|]. intros t'.
  apply raises_only_bind; [intros s; exact I|]. intros p'.
  destruct (PrimFloat.ltb p' L); [|apply raises_only_ret].
  apply raises_only_bind; [intros s; exact I|]. intros src'.
  apply raises_only_bind; [intros s; exact I|]. intros href'.
  apply raises_only_bind.
  - apply raises_only_for_in. intros a. apply category_attempt_raises.
  - intros [c|].
    + apply raises_only_bind; [apply raises_only_modify|]. intros _.
      apply raises_only_bind; [apply raises_only_modify|]. intros _.
      apply raises_only_bind; [apply raises_only_gets|]. intros n.
      destruct (n >=? N); apply raises_only_ret.
    + apply raises_only_bind; [apply raises_only_modify|]. intros _.
      apply raises_only_ret.
Qed.

Lemma book_loop_raises bs :
  Forall pod_readable bs ->
  raises_only is_RequestException (for_in bs (process_book E N L R D)).
Proof.
  induction 1 as [|b bs Hb _ IH]; simpl.
  - apply raises_only_ret.
  - apply raises_only_bind; [now apply process_book_raises|].
    intros [|u]; [exact IH | apply raises_only_ret].
Qed.

Lemma read_page_raises url :
  raises_only is_RequestException (read_page E N L R D url).
Proof.
  intros s. pose proof (http_get_raises PageFetch url s) as Hg.
  destruct (read_page E N L R D url s) as [res s1] eqn:Hrun. simpl.
  unfold read_page in Hrun. unfold bind at 1 in Hrun.
  destruct (http_get E PageFetch url s) as [[resp|e] s0]; simpl in Hg.
  - destruct Hg as [Hpods _].
    destruct (status_code resp =? 200).
    + destruct (products resp) as [|b bs] eqn:Hp.
      * bk_compute Hrun. now inversion Hrun.
      * pose proof (book_loop_raises (b :: bs) Hpods s0) as Hl.
        unfold bind at 1 in Hrun.
        destruct (for_in (b :: bs) (process_book E N L R D) s0) as [[o|e] s2];
          simpl in Hl; inversion Hrun; subst; auto.
    + bk_compute Hrun. now inversion Hrun.
  - inversion Hrun; subst. exact Hg.
Qed.

Lemma page_attempt_never_raises url a :
  raises_only (fun _ => false) (page_attempt E N L R D url a).
Proof.
  unfold page_attempt.
  apply raises_only_bind.
  - apply raises_only_try_except1 with (C := is_RequestException).
    + apply read_page_raises.
    + intros e. apply raises_only_bind; [apply raises_only_modify|].
      intros _. apply raises_only_ret.
    + intros e He Hn. congruence.
  - intros [|u].
    + apply raises_only_bind; [apply sleep_never_raises|].
      intros _. apply raises_only_ret.
    + apply raises_only_ret.
Qed.

Lemma pagination_never_raises : forall fuel s r s',
  pagination E N L R D fuel s = Some (r, s') -> r = Ok tt.
Proof.
  induction fuel as [|fuel IH]; intros s r s' Hrun; simpl in Hrun.
  - destruct (books_scraped s <? N); [discriminate|]. now inversion Hrun.
  - destruct (books_scraped s <? N); [|now inversion Hrun].
    pose proof (raises_only_for_in (fun _ => false) (py_range R)
                  (page_attempt E N L R D (page_url (page_num s)))
                  (page_attempt_never_raises _) s) as Hl.
    destruct (for_in (py_range R) (page_attempt E N L R D (page_url (page_num s))) s)
      as [[[u|]|e] s1]; simpl in Hl.
    + eapply IH, Hrun.
    + cbv [log emit modify] in Hrun. now inversion Hrun.
    + discriminate Hl.
Qed.

Lemma persist_never_raises s : fst (persist E s) = Ok tt.
Proof.
  destruct (persist E s) as [res s1] eqn:Hrun. simpl. bk_compute Hrun.
  pose proof (proj2 Habs) as Hw.
  destruct (open_write E) as [|e|e n].
  - now inversion Hrun.
  - destruct e; try discriminate Hw; now inversion Hrun.
  - destruct e; try discriminate Hw; now inversion Hrun.
Qed.

Lemma scrape_books_never_raises fuel files0 r s :
  scrape_books E N L R D fuel files0 = Some (r, s) -> r = Ok tt.
Proof.
  intros Hrun. apply scrape_books_inv in Hrun.
  destruct Hrun as (s1 & [(Hpag & _ & Hne) | (Hpag & Hper)]).
  - apply pagination_never_raises in Hpag. congruence.
  - pose proof (persist_never_raises s1) as Hp. rewrite Hper in Hp. exact Hp.
Qed.

End Absorbed.

(** ** A static catalogue *)


Lemma filter_page_get_failed_category u D n :
  filter is_page_get
    (List.concat (repeat [EvGet CategoryFetch u; EvLog WARNING "Intento "%string; EvSleep D] n))
  = [].
Proof. induction n; simpl; auto. Qed.

Lemma geb_false x n : x < n -> (x >=? n) = false.
Proof. intros H. rewrite Z.geb_leb. apply Z.leb_gt. exact H. Qed.

Lemma geb_true x n : x >= n -> (x >=? n) = true.
Proof. intros H. rewrite Z.geb_leb. apply Z.leb_le. lia. Qed.

Lemma qualifying_books_app site L a b :
  qualifying_books site L (a ++ b) = qualifying_books site L a ++ qualifying_books site L b.
Proof. unfold qualifying_books. apply flat_map_app. Qed.

Section StaticSite.

Variable E : env.
Variables (N : Z) (L : float) (R D : Z).
Variable site : string -> result response.
Hypothesis Hstatic : forall n url, requests_get E n url = site url.
Hypothesis HR : 1 <= R.
Hypothesis Hdelay : time_sleep E D = Ok tt.

Lemma fetch_category_resolved u s resp c :
  site u = Ok resp -> find_category resp = Ok c ->
  fetch_category E R D u s =
  (Ok (Some c), st_tick (st_emit (EvGet CategoryFetch u) s)).
Proof.
  intros Hs Hc. unfold fetch_category. rewrite (py_range_cons R HR). simpl.
  unfold bind.
  rewrite (category_attempt_resolved E D u 0 s resp c);
    [reflexivity | now rewrite Hstatic | exact Hc].
Qed.

Lemma fetch_category_unresolved u s :
  category_fails (site u) ->
  exists s',
    fetch_category E R D u s = (Ok None, s')
    /\ all_books_data s' = all_books_data s
    /\ books_scraped s' = books_scraped s
    /\ page_num s' = page_num s
    /\ fs s' = fs s
    /\ filter is_page_get (trace s') = filter is_page_get (trace s).
Proof.
  intros Hf.
  destruct (fetch_category_exhausted E R D u s Hdelay)
    as (s' & Hrun & Hd & Hc & Hp & Hfs & _ & Ht).
  { intros i _. now rewrite Hstatic. }
  exists s'. repeat split; auto.
  rewrite Ht, filter_app, filter_page_get_failed_category. apply app_nil_r.
Qed.

Lemma process_book_spec b s :
  pod_well_behaved site L b ->
  books_scraped s < N ->
  exists s',
    process_book E N L R D b s
    = (Ok (if books_scraped s' >=? N then Break tt else Next), s')
    /\ all_books_data s' = all_books_data s ++ opt_list (qualifying site L b)
    /\ books_scraped s' = books_scraped s
                          + Z.of_nat (List.length (opt_list (qualifying site L b)))
    /\ page_num s' = page_num s
    /\ fs s' = fs s
    /\ filter is_page_get (trace s') = filter is_page_get (trace s)
    /\ (books_scraped s' >= N -> ends_with_category_get (trace s')).
Proof.
  intros (t & p & Ht & Hp & Hlim) Hlt.
  unfold process_book, qualifying. rewrite Ht, Hp.
  cbv [eval]. unfold bind at 1 2.
  destruct (PrimFloat.ltb p L) eqn:Hltb.
  - destruct (Hlim eq_refl) as (src & href & Hsrc & Hh & Hcat).
    rewrite Hsrc, Hh. unfold bind at 1 2 3.
    assert (Hun : category_fails (site (base_url ++ href)%string) ->
                  category_of site href = None ->
      exists s',
        (category <- fetch_category E R D (base_url ++ href)%string ;;
         match category with
         | Some c =>
             modify (st_append {| Titulo := t; Precio := p; Categoria := Some c;
                                  URL_de_la_imagen := (base_url ++ src)%string |}) ;;
             modify st_count ;;
             n <- gets books_scraped ;;
             (if n >=? N then ret (Break tt) else ret Next)
         | None =>
             log ERROR "No se pudo obtener la categoría después de "%string ;;
             ret Next
         end) s
        = (Ok (if books_scraped s' >=? N then Break tt else Next), s')
        /\ all_books_data s' = all_books_data s ++ opt_list (@None book)
        /\ books_scraped s' = books_scraped s
                              + Z.of_nat (List.length (opt_list (@None book)))
        /\ page_num s' = page_num s
        /\ fs s' = fs s
        /\ filter is_page_get (trace s') = filter is_page_get (trace s)
        /\ (books_scraped s' >= N -> ends_with_category_get (trace s'))).
    { intros Hfail _.
      destruct (fetch_category_unresolved (base_url ++ href)%string s Hfail)
        as (s1 & Hrun & Hd & Hc & Hpn & Hfs & Hpg).
      unfold bind at 1. rewrite Hrun. cbv [log emit modify bind ret].
      exists (st_emit (EvLog ERROR "No se pudo obtener la categoría después de "%string) s1).
      cbn [all_books_data books_scraped page_num fs trace st_emit opt_list List.length].
      rewrite Hd, Hc, Hpn, Hfs, app_nil_r, Z.add_0_r.
      rewrite (geb_false _ _ Hlt).
      repeat split; auto.
      - rewrite filter_app. cbn. now rewrite app_nil_r.
      - lia. }
    unfold category_of in *.
    destruct (site (base_url ++ href)%string) as [resp|e] eqn:Hsite.
    + destruct (find_category resp) as [c|e] eqn:Hfc.
      * rewrite (fetch_category_resolved _ s resp c Hsite Hfc).
        cbv [modify gets bind ret].
        match goal with
        | |- context [st_count ?st] => set (s1 := st_count st)
        end.
        exists s1. split.
        { change (books_scraped s1) with (books_scraped s + 1).
          destruct (books_scraped s + 1 >=? N); reflexivity. }
        subst s1. cbn [all_books_data books_scraped page_num fs trace clock
                       st_count st_append st_tick st_emit opt_list List.length].
        repeat split; auto.
        -- rewrite filter_app. cbn. apply app_nil_r.
        -- intros _. exists (trace s), (base_url ++ href)%string. reflexivity.
      * destruct Hcat as [Hcat|Hcat]; [congruence|].
        apply Hun; [exact Hcat | reflexivity].
    + destruct Hcat as [Hcat|Hcat]; [congruence|].
      apply Hun; [exact Hcat | reflexivity].
  - cbv [ret]. exists s. split.
    { assert (Hge : (books_scraped s >=? N) = false) by (apply geb_false; lia).
      now rewrite Hge. }
    simpl. rewrite app_nil_r, Z.add_0_r. repeat split; auto. lia.
Qed.

Lemma book_loop_spec bs : forall s need,
  Forall (pod_well_behaved site L) bs ->
  N - books_scraped s = Z.of_nat need -> (0 < need)%nat ->
  exists s',
    for_in bs (process_book E N L R D) s
    = (Ok (if (need <=? List.length (qualifying_books site L bs))%nat
           then Some tt else None), s')
    /\ all_books_data s' = all_books_data s ++ firstn need (qualifying_books site L bs)
    /\ books_scraped s' = books_scraped s
          + Z.of_nat (List.length (firstn need (qualifying_books site L bs)))
    /\ page_num s' = page_num s
    /\ fs s' = fs s
    /\ filter is_page_get (trace s') = filter is_page_get (trace s)
    /\ ((need <= List.length (qualifying_books site L bs))%nat ->
        ends_with_category_get (trace s')).
Proof.
  induction bs as [|b bs IH]; intros s need Hwb Hneed Hpos.
  - exists s. cbn. destruct need as [|need]; [lia|]. cbn.
    rewrite app_nil_r, Z.add_0_r. repeat split; auto. lia.
  - inversion Hwb as [|? ? Hb Hbs]; subst.
    destruct (process_book_spec b s Hb) as (s1 & Hrun & Hd & Hc & Hp & Hfs & Hpg & Hend);
      [lia|].
    cbn [for_in]. unfold bind at 1. rewrite Hrun.
    cbn [qualifying_books flat_map].
    fold (qualifying_books site L bs).
    destruct (qualifying site L b) as [x|]; cbn [opt_list List.length] in *.
    + (* the book qualifies *)
      destruct need as [|need]; [lia|]. cbn [Datatypes.app firstn List.length].
      destruct need as [|need].
      * (* it was the last one needed *)
        rewrite geb_true by lia. cbv [ret]. exists s1. cbn.
        rewrite Hd, Hc, Hp, Hfs, Hpg. repeat split; auto.
        intros _. apply Hend. lia.
      * rewrite geb_false by lia.
        destruct (IH s1 (S need) Hbs) as (s2 & Hrun2 & Hd2 & Hc2 & Hp2 & Hfs2 & Hpg2 & Hend2);
          [lia | lia |].
        exists s2. rewrite Hrun2.
        rewrite Hd2, Hc2, Hp2, Hfs2, Hpg2, Hd, Hc, Hp, Hfs, Hpg.
        change (S (S need) <=? S (List.length (qualifying_books site L bs)))%nat
          with (S need <=? List.length (qualifying_books site L bs))%nat.
        rewrite <- app_assoc. cbn [Datatypes.app List.length firstn].
        repeat split; auto; [lia|]. intros H. apply Hend2. lia.
    + (* the book does not qualify *)
      rewrite Z.add_0_r in Hc. rewrite app_nil_r in Hd.
      rewrite geb_false by lia. cbn [Datatypes.app].
      destruct (IH s1 need Hbs) as (s2 & Hrun2 & Hd2 & Hc2 & Hp2 & Hfs2 & Hpg2 & Hend2);
        [lia | lia |].
      exists s2. rewrite Hrun2.
      rewrite Hd2, Hc2, Hp2, Hfs2, Hpg2, Hd, Hc, Hp, Hfs, Hpg.
      repeat split; auto.
Qed.

Lemma page_loop_spec s need resp :
  site (page_url (page_num s)) = Ok resp ->
  status_code resp = 200 ->
  Forall (pod_well_behaved site L) (products resp) ->
  N - books_scraped s = Z.of_nat need -> (0 < need)%nat ->
  let q := qualifying_books site L (products resp) in
  exists s',
    for_in (py_range R) (page_attempt E N L R D (page_url (page_num s))) s
    = (Ok (Some tt), s')
    /\ all_books_data s' = all_books_data s ++ firstn need q
    /\ books_scraped s' = books_scraped s + Z.of_nat (List.length (firstn need q))
    /\ page_num s' = page_num s
    /\ fs s' = fs s
    /\ filter is_page_get (trace s')
       = filter is_page_get (trace s) ++ [EvGet PageFetch (page_url (page_num s))]
    /\ ((need <= List.length q)%nat -> ends_with_category_get (trace s')).
Proof.
  intros Hsite Hst Hwb Hneed Hpos q. subst q.
  rewrite (py_range_cons R HR). cbn [for_in]. unfold bind at 1.
  set (url := page_url (page_num s)) in *.
  set (s0 := st_tick (st_emit (EvGet PageFetch url) s)).
  assert (Hget : http_get E PageFetch url s = (Ok resp, s0)).
  { unfold http_get. now rewrite Hstatic, Hsite. }
  unfold page_attempt. unfold bind at 1. unfold try_except, read_page.
  unfold bind at 1. rewrite Hget, Hst. cbn [Z.eqb Pos.eqb].
  destruct (products resp) as [|b bs] eqn:Hprod.
  - cbv [log emit modify bind ret]. eexists. split; [reflexivity|].
    cbn. destruct need as [|need]; [lia|]. cbn.
    rewrite app_nil_r, Z.add_0_r. repeat split; auto.
    + rewrite !filter_app. cbn. now rewrite app_nil_r.
    + lia.
  - destruct (book_loop_spec (b :: bs) s0 need Hwb)
      as (s1 & Hrun & Hd & Hc & Hp & Hfs & Hpg & Hend); [exact Hneed | exact Hpos |].
    unfold bind at 1. rewrite Hrun. cbv [ret]. exists s1.
    split; [reflexivity|]. rewrite Hd, Hc, Hp, Hfs, Hpg.
    subst s0. cbn. repeat split; auto.
    rewrite filter_app. cbn. reflexivity.
Qed.


Lemma serves_tail first pg rest :
  serves site first (pg :: rest) -> serves site (first + 1) rest.
Proof.
  intros H k Hk. destruct (H (S k)) as (resp & Hs & Hst & Hp); [simpl; lia|].
  exists resp. repeat split; auto.
  replace (first + 1 + Z.of_nat k) with (first + Z.of_nat (S k)) by lia. exact Hs.
Qed.


End StaticSite.







End BooksFacts.


Import HNFacts BooksFacts.

(** * Claims on both scripts *)

Lemma start_loop_raises E :
  hoare (fun _ => True) (for_in (py_range ScrapeHN.MAX_RETRIES) (ScrapeHN.start_attempt E))
    (fun r _ => match r with
                | Raise e => exists a, ScrapeHN.start_driver E a = Raise e
                                       /\ is_WebDriverException e = false
                | Ok _ => True
                end).
Proof.
  apply hoare_for_in; [|auto]. intros a s _.
  destruct (ScrapeHN.start_attempt E a s) as [r' s'] eqn:Hs. simpl.
  hn_compute Hs. destruct (ScrapeHN.start_driver E a) as [[]|e] eqn:Hd.
  - inversion Hs; subst; exact I.
  - destruct e; hn_compute Hs.
    all: try (inversion Hs; subst; exists a; split; [exact Hd | reflexivity]).
    all: destruct (a <? ScrapeHN.MAX_RETRIES - 1); inversion Hs; subst; auto.
Qed.

Lemma scrape_hacker_news_raises E out files0 e :
  fst (ScrapeHN.scrape_hacker_news E out files0) = Raise e ->
  exists a, ScrapeHN.start_driver E a = Raise e /\ is_WebDriverException e = false.
Proof.
  destruct (ScrapeHN.scrape_hacker_news E out files0) as [res sf] eqn:Hrun. simpl.
  intros ->. unfold ScrapeHN.scrape_hacker_news in Hrun.
  bind_split Hrun u s1 H1; [|discriminate H1].
  bind_split Hrun early s2 Ha.
  - destruct early as [v|]; [discriminate Hrun|].
    exfalso. unfold try_finally, try_except in Hrun.
    destruct (ScrapeHN.scrape E out s2) as [[w|e'] s3].
    + destruct (release_spec s3) as (Hr & _).
      destruct (ScrapeHN.release s3) as [ru s4]; simpl in Hr; subst ru.
      discriminate Hrun.
    + simpl in Hrun. cbv [ScrapeHN.log ScrapeHN.emit modify bind ret] in Hrun.
      match type of Hrun with
      | context [ScrapeHN.release ?st] =>
          destruct (release_spec st) as (Hr & _);
          destruct (ScrapeHN.release st) as [ru s4]; simpl in Hr; subst ru
      end.
      discriminate Hrun.
  - inversion Hrun as [He]. subst. clear Hrun.
    unfold ScrapeHN.acquire in Ha.
    bind_split Ha u1 s3 H2; [|discriminate H2].
    pose proof (start_loop_raises E s3 I) as Hl.
    bind_split Ha started s4 H3.
    + destruct started as [[|w]|].
      * bind_split Ha d s5 H4; [|discriminate H4].
        destruct d; discriminate Ha.
      * discriminate Ha.
      * bind_split Ha d s5 H4; [|discriminate H4].
        destruct d; discriminate Ha.
    + rewrite H3 in Hl. simpl in Hl. inversion Ha; subst. exact Hl.
Qed.

(** C6, as the source has it.  A run of [scrape_books] that ends, ends
    without an exception when [requests.get] raises nothing but
    RequestException, every listed book is readable, no breadcrumb list
    lacks its third link, the delay returns and the file write raises
    nothing but IOError (a run need not end: pages answered with 200 that
    list nothing keep the pagination going).  [scrape_hacker_news], which
    always ends, returns
    a sequence unless starting the browser raises an exception that is not
    a WebDriverException: no failure of navigation, row location,
    extraction or persistence leaves the function. *)
Theorem absorbed_failures_raise_nothing :
  (forall (E : ScrapeBooks.env) (num_books : Z) (price_limit : float)
          (max_retries retry_delay : Z) (fuel : nat) (files0 : files)
          (r : result unit) (s : ScrapeBooks.state),
      BooksSpec.absorbed_failures E ->
      ScrapeBooks.time_sleep E retry_delay = Ok tt ->
      ScrapeBooks.scrape_books E num_books price_limit max_retries retry_delay fuel files0
      = Some (r, s) ->
      r = Ok tt)
  /\ (forall (E : ScrapeHN.env) (output_file : string) (files0 : files),
        (exists v, fst (ScrapeHN.scrape_hacker_news E output_file files0) = Ok v)
        \/ (exists e a,
              fst (ScrapeHN.scrape_hacker_news E output_file files0) = Raise e
              /\ ScrapeHN.start_driver E a = Raise e
              /\ is_WebDriverException e = false)).
Proof.
  split.
  - intros E N L R D fuel files0 r s Habs Hsl Hrun.
    eapply scrape_books_never_raises; eauto.
  - intros E out files0.
    destruct (fst (ScrapeHN.scrape_hacker_news E out files0)) as [v|e] eqn:Hr.
    + left. eauto.
    + right. destruct (scrape_hacker_news_raises E out files0 e Hr) as (a & Ha & Hw).
      eauto.
Qed.

Lemma absorbed_failures_raise_nothing_witness :
  exists s,
    ScrapeBooks.scrape_books (BooksSpec.env_of_site BooksSpec.site_down (OpenRaises OSError))
      50 20%float 3 1 1 no_files = Some (Ok tt, s).
Proof.
  destruct (ScrapeBooks.scrape_books
              (BooksSpec.env_of_site BooksSpec.site_down (OpenRaises OSError))
              50 20%float 3 1 1 no_files) as [[r s]|] eqn:Hrun;
    [|vm_compute in Hrun; discriminate Hrun].
  exists s.
  rewrite (proj1 absorbed_failures_raise_nothing
             (BooksSpec.env_of_site BooksSpec.site_down (OpenRaises OSError))
             50 20%float 3 1 1%nat no_files r s
             (conj (fun n url => eq_refl) eq_refl) eq_refl Hrun).
  reflexivity.
Defined.

(** C6, as the claim states it, fails: a listed book whose price text
    [float] refuses makes [scrape_books] raise ValueError. *)
Lemma unreadable_price_escapes_scrape_books :
  exists s,
    ScrapeBooks.scrape_books (BooksSpec.env_of_site BooksSpec.site_bad_price WriteOk)
      50 20%float 3 1 1 no_files = Some (Raise ValueError, s).
Proof. eexists. vm_compute. reflexivity. Qed.

Lemma page_attempt_delayed E N L R D url a s :
  let body := ScrapeBooks.read_page E N L R D url s in
  let run := ScrapeBooks.page_attempt E N L R D url a s in
  (fst body = Ok Next
   \/ exists e, fst body = Raise e /\ is_RequestException e = true) ->
  (ScrapeBooks.time_sleep E D = Ok tt ->
   fst run = Ok Next
   /\ exists evs,
        ScrapeBooks.trace (snd run)
        = ScrapeBooks.trace (snd body) ++ evs ++ [EvSleep D]
        /\ (evs = [] \/ evs = [EvLog ERROR "Error de solicitud al acceder a "%string]))
  /\ (forall e', ScrapeBooks.time_sleep E D = Raise e' ->
                 fst run = Raise e'
                 /\ count_events is_sleep (ScrapeBooks.trace (snd run))
                    = count_events is_sleep (ScrapeBooks.trace (snd body))).
Proof.
  intros body run Hfail. subst body run.
  assert (Hpa : ScrapeBooks.page_attempt E N L R D url a s
                = match ScrapeBooks.read_page E N L R D url s with
                  | (Ok (Break _), s1) => (Ok (Break tt), s1)
                  | (Ok Next, s1) => (ScrapeBooks.sleep E D ;; ret Next) s1
                  | (Raise e, s1) =>
                      if is_RequestException e
                      then (ScrapeBooks.sleep E D ;; ret Next)
                             (ScrapeBooks.st_emit
                                (EvLog ERROR "Error de solicitud al acceder a ") s1)
                      else (Raise e, s1)
                  end).
  { unfold ScrapeBooks.page_attempt, try_except. unfold bind at 1.
    destruct (ScrapeBooks.read_page E N L R D url s) as [[[|u]|e] s1]; try reflexivity.
    cbn [dispatch]. destruct (is_RequestException e); reflexivity. }
  rewrite Hpa. clear Hpa.
  destruct (ScrapeBooks.read_page E N L R D url s) as [[c|e] s1]; cbn [fst snd] in *.
  - destruct Hfail as [Hc | (e & He & _)]; [|discriminate He].
    inversion Hc; subst c. unfold bind. split.
    + intros Hsl. rewrite (sleep_returns E D s1 Hsl). cbv [ret]. cbn.
      split; [reflexivity|]. exists []. split; [reflexivity | now left].
    + intros e' Hsl. rewrite (sleep_raises E D e' s1 Hsl). cbn.
      split; reflexivity.
  - destruct Hfail as [Hc | (e0 & He & Hreq)]; [discriminate Hc|].
    inversion He; subst e0. rewrite Hreq. unfold bind. split.
    + intros Hsl. rewrite (sleep_returns E D _ Hsl). cbv [ret]. cbn.
      split; [reflexivity|]. eexists. split; [|now right]. now rewrite <- app_assoc.
    + intros e' Hsl. rewrite (sleep_raises E D e' _ Hsl). cbn.
      split; [reflexivity|]. unfold count_events. rewrite filter_app, length_app. cbn. lia.
Qed.

Lemma category_attempt_delay_raises E D u a s e' :
  BooksSpec.category_fails (ScrapeBooks.requests_get E (ScrapeBooks.clock s) u) ->
  ScrapeBooks.time_sleep E D = Raise e' ->
  ScrapeBooks.category_attempt E D u a s
  = (Raise e',
     ScrapeBooks.st_emit (EvLog WARNING "Intento ")
       (ScrapeBooks.st_tick (ScrapeBooks.st_emit (EvGet CategoryFetch u) s))).
Proof.
  intros Hf Hsl.
  destruct (ScrapeBooks.category_attempt E D u a s) as [res s1] eqn:Hrun.
  bk_compute Hrun. unfold BooksSpec.category_fails in Hf.
  destruct (ScrapeBooks.requests_get E (ScrapeBooks.clock s) u) as [resp|e].
  - unfold ScrapeBooks.find_category in Hrun. rewrite Hf in Hrun. simpl in Hrun.
    inversion Hrun; subst. reflexivity.
  - destruct e; try discriminate Hf; inversion Hrun; subst; reflexivity.
Qed.

(** C7, as the source has it.  In [scrape_books] every failed page
    attempt, be it that the page is not answered with 200 or that its
    request or its processing raises a RequestException, and every failed
    category attempt is followed by the call of [time.sleep], whatever the
    attempt number, so also the last one: when the call returns, the delay
    is made and the loop goes on; when it raises, the exception leaves the
    attempt, and a run whose first page fails ends with it before any
    file is written.  An attempt of [scrape_hacker_news] that finds no row
    is followed by the delay as well.  A failed start of the browser, a
    failed navigation and a row lookup that raises NoSuchElementException
    are followed by the delay on every attempt but the last, which logs the
    failure and returns without sleeping. *)
Theorem delay_after_failed_attempts :
  (forall (E : ScrapeBooks.env) (num_books : Z) (price_limit : float)
          (max_retries retry_delay : Z) (url : string) (attempt : Z)
          (s : ScrapeBooks.state),
      let body := ScrapeBooks.read_page E num_books price_limit max_retries retry_delay
                    url s in
      let run := ScrapeBooks.page_attempt E num_books price_limit max_retries retry_delay
                   url attempt s in
      (BooksSpec.page_fails (ScrapeBooks.requests_get E (ScrapeBooks.clock s) url) ->
       fst body = Ok Next
       \/ exists e, fst body = Raise e /\ is_RequestException e = true)
      /\ (fst body = Ok Next
          \/ (exists e, fst body = Raise e /\ is_RequestException e = true) ->
          (ScrapeBooks.time_sleep E retry_delay = Ok tt ->
           fst run = Ok Next
           /\ exists evs,
                ScrapeBooks.trace (snd run)
                = ScrapeBooks.trace (snd body) ++ evs ++ [EvSleep retry_delay]
                /\ (evs = []
                    \/ evs = [EvLog ERROR "Error de solicitud al acceder a "%string]))
          /\ (forall e', ScrapeBooks.time_sleep E retry_delay = Raise e' ->
                         fst run = Raise e'
                         /\ count_events is_sleep (ScrapeBooks.trace (snd run))
                            = count_events is_sleep (ScrapeBooks.trace (snd body)))))
  /\ (forall (E : ScrapeBooks.env) (retry_delay : Z) (url : string) (cat_attempt : Z)
             (s : ScrapeBooks.state),
        BooksSpec.category_fails (ScrapeBooks.requests_get E (ScrapeBooks.clock s) url) ->
        let run := ScrapeBooks.category_attempt E retry_delay url cat_attempt s in
        (ScrapeBooks.time_sleep E retry_delay = Ok tt ->
         fst run = Ok Next
         /\ ScrapeBooks.trace (snd run)
            = ScrapeBooks.trace s
              ++ [EvGet CategoryFetch url; EvLog WARNING "Intento "%string;
                  EvSleep retry_delay])
        /\ (forall e', ScrapeBooks.time_sleep E retry_delay = Raise e' ->
                       fst run = Raise e'
                       /\ ScrapeBooks.trace (snd run)
                          = ScrapeBooks.trace s
                            ++ [EvGet CategoryFetch url; EvLog WARNING "Intento "%string]))
  /\ (forall (E : ScrapeBooks.env) (num_books : Z) (price_limit : float)
             (max_retries retry_delay : Z) (fuel : nat) (files0 : files) (e' : exn),
        1 <= num_books -> 1 <= max_retries -> (1 <= fuel)%nat ->
        BooksSpec.page_fails (ScrapeBooks.requests_get E 0 (ScrapeBooks.page_url 1)) ->
        ScrapeBooks.time_sleep E retry_delay = Raise e' ->
        exists s,
          ScrapeBooks.scrape_books E num_books price_limit max_retries retry_delay
            fuel files0 = Some (Raise e', s)
          /\ count_events is_sleep (ScrapeBooks.trace s) = 0%nat
          /\ count_events is_get (ScrapeBooks.trace s) = 1%nat
          /\ ScrapeBooks.fs s = files0)
  /\ (forall (E : ScrapeHN.env) (attempt : Z) (s : ScrapeHN.state),
        ScrapeHN.find_elements E attempt = Ok [] ->
        let run := ScrapeHN.find_attempt E attempt s in
        fst run = Ok Next
        /\ exists evs,
             ScrapeHN.trace (snd run)
             = ScrapeHN.trace s ++ evs ++ [EvSleep ScrapeHN.RETRY_DELAY])
  /\ (forall (E : ScrapeHN.env) (attempt : Z) (s : ScrapeHN.state) (e : exn),
        is_WebDriverException e = true ->
        (ScrapeHN.start_driver E attempt = Raise e ->
         let run := ScrapeHN.start_attempt E attempt s in
         if attempt <? ScrapeHN.MAX_RETRIES - 1
         then fst run = Ok Next
              /\ exists evs, ScrapeHN.trace (snd run)
                             = ScrapeHN.trace s ++ evs ++ [EvSleep ScrapeHN.RETRY_DELAY]
         else fst run = Ok (Break (ScrapeHN.Returned []))
              /\ count_events is_sleep (ScrapeHN.trace (snd run))
                 = count_events is_sleep (ScrapeHN.trace s))
        /\ (ScrapeHN.driver_get E attempt = Raise e ->
            let run := ScrapeHN.navigate_attempt E attempt s in
            if attempt <? ScrapeHN.MAX_RETRIES - 1
            then fst run = Ok Next
                 /\ exists evs, ScrapeHN.trace (snd run)
                                = ScrapeHN.trace s ++ evs ++ [EvSleep ScrapeHN.RETRY_DELAY]
            else fst run = Ok (Break (ScrapeHN.Returned []))
                 /\ count_events is_sleep (ScrapeHN.trace (snd run))
                    = count_events is_sleep (ScrapeHN.trace s))
        /\ (ScrapeHN.find_elements E attempt = Raise e ->
            is_NoSuchElementException e = true ->
            let run := ScrapeHN.find_attempt E attempt s in
            if attempt <? ScrapeHN.MAX_RETRIES - 1
            then fst run = Ok Next
                 /\ exists evs, ScrapeHN.trace (snd run)
                                = ScrapeHN.trace s ++ evs ++ [EvSleep ScrapeHN.RETRY_DELAY]
            else fst run = Ok (Break (ScrapeHN.Returned []))
                 /\ count_events is_sleep (ScrapeHN.trace (snd run))
                    = count_events is_sleep (ScrapeHN.trace s))).
Proof.
  split; [|split; [|split; [|split]]].
  - intros E N L R D url a s body run. split.
    + intros Hf. subst body.
      destruct (ScrapeBooks.read_page E N L R D url s) as [rb sb] eqn:Hb. cbn [fst].
      unfold ScrapeBooks.read_page in Hb. unfold bind at 1 in Hb.
      unfold ScrapeBooks.http_get in Hb. unfold BooksSpec.page_fails in Hf.
      destruct (ScrapeBooks.requests_get E (ScrapeBooks.clock s) url) as [resp|e].
      * left. apply Z.eqb_neq in Hf. rewrite Hf in Hb.
        cbv [ScrapeBooks.log ScrapeBooks.emit modify bind ret] in Hb. now inversion Hb.
      * right. exists e. inversion Hb. split; [reflexivity | exact Hf].
    + apply page_attempt_delayed.
  - intros E D url a s Hf run. subst run. split.
    + intros Hsl. rewrite (category_attempt_failed E D url a s Hsl Hf). simpl.
      split; [reflexivity|]. now rewrite <- !app_assoc.
    + intros e' Hsl. rewrite (category_attempt_delay_raises E D url a s e' Hf Hsl). simpl.
      split; [reflexivity|]. now rewrite <- !app_assoc.
  - intros E N L R D fuel files0 e' HN HR Hfuel Hf Hsl.
    destruct fuel as [|fuel]; [lia|].
    unfold ScrapeBooks.scrape_books. cbn [ScrapeBooks.pagination].
    assert (Hc : (ScrapeBooks.books_scraped (ScrapeBooks.initial files0) <? N) = true)
      by (apply Z.ltb_lt; cbn; lia).
    rewrite Hc, (py_range_cons R HR). cbn [for_in ScrapeBooks.page_num ScrapeBooks.initial].
    unfold bind at 1.
    destruct (ScrapeBooks.page_attempt E N L R D (ScrapeBooks.page_url 1) 0
                (ScrapeBooks.initial files0)) as [res s1] eqn:Hrun.
    bk_compute Hrun. cbn [ScrapeBooks.clock ScrapeBooks.initial] in Hrun.
    unfold BooksSpec.page_fails in Hf.
    destruct (ScrapeBooks.requests_get E 0 (ScrapeBooks.page_url 1)) as [resp|e].
    + apply Z.eqb_neq in Hf. rewrite Hf in Hrun. inversion Hrun; subst.
      eexists. split; [reflexivity|]. repeat split; reflexivity.
    + destruct e; try discriminate Hf; inversion Hrun; subst;
        (eexists; split; [reflexivity|]; repeat split; reflexivity).
  - intros E a s Hf run. subst run.
    destruct (ScrapeHN.find_attempt E a s) as [res s1] eqn:Hrun.
    hn_compute Hrun. rewrite Hf in Hrun. inversion Hrun; subst. simpl.
    split; [reflexivity|].
    exists [EvLog INFO "Intento "%string; EvFindRows;
            EvLog WARNING "No se encontraron elementos de noticias, reintentando..."%string].
    now rewrite <- !app_assoc.
  - intros E a s e He. split; [|split].
    + intros Hf run. subst run.
      destruct (ScrapeHN.start_attempt E a s) as [res s1] eqn:Hrun.
      hn_compute Hrun. rewrite Hf in Hrun.
      destruct e; try discriminate He; hn_compute Hrun.
      all: destruct (a <? ScrapeHN.MAX_RETRIES - 1); inversion Hrun; subst; simpl.
      all: split; [reflexivity|].
      all: try (eexists [_; _; _]; now rewrite <- !app_assoc).
      all: unfold count_events; rewrite !filter_app, !length_app; simpl; lia.
    + intros Hf run. subst run.
      destruct (ScrapeHN.navigate_attempt E a s) as [res s1] eqn:Hrun.
      hn_compute Hrun. rewrite Hf in Hrun.
      destruct e; try discriminate He; hn_compute Hrun.
      all: destruct (a <? ScrapeHN.MAX_RETRIES - 1); simpl in Hrun.
      all: try destruct (ScrapeHN.driver s); inversion Hrun; subst; simpl.
      all: split; [reflexivity|].
      all: try (eexists [_; _; _]; now rewrite <- !app_assoc).
      all: unfold count_events; rewrite !filter_app, !length_app; simpl; lia.
    + intros Hf Hn run. subst run.
      destruct (ScrapeHN.find_attempt E a s) as [res s1] eqn:Hrun.
      hn_compute Hrun. rewrite Hf in Hrun.
      destruct e; try discriminate Hn; hn_compute Hrun.
      all: destruct (a <? ScrapeHN.MAX_RETRIES - 1); simpl in Hrun.
      all: try destruct (ScrapeHN.driver s); inversion Hrun; subst; simpl.
      all: split; [reflexivity|].
      all: try (eexists [_; _; _]; now rewrite <- !app_assoc).
      all: unfold count_events; rewrite !filter_app, !length_app; simpl; lia.
Qed.

Lemma delay_after_failed_attempts_witness :
  (exists s,
      ScrapeBooks.scrape_books (BooksSpec.env_of_site BooksSpec.site_down WriteOk)
        50 20%float 3 (-1) 1 BooksSpec.files_of_earlier_run = Some (Raise ValueError, s)
      /\ ScrapeBooks.fs s = BooksSpec.files_of_earlier_run)
  /\ (let run := ScrapeHN.start_attempt HNSpec.env_no_browser 2 (ScrapeHN.initial no_files) in
      fst run = Ok (Break (ScrapeHN.Returned []))
      /\ count_events is_sleep (ScrapeHN.trace (snd run))
         = count_events is_sleep (ScrapeHN.trace (ScrapeHN.initial no_files))).
Proof.
  split.
  - destruct (proj1 (proj2 (proj2 delay_after_failed_attempts))
                (BooksSpec.env_of_site BooksSpec.site_down WriteOk) 50 20%float 3 (-1)
                1%nat BooksSpec.files_of_earlier_run ValueError)
      as (s & Hrun & _ & _ & Hfs); try lia; try reflexivity.
    exists s. split; assumption.
  - exact (proj1 (proj2 (proj2 (proj2 (proj2 delay_after_failed_attempts)))
                    HNSpec.env_no_browser 2 (ScrapeHN.initial no_files)
                    WebDriverOtherError eq_refl) eq_refl).
Defined.

(** C7, as the claim states it, fails: the browser fails to start three
    times; the first two failures are followed by the delay, the third by
    the error message and the return. *)
Lemma session_start_skips_the_last_delay :
  ScrapeHN.trace (snd (ScrapeHN.scrape_hacker_news HNSpec.env_no_browser
                         "hacker_news.json" no_files))
  = [ EvLog INFO "Iniciando el scraping de Hacker News...";
      EvLog INFO "Intento "; EvStartDriver;
      EvLog WARNING "Error al iniciar WebDriver (Intento "; EvSleep 2;
      EvLog INFO "Intento "; EvStartDriver;
      EvLog WARNING "Error al iniciar WebDriver (Intento "; EvSleep 2;
      EvLog INFO "Intento "; EvStartDriver;
      EvLog WARNING "Error al iniciar WebDriver (Intento ";
      EvLog ERROR "No se pudo iniciar WebDriver después de varios intentos." ]%string.
Proof. reflexivity. Qed.




(** * The endpoints of main.py *)
Module MainFacts.

Import Main MainSpec.

Section Validation.

Variable V : Type.
Variable model : list (string * pyval) -> result V.

Lemma validate_one_spec warning x s :
  validate_one model warning x s
  = (Ok Next,
     match construct model x with
     | Ok v => api_append v s
     | Raise _ => api_emit (EvLog WARNING warning) s
     end).
Proof.
  unfold validate_one, try_except, bind, eval, modify, ret, api_log.
  destruct (construct model x) as [v|e]; reflexivity.
Qed.

Lemma validate_loop warning xs : forall s,
  for_in xs (validate_one model warning) s
  = (Ok None,
     {| api_trace := api_trace s
                     ++ map (fun _ => EvLog WARNING warning) (refused model xs);
        validated := validated s ++ accepted model xs |}).
Proof.
  induction xs as [|x xs IH]; intros s.
  - cbn. rewrite !app_nil_r. destruct s; reflexivity.
  - cbn [for_in]. unfold bind at 1. rewrite validate_one_spec.
    rewrite IH. unfold accepted, refused. cbn [flat_map filter].
    destruct (construct model x) as [v|e]; cbn [is_ok negb map api_append api_emit
                                                api_trace validated];
      rewrite <- !app_assoc; reflexivity.
Qed.

Lemma length_accepted_refused xs :
  (List.length (accepted model xs) + List.length (refused model xs)
   = List.length xs)%nat.
Proof.
  unfold accepted, refused. induction xs as [|x xs IH]; cbn [flat_map filter]; [reflexivity|].
  rewrite length_app.
  destruct (construct model x); cbn [is_ok negb List.length]; lia.
Qed.

End Validation.

Section Endpoints.

Variable py_float : string -> float.
Variable str_strip : string -> string.
Variable str_lower : string -> string.
Variable BookT : Type.
Variable Book : list (string * pyval) -> result BookT.

Lemma in_category_spec wanted x :
  in_category str_strip str_lower wanted x
  = if filterable x
    then Ok (has_category_text str_strip str_lower wanted x)
    else Raise AttributeError.
Proof.
  unfold in_category, has_category_text, filterable, field_text, py_get, py_getitem.
  destruct x as [ | b | n | f | t | items | d ]; try reflexivity.
  destruct (dict_get "Categoría" d) as [c|]; [|reflexivity].
  destruct c as [ | b | n | f | t | items | entries ];
    cbn [py_truthy strip_lower negb andb is_empty]; try reflexivity.
  - destruct b; reflexivity.
  - destruct (n =? 0); reflexivity.
  - destruct (PrimFloat.eqb f 0); reflexivity.
  - destruct t as [|a t]; reflexivity.
  - destruct items; reflexivity.
  - destruct entries; reflexivity.
Qed.

Lemma comprehension_in_category wanted xs :
  comprehension (in_category str_strip str_lower wanted) xs
  = if forallb filterable xs
    then Ok (filter (has_category_text str_strip str_lower wanted) xs)
    else Raise AttributeError.
Proof.
  induction xs as [|x xs IH]; [reflexivity|].
  cbn [comprehension forallb filter]. rewrite IH, in_category_spec.
  destruct (filterable x); [|reflexivity].
  destruct (forallb filterable xs); reflexivity.
Qed.

Lemma search_turn_dict query_lower search_in d s :
  search_turn str_strip str_lower Book query_lower search_in (PyDict d) s
  = if search_matches str_strip str_lower query_lower search_in (PyDict d)
    then validate_one Book
           "Libro inválido encontrado durante la búsqueda y omitido: " (PyDict d) s
    else (Ok Next, s).
Proof.
  unfold search_turn, search_matches, is_one_of, field_text, py_get.
  cbn [existsb]. rewrite !orb_false_r.
  unfold bind at 1 2. unfold eval.
  set (t := match dict_get "Título" d with Some v => Ok v | None => Ok (PyStr "") end).
  set (c := match dict_get "Categoría" d with Some v => Ok v | None => Ok (PyStr "") end).
  assert (Ht : exists tv, t = Ok tv
               /\ match tv with PyStr s0 => s0 | _ => "" end
                  = match dict_get "Título" d with Some (PyStr s0) => s0 | _ => "" end).
  { subst t. destruct (dict_get "Título" d) as [v|]; eexists; split; reflexivity. }
  assert (Hc : exists cv, c = Ok cv
               /\ match cv with PyStr s0 => s0 | _ => "" end
                  = match dict_get "Categoría" d with Some (PyStr s0) => s0 | _ => "" end).
  { subst c. destruct (dict_get "Categoría" d) as [v|]; eexists; split; reflexivity. }
  destruct Ht as (tv & -> & Htv). destruct Hc as (cv & -> & Hcv).
  cbv zeta. rewrite Htv, Hcv.
  destruct (String.eqb search_in "title"), (String.eqb search_in "all"),
    (String.eqb search_in "category");
    cbn [orb andb negb];
    repeat match goal with
           | |- context [str_in query_lower ?t] =>
               destruct (str_in query_lower t); cbn [orb andb negb]
           end;
    reflexivity.
Qed.

Lemma search_loop query_lower search_in xs : forall s,
  forallb is_dict xs = true ->
  for_in xs (search_turn str_strip str_lower Book query_lower search_in) s
  = (Ok None,
     {| api_trace :=
          api_trace s
          ++ map (fun _ => EvLog WARNING
                             "Libro inválido encontrado durante la búsqueda y omitido: ")
               (refused Book
                  (filter (search_matches str_strip str_lower query_lower search_in) xs));
        validated :=
          validated s
          ++ accepted Book
               (filter (search_matches str_strip str_lower query_lower search_in) xs) |}).
Proof.
  induction xs as [|x xs IH]; intros s Hd.
  - cbn. rewrite !app_nil_r. destruct s; reflexivity.
  - cbn [forallb] in Hd. apply andb_prop in Hd. destruct Hd as [Hx Hxs].
    destruct x as [ | | | | | | d ]; try discriminate Hx.
    cbn [for_in filter]. unfold bind at 1. rewrite search_turn_dict.
    destruct (search_matches str_strip str_lower query_lower search_in (PyDict d)).
    + rewrite validate_one_spec. rewrite (IH _ Hxs).
      unfold accepted, refused. cbn [flat_map filter].
      destruct (construct Book (PyDict d)) as [v|e];
        cbn [is_ok negb map api_append api_emit api_trace validated];
        rewrite <- !app_assoc; reflexivity.
    + apply (IH _ Hxs).
Qed.

Lemma search_loop_raises query_lower search_in xs : forall s,
  forallb is_dict xs = false ->
  fst (for_in xs (search_turn str_strip str_lower Book query_lower search_in) s)
  = Raise AttributeError.
Proof.
  induction xs as [|x xs IH]; intros s Hd; [discriminate Hd|].
  cbn [forallb] in Hd. cbn [for_in]. unfold bind at 1.
  destruct (is_dict x) eqn:Hx.
  - destruct x as [ | | | | | | d ]; try discriminate Hx.
    rewrite search_turn_dict.
    destruct (search_matches str_strip str_lower query_lower search_in (PyDict d)).
    + rewrite validate_one_spec. apply IH. exact Hd.
    + apply IH. exact Hd.
  - destruct x; try discriminate Hx; reflexivity.
Qed.

Lemma get_books_unfiltered fs :
  get_books py_float str_strip str_lower Book fs None
  = (Ok (accepted Book (fst (load_books_from_json py_float fs))),
     {| api_trace :=
          [EvLog INFO "Recibida solicitud GET /books. Categoría de filtro: "]
          ++ snd (load_books_from_json py_float fs)
          ++ match fst (load_books_from_json py_float fs) with
             | [] => []
             | _ :: _ =>
                 EvLog INFO "Devolviendo todos los "
                 :: map (fun _ => EvLog WARNING "Libro inválido encontrado y omitido: ")
                      (refused Book (fst (load_books_from_json py_float fs)))
             end;
        validated := accepted Book (fst (load_books_from_json py_float fs)) |}).
Proof.
  unfold get_books, api_log, load. unfold bind at 1 2. cbn [modify].
  destruct (fst (load_books_from_json py_float fs)) as [|b bs] eqn:Hb.
  - cbn. now rewrite app_nil_r.
  - unfold bind at 1 2. cbn [modify]. rewrite validate_loop.
    cbn [snd gets api_trace api_emit api_events api_initial Datatypes.app validated].
    rewrite <- !app_assoc. reflexivity.
Qed.

Lemma get_books_filtered fs a text :
  fst (get_books py_float str_strip str_lower Book fs (Some (String a text)))
  = if forallb filterable (fst (load_books_from_json py_float fs))
    then Ok (accepted Book
               (filter (has_category_text str_strip str_lower
                          (str_lower (str_strip (String a text))))
                  (fst (load_books_from_json py_float fs))))
    else Raise AttributeError.
Proof.
  unfold get_books, api_log, load. unfold bind at 1 2. cbn [modify].
  destruct (fst (load_books_from_json py_float fs)) as [|b bs] eqn:Hb; [reflexivity|].
  rewrite <- Hb. cbv zeta. unfold bind at 1. unfold eval.
  rewrite comprehension_in_category.
  destruct (forallb filterable _); [|reflexivity].
  unfold bind at 1 2. cbn [modify]. rewrite validate_loop. reflexivity.
Qed.

Lemma search_books_spec fs query search_in :
  fst (search_books py_float str_strip str_lower Book fs query search_in)
  = if forallb is_dict (fst (load_books_from_json py_float fs))
    then Ok (accepted Book
               (filter (search_matches str_strip str_lower
                          (str_lower (str_strip query)) search_in)
                  (fst (load_books_from_json py_float fs))))
    else Raise AttributeError.
Proof.
  unfold search_books, api_log, load. unfold bind at 1 2. cbn [modify].
  destruct (fst (load_books_from_json py_float fs)) as [|b bs] eqn:Hb; [reflexivity|].
  rewrite <- Hb. cbv zeta. unfold bind at 1.
  destruct (forallb is_dict _) eqn:Hd.
  - rewrite search_loop by exact Hd. reflexivity.
  - match goal with
    | |- fst (match ?run with _ => _ end) = _ =>
        pose proof (eq_refl : fst run = fst run) as Hr;
        destruct run as [[o|e] s1] eqn:Hrun
    end.
    + pose proof (search_loop_raises (str_lower (str_strip query)) search_in _
                    (api_events (snd (load_books_from_json py_float fs))
                       (api_emit
                          (EvLog INFO "Recibida solicitud GET /books/search. Query: '")
                          api_initial)) Hd) as Hx.
      rewrite Hrun in Hx. discriminate Hx.
    + pose proof (search_loop_raises (str_lower (str_strip query)) search_in _
                    (api_events (snd (load_books_from_json py_float fs))
                       (api_emit
                          (EvLog INFO "Recibida solicitud GET /books/search. Query: '")
                          api_initial)) Hd) as Hx.
      rewrite Hrun in Hx. simpl in Hx |- *. now inversion Hx.
Qed.

Lemma filter_all_true {A} (f : A -> bool) xs :
  (forall x, f x = true) -> filter f xs = xs.
Proof.
  intros H. induction xs as [|x xs IH]; cbn; [reflexivity|]. now rewrite H, IH.
Qed.

Lemma filter_all_false {A} (f : A -> bool) xs :
  (forall x, f x = false) -> filter f xs = [].
Proof.
  intros H. induction xs as [|x xs IH]; cbn; [reflexivity|]. now rewrite H, IH.
Qed.

Lemma str_in_empty hay : str_in "" hay = true.
Proof. destruct hay; reflexivity. Qed.

End Endpoints.

(** X1: [get_books] without a category, none given or the empty text, never
    raises.  It replies the records of books.json that the Book model
    accepts, in the order of the file; each record the model refuses, and
    each item that is no dictionary, is left out with one warning, so that
    the replied and the refused items add up to the items of the file. *)
Theorem get_books_replies_accepted_records :
  forall (py_float : string -> float) (str_strip str_lower : string -> string)
         (BookT : Type) (Book : list (string * pyval) -> result BookT)
         (fs : files) (category : option string),
    category = None \/ category = Some "" ->
    let books_data := fst (load_books_from_json py_float fs) in
    let run := get_books py_float str_strip str_lower Book fs category in
    fst run = Ok (accepted Book books_data)
    /\ api_trace (snd run)
       = [EvLog INFO "Recibida solicitud GET /books. Categoría de filtro: "]
         ++ snd (load_books_from_json py_float fs)
         ++ match books_data with
            | [] => []
            | _ :: _ =>
                EvLog INFO "Devolviendo todos los "
                :: map (fun _ => EvLog WARNING "Libro inválido encontrado y omitido: ")
                     (refused Book books_data)
            end
    /\ (List.length (accepted Book books_data) + List.length (refused Book books_data)
        = List.length books_data)%nat.
Proof.
  intros py_float str_strip str_lower BookT Book fs category Hc books_data run.
  assert (Hrun : run = get_books py_float str_strip str_lower Book fs None).
  { subst run. destruct Hc as [-> | ->]; reflexivity. }
  rewrite Hrun, get_books_unfiltered. clear Hrun run Hc.
  split; [reflexivity|]. split; [reflexivity|]. apply length_accepted_refused.
Qed.

Lemma get_books_replies_accepted_records_witness :
  fst (get_books SiteSpec.sample_float sample_strip sample_lower sample_Book
         files_with_number None)
  = Ok [poetry_sample].
Proof.
  assert (H := proj1 (get_books_replies_accepted_records SiteSpec.sample_float
                        sample_strip sample_lower sample_book sample_Book
                        files_with_number None (or_introl eq_refl))).
  vm_compute in H |- *. exact H.
Defined.

(** X2: [get_books] with a category.  When every item of books.json is a
    dictionary whose category is a text, is falsy or is missing, the reply
    is made of the records whose category is not empty and equals the
    wanted one once both are stripped and lowered, as far as the Book model
    accepts them, in the order of the file.  Otherwise, so as soon as one
    item is no dictionary or holds a truthy category that is no text, an
    AttributeError leaves the handler: the comprehension of lines 111 to
    116 is outside every [try]. *)
Theorem get_books_filters_by_category :
  forall (py_float : string -> float) (str_strip str_lower : string -> string)
         (BookT : Type) (Book : list (string * pyval) -> result BookT)
         (fs : files) (text : string),
    text <> "" ->
    let books_data := fst (load_books_from_json py_float fs) in
    fst (get_books py_float str_strip str_lower Book fs (Some text))
    = if forallb filterable books_data
      then Ok (accepted Book
                 (filter (has_category_text str_strip str_lower
                            (str_lower (str_strip text))) books_data))
      else Raise AttributeError.
Proof.
  intros py_float str_strip str_lower BookT Book fs text Ht books_data.
  destruct text as [|a text]; [congruence|]. apply get_books_filtered.
Qed.

Lemma get_books_filters_by_category_witness :
  fst (get_books SiteSpec.sample_float sample_strip sample_lower sample_Book
         files_with_records (Some "poetry"))
  = Ok [poetry_sample]
  /\ fst (get_books SiteSpec.sample_float sample_strip sample_lower sample_Book
            files_with_number (Some "poetry"))
     = Raise AttributeError.
Proof.
  assert (Hneq : "poetry" <> "") by discriminate.
  assert (H1 := get_books_filters_by_category SiteSpec.sample_float
                  sample_strip sample_lower sample_book sample_Book
                  files_with_records "poetry" Hneq).
  assert (H2 := get_books_filters_by_category SiteSpec.sample_float
                  sample_strip sample_lower sample_book sample_Book
                  files_with_number "poetry" Hneq).
  vm_compute in H1, H2 |- *. exact (conj H1 H2).
Defined.

(** X3: [search_books].  When every item of books.json is a dictionary,
    the reply is made of the records in which the stripped and lowered
    query occurs, in the title when [search_in] is title or all, or in the
    category when it is category or all, as far as the Book model accepts
    them and in the order of the file; a title or a category that is
    missing or is no text counts as the empty text.  An item that is no
    dictionary makes an AttributeError leave the handler. *)
Theorem search_books_replies_matching_records :
  forall (py_float : string -> float) (str_strip str_lower : string -> string)
         (BookT : Type) (Book : list (string * pyval) -> result BookT)
         (fs : files) (query search_in : string),
    let books_data := fst (load_books_from_json py_float fs) in
    fst (search_books py_float str_strip str_lower Book fs query search_in)
    = if forallb is_dict books_data
      then Ok (accepted Book
                 (filter (search_matches str_strip str_lower
                            (str_lower (str_strip query)) search_in) books_data))
      else Raise AttributeError.
Proof. intros. apply search_books_spec. Qed.

(** X4: the value of [search_in] is not checked by the handler.  With a
    value other than title, category and all, no record matches: over a
    books.json of dictionaries the reply is the empty list, whatever the
    query. *)
Theorem search_books_unknown_field_finds_nothing :
  forall (py_float : string -> float) (str_strip str_lower : string -> string)
         (BookT : Type) (Book : list (string * pyval) -> result BookT)
         (fs : files) (query search_in : string),
    is_one_of search_in ["title"; "category"; "all"] = false ->
    forallb is_dict (fst (load_books_from_json py_float fs)) = true ->
    fst (search_books py_float str_strip str_lower Book fs query search_in) = Ok [].
Proof.
  intros py_float str_strip str_lower BookT Book fs query search_in Hs Hd.
  rewrite search_books_spec, Hd. rewrite filter_all_false; [reflexivity|].
  intros x. unfold search_matches, is_one_of in *. cbn [existsb] in *.
  destruct (String.eqb search_in "title"), (String.eqb search_in "category"),
    (String.eqb search_in "all"); try discriminate Hs; reflexivity.
Qed.

Lemma search_books_unknown_field_finds_nothing_witness :
  fst (search_books SiteSpec.sample_float sample_strip sample_lower sample_Book
         files_with_records "poetry" "author") = Ok [].
Proof.
  apply (search_books_unknown_field_finds_nothing SiteSpec.sample_float
           sample_strip sample_lower sample_book sample_Book
           files_with_records "poetry" "author").
  - reflexivity.
  - vm_compute. reflexivity.
Defined.

(** X5: a query that is empty once stripped and lowered, a single blank
    for one, occurs in every text: searched in the title, the category or
    both, it makes [search_books] reply every record of books.json that
    the Book model accepts, as [get_books] without a category does. *)
Theorem search_books_blank_query_finds_everything :
  forall (py_float : string -> float) (str_strip str_lower : string -> string)
         (BookT : Type) (Book : list (string * pyval) -> result BookT)
         (fs : files) (query search_in : string),
    str_lower (str_strip query) = "" ->
    is_one_of search_in ["title"; "category"; "all"] = true ->
    forallb is_dict (fst (load_books_from_json py_float fs)) = true ->
    fst (search_books py_float str_strip str_lower Book fs query search_in)
    = fst (get_books py_float str_strip str_lower Book fs None).
Proof.
  intros py_float str_strip str_lower BookT Book fs query search_in Hq Hs Hd.
  rewrite search_books_spec, Hd, get_books_unfiltered, Hq.
  rewrite filter_all_true; [reflexivity|].
  intros x. unfold search_matches, is_one_of in *. cbn [existsb] in *.
  rewrite !str_in_empty.
  destruct (String.eqb search_in "title"), (String.eqb search_in "category"),
    (String.eqb search_in "all"); try discriminate Hs; reflexivity.
Qed.

Lemma search_books_blank_query_finds_everything_witness :
  fst (search_books SiteSpec.sample_float sample_strip sample_lower sample_Book
         files_with_records "" "category")
  = fst (get_books SiteSpec.sample_float sample_strip sample_lower sample_Book
           files_with_records None).
Proof.
  apply (search_books_blank_query_finds_everything SiteSpec.sample_float
           sample_strip sample_lower sample_book sample_Book
           files_with_records "" "category").
  - reflexivity.
  - reflexivity.
  - vm_compute. reflexivity.
Defined.

(** X6: [get_hacker_news_headlines] replies what [scrape_hacker_news]
    returns, as far as the Headline model accepts it and in the same
    order, and leaves the file system as the scraper does.  It answers
    with the status 500 only when the scraper raises, which is when
    starting the browser raises something else than a
    WebDriverException. *)
Theorem headlines_reply_follows_the_scraper :
  forall (HeadlineT : Type) (Headline : list (string * pyval) -> result HeadlineT)
         (E : ScrapeHN.env) (files0 : files),
    let run := ScrapeHN.scrape_hacker_news E "hacker_news.json" files0 in
    let out := get_hacker_news_headlines Headline E files0 in
    snd out = ScrapeHN.fs (snd run)
    /\ match fst run with
       | Ok v =>
           fst (fst out) = Replied (accepted Headline (map ScrapeHN.headline_dict v))
       | Raise e =>
           fst (fst out) = HTTPException 500
           /\ exists a, ScrapeHN.start_driver E a = Raise e
                        /\ is_WebDriverException e = false
       end.
Proof.
  intros HeadlineT Headline E files0 run out.
  pose proof (scrape_hacker_news_raises E "hacker_news.json" files0) as Hraise.
  fold run in Hraise.
  assert (Hout : exists st,
            out = (match fst run with
                   | Ok v => Replied (accepted Headline (map ScrapeHN.headline_dict v))
                   | Raise _ => HTTPException 500
                   end, st, ScrapeHN.fs (snd run))).
  { subst out. unfold get_hacker_news_headlines. fold run.
    destruct run as [[v|e] sf]; cbn [fst snd].
    - unfold bind at 1. unfold eval. destruct v as [|h v].
      + cbn. eexists. reflexivity.
      + unfold api_log. unfold bind at 1 2. cbn [modify]. rewrite validate_loop.
        cbn [gets validated api_emit api_events api_initial Datatypes.app].
        eexists. reflexivity.
    - unfold bind at 1. unfold eval. eexists. reflexivity. }
  destruct Hout as (st & ->). cbn [fst snd]. split; [reflexivity|].
  destruct (fst run) as [v|e]; [reflexivity|].
  split; [reflexivity|]. apply Hraise. reflexivity.
Qed.

Lemma load_unreadable py_float fs :
  unreadable_books_file py_float fs ->
  fst (load_books_from_json py_float fs) = []
  /\ exists lv msg, snd (load_books_from_json py_float fs) = [EvLog lv msg]
                    /\ (lv = WARNING \/ lv = ERROR).
Proof.
  unfold load_books_from_json.
  intros [Hn | [Hn | [(text & e & Hf & Hl) | (text & v & Hf & Hl & Hv)]]].
  - rewrite Hn. split; [reflexivity|]. eexists. eexists. split; [reflexivity | now left].
  - rewrite Hn. split; [reflexivity|]. eexists. eexists. split; [reflexivity | now right].
  - rewrite Hf, Hl. destruct (is_ValueError e); (split; [reflexivity|]);
      eexists; eexists; (split; [reflexivity | now right]).
  - rewrite Hf, Hl. destruct v as [ | | | | | items | ];
      try (split; [reflexivity|]; eexists; eexists; split; [reflexivity | now right]).
    exfalso. exact (Hv items eq_refl).
Qed.

(** X7: the endpoints survive a books.json they cannot read.  When the
    file is missing, cannot be read as a text, is no JSON text or holds
    something else than a list,
    [load_books_from_json] logs one warning or error and gives the empty
    list, and both [get_books], whatever the category, and [search_books],
    whatever the query, reply the empty list without raising. *)
Theorem unreadable_file_gives_empty_replies :
  forall (py_float : string -> float) (str_strip str_lower : string -> string)
         (BookT : Type) (Book : list (string * pyval) -> result BookT)
         (fs : files) (category : option string) (query search_in : string),
    unreadable_books_file py_float fs ->
    fst (get_books py_float str_strip str_lower Book fs category) = Ok []
    /\ fst (search_books py_float str_strip str_lower Book fs query search_in) = Ok []
    /\ exists lv msg,
         snd (load_books_from_json py_float fs) = [EvLog lv msg]
         /\ (lv = WARNING \/ lv = ERROR).
Proof.
  intros py_float str_strip str_lower BookT Book fs category query search_in Hu.
  destruct (load_unreadable py_float fs Hu) as (Hl & Hlog).
  split; [|split; [|exact Hlog]].
  - unfold get_books, api_log, load. unfold bind at 1 2. cbn [modify].
    rewrite Hl. reflexivity.
  - unfold search_books, api_log, load. unfold bind at 1 2. cbn [modify].
    rewrite Hl. reflexivity.
Qed.

Lemma unreadable_file_gives_empty_replies_witness :
  fst (get_books SiteSpec.sample_float sample_strip sample_lower sample_Book
         (write_file no_files BOOKS_FILE "{}") (Some "poetry")) = Ok []
  /\ fst (search_books SiteSpec.sample_float sample_strip sample_lower sample_Book
            no_files "attic" "all") = Ok [].
Proof.
  split.
  - apply (unreadable_file_gives_empty_replies SiteSpec.sample_float sample_strip
             sample_lower sample_book sample_Book (write_file no_files BOOKS_FILE "{}")
             (Some "poetry") "" "").
    right. right. right. exists "{}", (PyDict []). split; [reflexivity|].
    split; [vm_compute; reflexivity | discriminate].
  - apply (unreadable_file_gives_empty_replies SiteSpec.sample_float sample_strip
             sample_lower sample_book sample_Book no_files None "attic" "all").
    left. reflexivity.
Defined.

End MainFacts.

(** * From the scraper to the endpoints *)
Module PipelineFacts.

Import MainSpec PipelineSpec MainFacts.

Lemma load_scraped_books py_float E N L R D fuel files0 s :
  ScrapeBooks.open_write E = WriteOk ->
  ScrapeBooks.scrape_books E N L R D fuel files0 = Some (Ok tt, s) ->
  Forall (fun b => reads_back (ScrapeBooks.float_repr E) py_float (ScrapeBooks.Precio b))
    (ScrapeBooks.all_books_data s) ->
  Main.load_books_from_json py_float (ScrapeBooks.fs s)
  = (map ScrapeBooks.book_dict (ScrapeBooks.all_books_data s), []).
Proof.
  intros Hw Hrun Hprices.
  assert (Hfs : ScrapeBooks.fs s ScrapeBooks.output_file
                = Some (Text (ScrapeBooks.books_json E (ScrapeBooks.all_books_data s))))
    by (eapply scrape_books_written; eassumption).
  assert (Hload : json_loads py_float
                    (ScrapeBooks.books_json E (ScrapeBooks.all_books_data s))
                  = Ok (PyList (map ScrapeBooks.book_dict (ScrapeBooks.all_books_data s)))).
  { unfold ScrapeBooks.books_json. apply json_loads_dump. apply readable_list.
    apply Forall_map. eapply Forall_impl; [|exact Hprices].
    intros b Hb. now apply readable_book_dict. }
  unfold Main.load_books_from_json.
  change Main.BOOKS_FILE with ScrapeBooks.output_file. now rewrite Hfs, Hload.
Qed.

Lemma filterable_book_dict b : filterable (ScrapeBooks.book_dict b) = true.
Proof.
  unfold filterable, ScrapeBooks.book_dict. cbn.
  destruct (ScrapeBooks.Categoria b); reflexivity.
Qed.

Lemma has_category_book_dict str_strip str_lower wanted b :
  has_category_text str_strip str_lower wanted (ScrapeBooks.book_dict b)
  = book_in_category str_strip str_lower wanted b.
Proof.
  unfold has_category_text, book_in_category, field_text, ScrapeBooks.book_dict. cbn.
  destruct (ScrapeBooks.Categoria b); reflexivity.
Qed.

Lemma filter_map_commute {A B} (g : A -> B) (p : B -> bool) xs :
  filter p (map g xs) = map g (filter (fun x => p (g x)) xs).
Proof.
  induction xs as [|x xs IH]; cbn; [reflexivity|].
  destruct (p (g x)); cbn; now rewrite IH.
Qed.

Lemma forallb_map_true {A B} (g : A -> B) (p : B -> bool) xs :
  (forall x, p (g x) = true) -> forallb p (map g xs) = true.
Proof.
  intros H. induction xs as [|x xs IH]; cbn; [reflexivity|]. now rewrite H, IH.
Qed.

(** X8: the endpoints serve what [scrape_books] wrote.  After a run whose
    write went through, on prices that [float.__repr__] and [float] agree
    on, [get_books] without a category replies the collected books that
    the Book model accepts, in the order of their collection; with a
    category it replies those of them whose category is the wanted one
    once both are stripped and lowered; and [search_books] replies those
    the query matches.  None of the three raises on such a file. *)
Theorem scraped_books_are_served :
  forall (py_float : string -> float) (str_strip str_lower : string -> string)
         (BookT : Type) (Book : list (string * pyval) -> result BookT)
         (E : ScrapeBooks.env) (num_books : Z) (price_limit : float)
         (max_retries retry_delay : Z) (fuel : nat) (files0 : files)
         (s : ScrapeBooks.state),
    ScrapeBooks.open_write E = WriteOk ->
    ScrapeBooks.scrape_books E num_books price_limit max_retries retry_delay fuel files0
    = Some (Ok tt, s) ->
    Forall (fun b => reads_back (ScrapeBooks.float_repr E) py_float (ScrapeBooks.Precio b))
      (ScrapeBooks.all_books_data s) ->
    let served := map ScrapeBooks.book_dict in
    fst (Main.get_books py_float str_strip str_lower Book (ScrapeBooks.fs s) None)
    = Ok (accepted Book (served (ScrapeBooks.all_books_data s)))
    /\ (forall text, text <> "" ->
        fst (Main.get_books py_float str_strip str_lower Book (ScrapeBooks.fs s) (Some text))
        = Ok (accepted Book
                (served (filter (book_in_category str_strip str_lower
                                   (str_lower (str_strip text)))
                           (ScrapeBooks.all_books_data s)))))
    /\ (forall query search_in,
        fst (Main.search_books py_float str_strip str_lower Book (ScrapeBooks.fs s)
               query search_in)
        = Ok (accepted Book
                (filter (search_matches str_strip str_lower
                           (str_lower (str_strip query)) search_in)
                   (served (ScrapeBooks.all_books_data s))))).
Proof.
  intros py_float str_strip str_lower BookT Book E N L R D fuel files0 s Hw Hrun Hprices
         served.
  pose proof (load_scraped_books py_float E N L R D fuel files0 s Hw Hrun Hprices) as Hload.
  split; [|split].
  - rewrite get_books_unfiltered, Hload. reflexivity.
  - intros text Ht. destruct text as [|a text]; [congruence|].
    rewrite get_books_filtered, Hload. cbn [fst].
    rewrite forallb_map_true by apply filterable_book_dict.
    rewrite filter_map_commute. subst served. cbv beta. do 3 f_equal.
    apply filter_ext. intros b. apply has_category_book_dict.
  - intros query search_in. rewrite search_books_spec, Hload. cbn [fst].
    rewrite forallb_map_true; [reflexivity|]. intros b. reflexivity.
Qed.

Lemma scraped_books_are_served_witness :
  exists s,
    ScrapeBooks.scrape_books SiteSpec.env_two_pages 2 20%float 3 1 2 no_files
    = Some (Ok tt, s)
    /\ List.length (ScrapeBooks.all_books_data s) = 2%nat
    /\ fst (Main.get_books SiteSpec.sample_float sample_strip sample_lower sample_Book
              (ScrapeBooks.fs s) None)
       = Ok (accepted sample_Book (map ScrapeBooks.book_dict (ScrapeBooks.all_books_data s))).
Proof.
  assert (Hrun : exists s,
            ScrapeBooks.scrape_books SiteSpec.env_two_pages 2 20%float 3 1 2 no_files
            = Some (Ok tt, s)
            /\ map ScrapeBooks.Precio (ScrapeBooks.all_books_data s)
               = [10.5%float; 12.25%float]).
  { eexists. split; vm_compute; reflexivity. }
  destruct Hrun as (s & Hrun & Hdata).
  exists s. split; [exact Hrun|]. split.
  { apply (f_equal (@List.length float)) in Hdata. now rewrite length_map in Hdata. }
  apply (scraped_books_are_served SiteSpec.sample_float sample_strip sample_lower
           sample_book sample_Book SiteSpec.env_two_pages 2 20%float 3 1 2%nat no_files s
           eq_refl Hrun).
  destruct (ScrapeBooks.all_books_data s) as [|b1 [|b2 [|b3 l]]];
    try discriminate Hdata.
  injection Hdata as H1 H2.
  repeat constructor; [rewrite H1 | rewrite H1 | rewrite H2 | rewrite H2];
    vm_compute; reflexivity.
Defined.

End PipelineFacts.

(** * More on scrape_books.py *)
Module BooksMore.

Import ScrapeBooks BooksSpec SiteSpec BooksInv BooksFacts.

(** ** The counter and the target *)

Lemma fetch_category_below E R D N u :
  preserves (below_target N) (fetch_category E R D u).
Proof. bk_preserves ltac:(unfold below_target, counted in *; simpl; auto). Qed.

Lemma process_book_counts E N L R D b :
  hoare (below_target N) (process_book E N L R D b)
    (fun r s => counted s
                /\ match r with
                   | Ok (Break _) => books_scraped s <= N
                   | _ => books_scraped s < N
                   end).
Proof.
  intros s Hs. pose proof (fetch_category_below E R D N) as Hfetch.
  cbv [process_book eval bind].
  destruct (pod_title b) as [t|e]; [|exact Hs].
  destruct (pod_price b) as [p|e]; [|exact Hs].
  destruct (PrimFloat.ltb p L); [|exact Hs].
  destruct (pod_img_src b) as [src|e]; [|exact Hs].
  destruct (pod_href b) as [href|e]; [|exact Hs].
  specialize (Hfetch (base_url ++ href)%string s Hs).
  destruct (fetch_category E R D (base_url ++ href)%string s) as [[[c|]|e] s1];
    cbn [fst snd] in Hfetch; [| exact Hfetch | exact Hfetch].
  destruct Hfetch as [Hc Hlt]. unfold counted in *.
  cbv [modify gets ret]. cbn [books_scraped st_count st_append].
  destruct (books_scraped s1 + 1 >=? N) eqn:Hge; cbn [fst snd];
    cbn [books_scraped all_books_data st_count st_append];
    rewrite length_app; cbn [List.length]; split; lia.
Qed.

Lemma book_loop_counts E N L R D bs :
  hoare (below_target N) (for_in bs (process_book E N L R D))
    (fun r s => counted s
                /\ match r with
                   | Ok (Some _) => books_scraped s <= N
                   | _ => books_scraped s < N
                   end).
Proof.
  apply hoare_for_in.
  - intros b s Hs. pose proof (process_book_counts E N L R D b s Hs) as H.
    destruct (process_book E N L R D b s) as [[[|u]|e] s1]; exact H.
  - intros s Hs. exact Hs.
Qed.

Lemma page_attempt_counts E N L R D url a :
  hoare (below_target N) (page_attempt E N L R D url a)
    (fun r s => counted s
                /\ match r with
                   | Ok Next => books_scraped s < N
                   | _ => books_scraped s <= N
                   end).
Proof.
  intros s Hs.
  assert (Hs0 : below_target N (st_tick (st_emit (EvGet PageFetch url) s))) by exact Hs.
  destruct (page_attempt E N L R D url a s) as [r s'] eqn:Hrun. cbn [fst snd].
  unfold page_attempt, try_except, read_page in Hrun.
  unfold bind at 1 2 in Hrun. unfold http_get in Hrun.
  destruct (requests_get E (clock s) url) as [resp|e].
  - destruct (status_code resp =? 200).
    + destruct (products resp) as [|b bs].
      * bk_compute Hrun. inversion Hrun; subst. destruct Hs as [Hc Hlt].
        split; [exact Hc | cbn; lia].
      * pose proof (book_loop_counts E N L R D (b :: bs) _ Hs0) as Hl.
        unfold bind at 1 in Hrun.
        destruct (for_in (b :: bs) (process_book E N L R D) _) as [[o|e] s1];
          cbn [fst snd] in Hl.
        -- cbv [ret] in Hrun. inversion Hrun; subst. destruct Hl as [Hc Hl].
           split; [exact Hc|]. destruct o; lia.
        -- destruct Hl as [Hc Hl]. cbn [dispatch] in Hrun.
           destruct (is_RequestException e).
           ++ bk_compute Hrun. destruct (time_sleep E D) as [[]|esl];
                inversion Hrun; subst; (split; [exact Hc | cbn; lia]).
           ++ cbv [raise] in Hrun. inversion Hrun; subst. split; [exact Hc | lia].
    + bk_compute Hrun. destruct Hs as [Hc Hlt].
      destruct (time_sleep E D) as [[]|esl];
        inversion Hrun; subst; (split; [exact Hc | cbn; lia]).
  - cbn [dispatch] in Hrun. destruct (is_RequestException e).
    + bk_compute Hrun. destruct Hs as [Hc Hlt].
      destruct (time_sleep E D) as [[]|esl];
        inversion Hrun; subst; (split; [exact Hc | cbn; lia]).
    + cbv [raise] in Hrun. inversion Hrun; subst. destruct Hs as [Hc Hlt].
      split; [exact Hc | cbn; lia].
Qed.

Lemma attempt_loop_counts E N L R D url :
  hoare (below_target N) (for_in (py_range R) (page_attempt E N L R D url))
    (fun _ s => counted s /\ books_scraped s <= N).
Proof.
  apply hoare_for_in.
  - intros a s Hs. pose proof (page_attempt_counts E N L R D url a s Hs) as H.
    destruct (page_attempt E N L R D url a s) as [[[|u]|e] s1]; exact H.
  - intros s [Hc Hlt]. split; [exact Hc | lia].
Qed.

Lemma pagination_counts E N L R D : forall fuel s r s',
  within_target N s ->
  pagination E N L R D fuel s = Some (r, s') -> within_target N s'.
Proof.
  induction fuel as [|fuel IH]; intros s r s' Hs Hrun; cbn [pagination] in Hrun.
  - destruct (books_scraped s <? N); [discriminate|]. now inversion Hrun; subst.
  - destruct (books_scraped s <? N) eqn:Hlt; [|now inversion Hrun; subst].
    apply Z.ltb_lt in Hlt.
    pose proof (attempt_loop_counts E N L R D (page_url (page_num s)) s
                  (conj (proj1 Hs) Hlt)) as Hl.
    destruct (for_in (py_range R) (page_attempt E N L R D (page_url (page_num s))) s)
      as [[[u|]|e] s1]; cbn [fst snd] in Hl; destruct Hl as [Hc Hle].
    + eapply IH; [|exact Hrun]. split; [exact Hc | cbn; lia].
    + cbv [log emit modify] in Hrun. inversion Hrun; subst. split; [exact Hc | cbn; lia].
    + inversion Hrun; subst. split; [exact Hc | lia].
Qed.

Lemma persist_keeps E s :
  all_books_data (snd (persist E s)) = all_books_data s
  /\ books_scraped (snd (persist E s)) = books_scraped s
  /\ (forall p, p <> output_file -> fs (snd (persist E s)) p = fs s p)
  /\ exists evs, trace (snd (persist E s)) = trace s ++ EvOpenWrite output_file :: evs.
Proof.
  destruct (persist E s) as [res s1] eqn:Hrun. bk_compute Hrun.
  assert (Hfr : forall content p, p <> output_file ->
                  write_file (fs s) output_file content p = fs s p).
  { intros content p Hp. unfold write_file.
    destruct (String.eqb p output_file) eqn:He; [|reflexivity].
    apply String.eqb_eq in He. congruence. }
  destruct (open_write E) as [|e|e n].
  - inversion Hrun; subst. cbn. repeat split; auto.
    eexists. rewrite <- app_assoc. reflexivity.
  - destruct e; inversion Hrun; subst; cbn; repeat split; auto;
      eexists; rewrite <- ?app_assoc; reflexivity.
  - destruct e; inversion Hrun; subst; cbn; repeat split; auto;
      eexists; rewrite <- ?app_assoc; reflexivity.
Qed.

Lemma scrape_books_within E N L R D fuel files0 r s :
  scrape_books E N L R D fuel files0 = Some (r, s) -> within_target N s.
Proof.
  intros H. apply scrape_books_inv in H.
  assert (Hp : forall r1 s1, pagination E N L R D fuel (initial files0) = Some (r1, s1) ->
                             within_target N s1).
  { intros r1 s1. apply pagination_counts. split; [reflexivity | cbn; lia]. }
  destruct H as (s1 & [(Hrun & -> & _) | (Hrun & Hper)]).
  - eapply Hp, Hrun.
  - destruct (persist_keeps E s1) as (Hd & Hc & _). rewrite Hper in Hd, Hc. cbn in Hd, Hc.
    destruct (Hp _ _ Hrun) as [Hcnt Hle]. unfold within_target, counted in *.
    rewrite Hd, Hc. split; assumption.
Qed.

(** X9: however a run of [scrape_books] ends, the counter is the number of
    collected books, and this number does not exceed the target
    [num_books], or zero when the target is negative: the book loop is left
    as soon as the target is reached, and a retried page is not read
    beyond it. *)
Theorem scrape_books_never_exceeds_num_books :
  forall (E : env) (num_books : Z) (price_limit : float) (max_retries retry_delay : Z)
         (fuel : nat) (files0 : files) (r : result unit) (s : state),
    scrape_books E num_books price_limit max_retries retry_delay fuel files0
    = Some (r, s) ->
    books_scraped s = Z.of_nat (List.length (all_books_data s))
    /\ Z.of_nat (List.length (all_books_data s)) <= Z.max 0 num_books.
Proof.
  intros E N L R D fuel files0 r s Hrun.
  destruct (scrape_books_within E N L R D fuel files0 r s Hrun) as [Hc Hle].
  unfold counted in Hc. split; [exact Hc | lia].
Qed.

Lemma scrape_books_never_exceeds_num_books_witness :
  exists r s,
    scrape_books env_two_pages 1 20%float 3 1 2 no_files = Some (r, s)
    /\ Z.of_nat (List.length (all_books_data s)) <= Z.max 0 1.
Proof.
  destruct (scrape_books env_two_pages 1 20%float 3 1 2 no_files) as [[r s]|] eqn:Hrun;
    [|vm_compute in Hrun; discriminate Hrun].
  exists r, s. split; [reflexivity|].
  exact (proj2 (scrape_books_never_exceeds_num_books env_two_pages 1 20%float 3 1 2%nat
                  no_files r s Hrun)).
Defined.

(** ** Where a run stops *)

Lemma pagination_ends E N L R D : forall fuel s s',
  pagination E N L R D fuel s = Some (Ok tt, s') ->
  books_scraped s' >= N \/ exists pre, trace s' = pre ++ [gave_up].
Proof.
  induction fuel as [|fuel IH]; intros s s' Hrun; cbn [pagination] in Hrun.
  - destruct (books_scraped s <? N) eqn:Hlt; [discriminate|].
    inversion Hrun; subst. left. apply Z.ltb_ge in Hlt. lia.
  - destruct (books_scraped s <? N) eqn:Hlt.
    + destruct (for_in (py_range R) (page_attempt E N L R D (page_url (page_num s))) s)
        as [[[u|]|e] s1].
      * eapply IH, Hrun.
      * cbv [log emit modify] in Hrun. inversion Hrun; subst. right.
        exists (trace s1). reflexivity.
      * discriminate Hrun.
    + inversion Hrun; subst. left. apply Z.ltb_ge in Hlt. lia.
Qed.

(** X10: a run of [scrape_books] that ends without an exception with fewer
    books than the target gave up on a page: the record of line 113, logged
    when a page failed at each of its attempts, is the last thing the
    pagination did before the file write.  Nothing else ends the
    pagination early. *)
Theorem fewer_books_means_a_page_gave_up :
  forall (E : env) (num_books : Z) (price_limit : float) (max_retries retry_delay : Z)
         (fuel : nat) (files0 : files) (s : state),
    scrape_books E num_books price_limit max_retries retry_delay fuel files0
    = Some (Ok tt, s) ->
    Z.of_nat (List.length (all_books_data s)) < num_books ->
    exists pre post,
      trace s = pre ++ gave_up :: EvOpenWrite output_file :: post.
Proof.
  intros E N L R D fuel files0 s Hrun Hfew.
  pose proof (scrape_books_within E N L R D fuel files0 _ s Hrun) as [Hcnt _].
  apply scrape_books_inv in Hrun.
  destruct Hrun as (s1 & [(_ & _ & Hne) | (Hpag & Hper)]); [congruence|].
  destruct (persist_keeps E s1) as (Hd & Hc & _ & evs & Htr).
  rewrite Hper in Hd, Hc, Htr. cbn [snd] in Hd, Hc, Htr.
  destruct (pagination_ends E N L R D fuel _ s1 Hpag) as [Hge | (pre & Hpre)].
  - unfold counted in Hcnt. lia.
  - exists pre, evs. rewrite Htr, Hpre, <- app_assoc. reflexivity.
Qed.

Lemma fewer_books_means_a_page_gave_up_witness :
  exists s pre post,
    scrape_books (env_of_site site_down WriteOk) 50 20%float 3 1 1 no_files
    = Some (Ok tt, s)
    /\ trace s = pre ++ gave_up :: EvOpenWrite output_file :: post.
Proof.
  assert (Hrun : exists s,
            scrape_books (env_of_site site_down WriteOk) 50 20%float 3 1 1 no_files
            = Some (Ok tt, s) /\ all_books_data s = []).
  { eexists. split; vm_compute; reflexivity. }
  destruct Hrun as (s & Hrun & Hd).
  destruct (fewer_books_means_a_page_gave_up (env_of_site site_down WriteOk)
              50 20%float 3 1 1%nat no_files s Hrun) as (pre & post & Htr).
  - rewrite Hd. cbn. lia.
  - exists s, pre, post. split; assumption.
Defined.

(** ** Degenerate parameters *)

Lemma persist_of_nothing E s :
  all_books_data s = [] ->
  all_books_data (snd (persist E s)) = []
  /\ filter is_get (trace (snd (persist E s))) = filter is_get (trace s)
  /\ (open_write E = WriteOk ->
      persist E s
      = (Ok tt,
         st_emit (EvLog INFO "Se extrajeron ")
           (st_files (write_file (fs s) output_file "[]")
              (st_emit (EvOpenWrite output_file) s)))).
Proof.
  intros Hd. split; [|split].
  - destruct (persist_keeps E s) as (H & _). now rewrite H.
  - destruct (persist E s) as [res s1] eqn:Hrun. bk_compute Hrun.
    destruct (open_write E) as [|e|e n].
    + inversion Hrun; subst. cbn. rewrite !filter_app. cbn. now rewrite !app_nil_r.
    + destruct e; inversion Hrun; subst; cbn; rewrite !filter_app; cbn;
        now rewrite !app_nil_r.
    + destruct e; inversion Hrun; subst; cbn; rewrite !filter_app; cbn;
        now rewrite !app_nil_r.
  - intros Hw. rewrite persist_written by exact Hw. rewrite Hd. reflexivity.
Qed.

(** X11: with a target [num_books] of zero or less, [scrape_books] makes no
    request, whatever the fuel: it goes straight to the file write, and a
    write that goes through leaves an empty array in books.json and every
    other file as it was. *)
Theorem no_target_makes_no_request :
  forall (E : env) (num_books : Z) (price_limit : float) (max_retries retry_delay : Z)
         (fuel : nat) (files0 : files),
    num_books <= 0 ->
    exists r s,
      scrape_books E num_books price_limit max_retries retry_delay fuel files0
      = Some (r, s)
      /\ all_books_data s = []
      /\ filter is_get (trace s) = []
      /\ (open_write E = WriteOk ->
          r = Ok tt /\ fs s = write_file files0 output_file "[]").
Proof.
  intros E N L R D fuel files0 HN.
  assert (Hpag : pagination E N L R D fuel (initial files0) = Some (Ok tt, initial files0)).
  { assert (Hc : (books_scraped (initial files0) <? N) = false)
      by (apply Z.ltb_ge; cbn; lia).
    destruct fuel; cbn [pagination]; now rewrite Hc. }
  unfold scrape_books. rewrite Hpag.
  destruct (persist_of_nothing E (initial files0) eq_refl) as (Hd & Hg & Hw).
  destruct (persist E (initial files0)) as [r s] eqn:Hper. cbn [snd] in Hd, Hg.
  exists r, s. split; [reflexivity|]. split; [exact Hd|]. split; [exact Hg|].
  intros Hok. specialize (Hw Hok). inversion Hw; subst. split; reflexivity.
Qed.

Lemma no_target_makes_no_request_witness :
  exists r s,
    scrape_books (env_of_site site_two_pages WriteOk) 0 20%float 3 1 0 files_of_earlier_run
    = Some (r, s)
    /\ all_books_data s = []
    /\ filter is_get (trace s) = [].
Proof.
  destruct (no_target_makes_no_request (env_of_site site_two_pages WriteOk) 0 20%float 3 1
              0%nat files_of_earlier_run) as (r & s & Hrun & Hd & Hg & _).
  - lia.
  - exists r, s. repeat split; assumption.
Defined.

(** X12: with [max_retries] of zero or less and a target of at least one
    book, the attempt loop of the first page has no turn: [scrape_books]
    makes no request, logs that the page could not be reached and writes
    its empty list. *)
Theorem no_attempt_makes_no_request :
  forall (E : env) (num_books : Z) (price_limit : float) (max_retries retry_delay : Z)
         (fuel : nat) (files0 : files),
    1 <= num_books -> max_retries <= 0 -> (1 <= fuel)%nat ->
    exists r s post,
      scrape_books E num_books price_limit max_retries retry_delay fuel files0
      = Some (r, s)
      /\ all_books_data s = []
      /\ filter is_get (trace s) = []
      /\ trace s = gave_up :: EvOpenWrite output_file :: post
      /\ (open_write E = WriteOk ->
          r = Ok tt /\ fs s = write_file files0 output_file "[]").
Proof.
  intros E N L R D fuel files0 HN HR Hfuel.
  destruct fuel as [|fuel]; [lia|].
  assert (Hpag : pagination E N L R D (S fuel) (initial files0)
                 = Some (Ok tt, st_emit gave_up (initial files0))).
  { cbn [pagination].
    assert (Hc : (books_scraped (initial files0) <? N) = true)
      by (apply Z.ltb_lt; cbn; lia).
    rewrite Hc, (py_range_nonpos R HR). reflexivity. }
  unfold scrape_books. rewrite Hpag.
  destruct (persist_of_nothing E (st_emit gave_up (initial files0)) eq_refl)
    as (Hd & Hg & Hw).
  destruct (persist_keeps E (st_emit gave_up (initial files0))) as (_ & _ & _ & evs & Htr).
  destruct (persist E (st_emit gave_up (initial files0))) as [r s] eqn:Hper.
  cbn [snd] in Hd, Hg, Htr.
  exists r, s, evs. split; [reflexivity|]. split; [exact Hd|]. split; [exact Hg|].
  split; [exact Htr|].
  intros Hok. specialize (Hw Hok). inversion Hw; subst. split; reflexivity.
Qed.

Lemma no_attempt_makes_no_request_witness :
  exists r s,
    scrape_books (env_of_site site_two_pages WriteOk) 50 20%float 0 1 1 no_files
    = Some (r, s)
    /\ all_books_data s = []
    /\ filter is_get (trace s) = [].
Proof.
  destruct (no_attempt_makes_no_request (env_of_site site_two_pages WriteOk) 50 20%float
              0 1 1%nat no_files) as (r & s & post & Hrun & Hd & Hg & _); try lia.
  exists r, s. repeat split; assumption.
Defined.

(** ** The file system *)

Lemma persist_open_raises E s e :
  open_write E = OpenRaises e -> fs (snd (persist E s)) = fs s.
Proof.
  intros Hw. destruct (persist E s) as [res s1] eqn:Hrun. bk_compute Hrun.
  rewrite Hw in Hrun. destruct e; inversion Hrun; subst; reflexivity.
Qed.

Lemma persist_benign E s :
  write_benign (open_write E) -> fst (persist E s) = Ok tt.
Proof.
  intros Hw. destruct (persist E s) as [res s1] eqn:Hrun. cbn [fst]. bk_compute Hrun.
  destruct (open_write E) as [|e|e n]; cbn in Hw.
  - now inversion Hrun.
  - destruct e; try discriminate Hw; now inversion Hrun.
  - destruct e; try discriminate Hw; now inversion Hrun.
Qed.

(** X13: however a run of [scrape_books] ends, every file other than
    books.json is as it was before the run.  books.json itself is as it
    was too when [open] raises, and as long as the run has not reached
    the file write. *)
Theorem scrape_books_touches_books_json_only :
  forall (E : env) (num_books : Z) (price_limit : float) (max_retries retry_delay : Z)
         (fuel : nat) (files0 : files) (r : result unit) (s : state),
    scrape_books E num_books price_limit max_retries retry_delay fuel files0
    = Some (r, s) ->
    (forall p, p <> output_file -> fs s p = files0 p)
    /\ (forall e, open_write E = OpenRaises e -> fs s = files0)
    /\ (~ In (EvOpenWrite output_file) (trace s) -> fs s = files0).
Proof.
  intros E N L R D fuel files0 r s Hrun. apply scrape_books_inv in Hrun.
  destruct Hrun as (s1 & [(Hpag & -> & _) | (Hpag & Hper)]).
  - destruct (pagination_untouched E N L R D files0 _ _ _ _ (initial_untouched files0) Hpag)
      as [Hfs _].
    split; [|split]; intros; rewrite Hfs; reflexivity.
  - destruct (pagination_untouched E N L R D files0 _ _ _ _ (initial_untouched files0) Hpag)
      as [Hfs _].
    destruct (persist_keeps E s1) as (_ & _ & Hframe & evs & Htr).
    rewrite Hper in Hframe, Htr. cbn [snd] in Hframe, Htr.
    split; [|split].
    + intros p Hp. rewrite (Hframe p Hp), Hfs. reflexivity.
    + intros e Hw. pose proof (persist_open_raises E s1 e Hw) as Ho.
      rewrite Hper in Ho. cbn [snd] in Ho. now rewrite Ho.
    + intros Hno. exfalso. apply Hno. rewrite Htr. apply in_or_app. right. now left.
Qed.

Lemma scrape_books_touches_books_json_only_witness :
  exists r s,
    scrape_books (env_of_site site_two_pages (OpenRaises OSError)) 2 20%float 3 1 2
      files_of_earlier_run = Some (r, s)
    /\ fs s = files_of_earlier_run.
Proof.
  destruct (scrape_books (env_of_site site_two_pages (OpenRaises OSError)) 2 20%float 3 1 2
              files_of_earlier_run) as [[r s]|] eqn:Hrun;
    [|vm_compute in Hrun; discriminate Hrun].
  exists r, s. split; [reflexivity|].
  exact (proj1 (proj2 (scrape_books_touches_books_json_only
                         (env_of_site site_two_pages (OpenRaises OSError)) 2 20%float 3 1
                         2%nat files_of_earlier_run r s Hrun)) OSError eq_refl).
Defined.

(** X14: an exception that leaves [scrape_books] leaves before the file
    write when the write itself can fail with an IOError only: no file is
    opened, books.json is as it was, and the books collected so far are
    not saved. *)
Theorem escaped_exception_writes_nothing :
  forall (E : env) (num_books : Z) (price_limit : float) (max_retries retry_delay : Z)
         (fuel : nat) (files0 : files) (e : exn) (s : state),
    write_benign (open_write E) ->
    scrape_books E num_books price_limit max_retries retry_delay fuel files0
    = Some (Raise e, s) ->
    fs s = files0 /\ forall p, ~ In (EvOpenWrite p) (trace s).
Proof.
  intros E N L R D fuel files0 e s Hw Hrun. apply scrape_books_inv in Hrun.
  destruct Hrun as (s1 & [(Hpag & -> & _) | (Hpag & Hper)]).
  - exact (pagination_untouched E N L R D files0 _ _ _ _ (initial_untouched files0) Hpag).
  - pose proof (persist_benign E s1 Hw) as Hb. rewrite Hper in Hb. discriminate Hb.
Qed.

Lemma escaped_exception_writes_nothing_witness :
  exists s,
    scrape_books (env_of_site site_bad_price WriteOk) 50 20%float 3 1 1 files_of_earlier_run
    = Some (Raise ValueError, s)
    /\ fs s = files_of_earlier_run.
Proof.
  assert (Hrun : exists s,
            scrape_books (env_of_site site_bad_price WriteOk) 50 20%float 3 1 1
              files_of_earlier_run = Some (Raise ValueError, s)).
  { eexists. vm_compute. reflexivity. }
  destruct Hrun as (s & Hrun). exists s. split; [exact Hrun|].
  exact (proj1 (escaped_exception_writes_nothing (env_of_site site_bad_price WriteOk)
                  50 20%float 3 1 1%nat files_of_earlier_run ValueError s I Hrun)).
Defined.

(** ** The collected records *)

Lemma category_attempt_answers E L D u a :
  hoare (all_read_off E L) (category_attempt E D u a)
    (fun r s => all_read_off E L s
                /\ match r with
                   | Ok (Break c) =>
                       exists n resp, requests_get E n u = Ok resp
                                      /\ find_category resp = Ok c
                   | _ => True
                   end).
Proof.
  intros s Hs. destruct (category_attempt E D u a s) as [r s'] eqn:Hrun. cbn [fst snd].
  unfold category_attempt, try_except in Hrun. unfold bind at 1 in Hrun.
  unfold http_get in Hrun.
  destruct (requests_get E (clock s) u) as [resp|e] eqn:Hg.
  - unfold bind at 1 in Hrun. cbv [eval] in Hrun.
    destruct (find_category resp) as [c|e] eqn:Hc.
    + cbv [ret] in Hrun. inversion Hrun; subst. split; [exact Hs|].
      exists (clock s), resp. split; assumption.
    + destruct e; bk_compute Hrun;
        try destruct (time_sleep E D) as [[]|esl];
        inversion Hrun; subst; (split; [exact Hs | exact I]).
  - destruct e; bk_compute Hrun;
      try destruct (time_sleep E D) as [[]|esl];
      inversion Hrun; subst; (split; [exact Hs | exact I]).
Qed.

Lemma fetch_category_answers E L R D u :
  hoare (all_read_off E L) (fetch_category E R D u)
    (fun r s => all_read_off E L s
                /\ match r with
                   | Ok (Some c) =>
                       exists n resp, requests_get E n u = Ok resp
                                      /\ find_category resp = Ok c
                   | _ => True
                   end).
Proof.
  unfold fetch_category. apply hoare_for_in.
  - intros a s Hs. pose proof (category_attempt_answers E L D u a s Hs) as H.
    destruct (category_attempt E D u a s) as [[[|c]|e] s1]; cbn [fst snd] in *.
    + apply H.
    + exact H.
    + exact H.
  - intros s Hs. split; [exact Hs | exact I].
Qed.

Lemma process_book_read_off E N L R D b :
  listed E b -> preserves (all_read_off E L) (process_book E N L R D b).
Proof.
  intros Hb s Hs. cbv [process_book eval bind].
  destruct (pod_title b) as [t|e] eqn:Ht; [|exact Hs].
  destruct (pod_price b) as [p|e] eqn:Hp; [|exact Hs].
  destruct (PrimFloat.ltb p L) eqn:Hlt; [|exact Hs].
  destruct (pod_img_src b) as [src|e] eqn:Hsrc; [|exact Hs].
  destruct (pod_href b) as [href|e] eqn:Hh; [|exact Hs].
  pose proof (fetch_category_answers E L R D (base_url ++ href)%string s Hs) as Hfetch.
  destruct (fetch_category E R D (base_url ++ href)%string s) as [[[c|]|e] s1];
    cbn [fst snd] in Hfetch; destruct Hfetch as [Hs1 Hc]; [| exact Hs1 | exact Hs1].
  destruct Hc as (n & resp & Hget & Hcat).
  assert (Hnew : all_read_off E L
                   (st_count (st_append {| Titulo := t; Precio := p; Categoria := Some c;
                                           URL_de_la_imagen := (base_url ++ src)%string |}
                                s1))).
  { unfold all_read_off. cbn [all_books_data st_count st_append].
    apply Forall_app. split; [exact Hs1|]. constructor; [|constructor].
    exists b, src, href, n, resp, c. cbn [Titulo Precio Categoria URL_de_la_imagen].
    repeat split; assumption. }
  cbv [modify gets ret]. destruct (_ >=? N); exact Hnew.
Qed.

Lemma book_loop_read_off E N L R D bs :
  Forall (listed E) bs -> preserves (all_read_off E L) (for_in bs (process_book E N L R D)).
Proof.
  induction 1 as [|b bs Hb _ IH]; cbn [for_in].
  - apply preserves_ret.
  - apply preserves_bind; [now apply process_book_read_off|].
    intros [|u]; [exact IH | apply preserves_ret].
Qed.

Lemma page_attempt_read_off E N L R D url a :
  preserves (all_read_off E L) (page_attempt E N L R D url a).
Proof.
  unfold page_attempt. apply preserves_bind.
  - apply preserves_try_except.
    + intros s Hs. unfold read_page. unfold bind at 1. unfold http_get.
      destruct (requests_get E (clock s) url) as [resp|e] eqn:Hg; [|exact Hs].
      destruct (status_code resp =? 200) eqn:Hst.
      * destruct (products resp) as [|b bs] eqn:Hprod; [exact Hs|].
        assert (Hl : Forall (listed E) (b :: bs)).
        { apply Forall_forall. intros x Hx. exists (clock s), url, resp.
          split; [exact Hg|]. split; [now apply Z.eqb_eq|]. now rewrite Hprod. }
        pose proof (book_loop_read_off E N L R D (b :: bs) Hl
                      (st_tick (st_emit (EvGet PageFetch url) s)) Hs) as Hloop.
        unfold bind at 1.
        destruct (for_in (b :: bs) (process_book E N L R D) _) as [[o|e] s1];
          exact Hloop.
      * exact Hs.
    + repeat (apply Forall_cons; [simpl; intros ?|]); try apply Forall_nil.
      bk_preserves ltac:(unfold all_read_off in *; simpl; auto).
  - intros [|u]; bk_preserves ltac:(unfold all_read_off in *; simpl; auto).
Qed.

(** X15: however a run of [scrape_books] ends, every collected record is
    read off a book that a page answered with 200 lists: it has the title
    and the price of that book, a price strictly below [price_limit], so
    no price that is a NaN or equals the limit, an image address made of
    the base address of the catalogue followed by the [src] of the image
    of that book, and as its category the third link of the breadcrumb
    list of an answer to the request for the detail page of that book. *)
Theorem collected_records_are_well_formed :
  forall (E : env) (num_books : Z) (price_limit : float) (max_retries retry_delay : Z)
         (fuel : nat) (files0 : files) (r : result unit) (s : state),
    scrape_books E num_books price_limit max_retries retry_delay fuel files0
    = Some (r, s) ->
    Forall (fun rec =>
              PrimFloat.ltb (Precio rec) price_limit = true
              /\ PrimFloat.eqb (Precio rec) price_limit = false
              /\ PrimFloat.is_nan (Precio rec) = false
              /\ exists (n : nat) (url : string) (page : response) (b : product_pod)
                        (src href : string) (n' : nat) (detail : response) (c : string),
                   requests_get E n url = Ok page /\ status_code page = 200
                   /\ In b (products page)
                   /\ pod_title b = Ok (Titulo rec) /\ pod_price b = Ok (Precio rec)
                   /\ pod_img_src b = Ok src
                   /\ URL_de_la_imagen rec = (base_url ++ src)%string
                   /\ pod_href b = Ok href
                   /\ requests_get E n' (base_url ++ href)%string = Ok detail
                   /\ find_category detail = Ok c
                   /\ Categoria rec = Some c)
      (all_books_data s).
Proof.
  intros E N L R D fuel files0 r s H. apply scrape_books_inv in H.
  assert (Hp : forall r1 s1, pagination E N L R D fuel (initial files0) = Some (r1, s1) ->
                             all_read_off E L s1).
  { intros r1 s1. apply (pagination_preserves E N L R D (all_read_off E L)).
    - intros. apply page_attempt_read_off.
    - auto.
    - auto.
    - constructor. }
  assert (Hs : all_read_off E L s).
  { destruct H as (s1 & [(Hrun & -> & _) | (Hrun & Hper)]).
    - eapply Hp, Hrun.
    - unfold all_read_off. replace s with (snd (persist E s1)) by now rewrite Hper.
      rewrite persist_data. eapply Hp, Hrun. }
  eapply Forall_impl; [|exact Hs].
  intros rec (b & src & href & n' & detail & c & (n & url & page & Hg & Hst & Hin)
              & Ht & Hpr & Hlt & Hsrc & Himg & Hh & Hd & Hc & Hcat).
  split; [exact Hlt|]. split; [|split].
  - rewrite ltb_spec in Hlt. rewrite eqb_spec.
    unfold SFltb, SFeqb in *. destruct (SFcompare _ _) as [[]|]; try discriminate Hlt.
    reflexivity.
  - eapply ltb_not_nan, Hlt.
  - exists n, url, page, b, src, href, n', detail, c. repeat split; assumption.
Qed.

Lemma collected_records_are_well_formed_witness :
  exists r s,
    scrape_books env_two_pages 2 20%float 3 1 2 no_files = Some (r, s)
    /\ List.length (all_books_data s) = 2%nat
    /\ Forall (fun rec =>
                 PrimFloat.ltb (Precio rec) 20%float = true
                 /\ PrimFloat.eqb (Precio rec) 20%float = false
                 /\ PrimFloat.is_nan (Precio rec) = false)
         (all_books_data s).
Proof.
  destruct (scrape_books env_two_pages 2 20%float 3 1 2 no_files) as [[r s]|] eqn:Hrun;
    [|vm_compute in Hrun; discriminate Hrun].
  exists r, s. split; [reflexivity|]. split.
  - vm_compute in Hrun. inversion Hrun; subst. reflexivity.
  - eapply Forall_impl;
      [|exact (collected_records_are_well_formed env_two_pages 2 20%float 3 1 2%nat
                 no_files r s Hrun)].
    intros rec (H1 & H2 & H3 & _). repeat split; assumption.
Defined.

(** ** Retries *)

Lemma py_range_split R k :
  (k < Z.to_nat R)%nat ->
  py_range R
  = map Z.of_nat (seq 0 k) ++ Z.of_nat k :: map Z.of_nat (seq (S k) (Z.to_nat R - S k)).
Proof.
  intros Hk. unfold py_range.
  replace (Z.to_nat R) with (k + S (Z.to_nat R - S k))%nat at 1 by lia.
  rewrite seq_app, map_app. cbn [seq map Nat.add]. reflexivity.
Qed.

Lemma fetch_category_recovers E R D u s k resp c :
  time_sleep E D = Ok tt ->
  (k < Z.to_nat R)%nat ->
  (forall i, (i < k)%nat -> category_fails (requests_get E (clock s + i) u)) ->
  requests_get E (clock s + k) u = Ok resp ->
  find_category resp = Ok c ->
  exists s',
    fetch_category E R D u s = (Ok (Some c), s')
    /\ all_books_data s' = all_books_data s
    /\ books_scraped s' = books_scraped s
    /\ trace s'
       = trace s
         ++ List.concat (repeat [EvGet CategoryFetch u; EvLog WARNING "Intento "; EvSleep D] k)
         ++ [EvGet CategoryFetch u].
Proof.
  intros Hsl Hk Hfail Hget Hcat.
  destruct (category_loop_exhausted E D u Hsl k 0 s Hfail)
    as (s1 & Hrun & Hd & Hc & _ & _ & Hcl & Htr).
  unfold fetch_category. rewrite (py_range_split R k Hk), for_in_app, Hrun.
  cbn [for_in]. unfold bind at 1.
  rewrite (category_attempt_resolved E D u (Z.of_nat k) s1 resp c);
    [| now rewrite Hcl | exact Hcat].
  cbv [ret]. eexists. split; [reflexivity|].
  cbn [all_books_data books_scraped trace st_tick st_emit].
  rewrite Hd, Hc, Htr, <- app_assoc. repeat split; reflexivity.
Qed.

(** X16: a category that cannot be fetched at first is fetched again.
    When the request for the detail page of a listed book below the price
    limit fails [k] times, with [k] below [max_retries], by a
    ConnectionError or a page without a breadcrumb list, and then answers,
    and the delay returns, the book is collected with the category of that
    answer, after [k] warnings and [k] delays and with [k + 1] requests. *)
Theorem category_is_fetched_again :
  forall (E : env) (num_books : Z) (price_limit : float) (max_retries retry_delay : Z)
         (b : product_pod) (s : state) (t : string) (p : float) (src href : string)
         (k : nat) (resp : response) (c : string),
    pod_title b = Ok t -> pod_price b = Ok p ->
    pod_img_src b = Ok src -> pod_href b = Ok href ->
    PrimFloat.ltb p price_limit = true ->
    time_sleep E retry_delay = Ok tt ->
    (k < Z.to_nat max_retries)%nat ->
    (forall i, (i < k)%nat ->
               category_fails (requests_get E (clock s + i) (base_url ++ href)%string)) ->
    requests_get E (clock s + k) (base_url ++ href)%string = Ok resp ->
    find_category resp = Ok c ->
    let run := process_book E num_books price_limit max_retries retry_delay b s in
    is_ok (fst run) = true
    /\ all_books_data (snd run)
       = all_books_data s
         ++ [ {| Titulo := t; Precio := p; Categoria := Some c;
                 URL_de_la_imagen := (base_url ++ src)%string |} ]
    /\ books_scraped (snd run) = books_scraped s + 1
    /\ trace (snd run)
       = trace s
         ++ List.concat
              (repeat [EvGet CategoryFetch (base_url ++ href)%string;
                       EvLog WARNING "Intento "%string; EvSleep retry_delay] k)
         ++ [EvGet CategoryFetch (base_url ++ href)%string].
Proof.
  intros E N L R D b s t p src href k resp c Ht Hp Hsrc Hh Hlt Hsl Hk Hfail Hget Hcat run.
  destruct (fetch_category_recovers E R D _ s k resp c Hsl Hk Hfail Hget Hcat)
    as (s1 & Hrun & Hd & Hc & Htr).
  subst run. destruct (process_book E N L R D b s) as [r s2] eqn:Hpb.
  unfold process_book in Hpb. rewrite Ht, Hp, Hsrc, Hh in Hpb.
  cbv [eval] in Hpb. unfold bind at 1 2 in Hpb. rewrite Hlt in Hpb.
  unfold bind at 1 2 3 in Hpb. rewrite Hrun in Hpb. cbv [modify gets bind ret] in Hpb.
  cbn [books_scraped st_count st_append] in Hpb.
  destruct (books_scraped s1 + 1 >=? N); inversion Hpb; subst r s2;
    cbn [fst snd is_ok all_books_data books_scraped trace st_count st_append];
    rewrite Hd, Hc, Htr; repeat split; reflexivity.
Qed.

Lemma category_is_fetched_again_witness :
  let s0 := st_tick (initial no_files) in
  let run := process_book env_flaky_detail 5 20%float 3 1 poetry_pod s0 in
  is_ok (fst run) = true
  /\ all_books_data (snd run)
     = [ {| Titulo := "A Light in the Attic"; Precio := 10.5%float;
            Categoria := Some "Poetry";
            URL_de_la_imagen := (base_url ++ "media/a.jpg")%string |} ]
  /\ count_events is_sleep (trace (snd run)) = 2%nat.
Proof.
  intros s0 run.
  destruct (category_is_fetched_again env_flaky_detail 5 20%float 3 1 poetry_pod s0
              "A Light in the Attic"%string 10.5%float "media/a.jpg"%string
              "a-light-in-the-attic_1000/index.html"%string 2%nat
              (detail_page "Poetry") "Poetry"%string
              eq_refl eq_refl eq_refl eq_refl eq_refl eq_refl)
    as (Hok & Hd & _ & Htr).
  - cbn. lia.
  - intros i Hi. destruct i as [|[|i]]; [reflexivity | reflexivity | lia].
  - reflexivity.
  - reflexivity.
  - fold run in Hok, Hd, Htr. split; [exact Hok|]. split; [exact Hd|].
    rewrite Htr. reflexivity.
Defined.

(** ** An exception no clause catches *)

Lemma find_category_short r :
  short_breadcrumb (Ok r) -> find_category r = Raise IndexError.
Proof.
  intros (anchors & Hb & Hlen). unfold find_category. rewrite Hb.
  destruct (nth_error anchors 2) eqn:Hn; [|reflexivity].
  exfalso. assert (2 < List.length anchors)%nat; [|lia].
  apply nth_error_Some. congruence.
Qed.

(** X17: a breadcrumb list with fewer than three links is not absorbed.
    When the first page lists a readable book below the price limit whose
    detail page has such a list, the IndexError of line 63 passes the
    clauses of the category loop and of the page loop and leaves
    [scrape_books]: the run ends after two requests, without a retry, a
    delay or a file write. *)
Theorem short_breadcrumb_escapes :
  forall (E : env) (num_books : Z) (price_limit : float) (max_retries retry_delay : Z)
         (fuel : nat) (files0 : files) (resp : response) (b : product_pod)
         (bs : list product_pod) (t : string) (p : float) (src href : string),
    1 <= num_books -> 1 <= max_retries -> (1 <= fuel)%nat ->
    requests_get E 0 (page_url 1) = Ok resp ->
    status_code resp = 200 -> products resp = b :: bs ->
    pod_title b = Ok t -> pod_price b = Ok p ->
    pod_img_src b = Ok src -> pod_href b = Ok href ->
    PrimFloat.ltb p price_limit = true ->
    short_breadcrumb (requests_get E 1 (base_url ++ href)%string) ->
    exists s,
      scrape_books E num_books price_limit max_retries retry_delay fuel files0
      = Some (Raise IndexError, s)
      /\ trace s = [EvGet PageFetch (page_url 1);
                    EvGet CategoryFetch (base_url ++ href)%string]
      /\ all_books_data s = []
      /\ fs s = files0.
Proof.
  intros E N L R D fuel files0 resp b bs t p src href HN HR Hfuel Hget Hst Hprod
         Ht Hp Hsrc Hh Hlt Hshort.
  destruct fuel as [|fuel]; [lia|].
  destruct (requests_get E 1 (base_url ++ href)%string) as [detail|e] eqn:Hdet;
    [|destruct Hshort].
  pose proof (find_category_short detail Hshort) as Hfc.
  unfold scrape_books. cbn [pagination].
  assert (Hc : (books_scraped (initial files0) <? N) = true)
    by (apply Z.ltb_lt; cbn; lia).
  rewrite Hc, (py_range_cons R HR). cbn [for_in page_num initial].
  unfold bind at 1. unfold page_attempt at 1. unfold bind at 1.
  unfold try_except at 1. unfold read_page at 1. unfold bind at 1.
  unfold http_get at 1. cbn [clock initial]. rewrite Hget, Hst. cbn [Z.eqb Pos.eqb].
  rewrite Hprod. unfold bind at 1. cbn [for_in]. unfold bind at 1.
  unfold process_book at 1. rewrite Ht, Hp, Hsrc, Hh.
  cbv [eval]. unfold bind at 1 2. rewrite Hlt. unfold bind at 1 2 3.
  unfold fetch_category at 1. rewrite (py_range_cons R HR). cbn [for_in].
  unfold bind at 1. unfold category_attempt at 1. unfold try_except at 1.
  unfold bind at 1. unfold http_get at 1.
  cbn [clock st_tick st_emit initial]. rewrite Hdet.
  cbv [bind eval ret]. rewrite Hfc.
  cbv beta iota delta [dispatch is_ReqConnectionError is_AttributeError orb
                       is_RequestException raise].
  eexists. split; [reflexivity|]. cbn. repeat split; reflexivity.
Qed.

Lemma short_breadcrumb_escapes_witness :
  exists s,
    scrape_books (env_of_site site_short_breadcrumb WriteOk) 50 20%float 3 1 1
      files_of_earlier_run = Some (Raise IndexError, s)
    /\ all_books_data s = []
    /\ fs s = files_of_earlier_run.
Proof.
  destruct (short_breadcrumb_escapes (env_of_site site_short_breadcrumb WriteOk)
              50 20%float 3 1 1%nat files_of_earlier_run
              (catalogue_page [poetry_pod]) poetry_pod []
              "A Light in the Attic"%string 10.5%float "media/a.jpg"%string
              "a-light-in-the-attic_1000/index.html"%string)
    as (s & Hrun & _ & Hd & Hfs); try lia; try reflexivity.
  - exists ["Home"%string]. split; [reflexivity | cbn; lia].
  - exists s. repeat split; assumption.
Defined.

(** ** The end of the catalogue *)

Lemma page_loop_failed_trace E N L R D url : time_sleep E D = Ok tt -> forall n k s,
  (forall i, (i < n)%nat -> page_fails (requests_get E (clock s + i) url)) ->
  exists s',
    for_in (map Z.of_nat (seq k n)) (page_attempt E N L R D url) s = (Ok None, s')
    /\ all_books_data s' = all_books_data s
    /\ books_scraped s' = books_scraped s
    /\ page_num s' = page_num s
    /\ fs s' = fs s
    /\ filter is_page_get (trace s')
       = filter is_page_get (trace s) ++ repeat (EvGet PageFetch url) n.
Proof.
  intros Hdelay. induction n as [|n IH]; intros k s Hf; cbn [seq map for_in repeat].
  - exists s. cbv [ret]. rewrite app_nil_r. repeat split; reflexivity.
  - unfold bind at 1.
    destruct (page_attempt_failed E N L R D url (Z.of_nat k) s Hdelay) as (lv & msg & Hrun).
    { specialize (Hf 0%nat). rewrite Nat.add_0_r in Hf. apply Hf. lia. }
    rewrite Hrun.
    set (s1 := st_emit _ (st_emit _ (st_tick _))).
    destruct (IH (S k) s1) as (s' & Hrun' & Hd & Hc & Hp & Hfs & Hpg).
    { intros i Hi. specialize (Hf (S i)). subst s1. simpl.
      replace (S (clock s + i)) with (clock s + S i)%nat by lia. apply Hf. lia. }
    exists s'. rewrite Hrun'. subst s1. simpl in *.
    rewrite Hpg, !filter_app. cbn [filter is_page_get].
    rewrite !app_nil_r, <- app_assoc. repeat split; auto.
Qed.

Section Catalogue.

Variable E : env.
Variables (N : Z) (L : float) (R D : Z).
Variable site : string -> result response.
Hypothesis Hstatic : forall n url, requests_get E n url = site url.
Hypothesis HR : 1 <= R.
Hypothesis Hdelay : time_sleep E D = Ok tt.

Lemma pagination_reads_to_the_end pages : forall s need fuel,
  serves site (page_num s) pages ->
  Forall (Forall (pod_well_behaved site L)) pages ->
  N - books_scraped s = Z.of_nat need ->
  (List.length (qualifying_books site L (List.concat pages)) < need)%nat ->
  page_fails (site (page_url (page_num s + Z.of_nat (List.length pages)))) ->
  (List.length pages < fuel)%nat ->
  exists s',
    pagination E N L R D fuel s = Some (Ok tt, s')
    /\ all_books_data s'
       = all_books_data s ++ qualifying_books site L (List.concat pages)
    /\ fs s' = fs s
    /\ filter is_page_get (trace s')
       = filter is_page_get (trace s)
         ++ map (fun k => EvGet PageFetch (page_url (page_num s + Z.of_nat k)))
              (seq 0 (List.length pages))
         ++ repeat (EvGet PageFetch
                      (page_url (page_num s + Z.of_nat (List.length pages))))
              (Z.to_nat R)
    /\ exists pre, trace s' = pre ++ [gave_up].
Proof.
  induction pages as [|pg rest IH]; intros s need fuel Hserves Hwb Hneed Hlt Hfail Hfuel.
  - destruct fuel as [|fuel]; [cbn in Hfuel; lia|].
    cbn [List.length] in *. rewrite Z.add_0_r in *.
    assert (Hcond : (books_scraped s <? N) = true) by (apply Z.ltb_lt; lia).
    cbn [pagination]. rewrite Hcond.
    destruct (page_loop_failed_trace E N L R D (page_url (page_num s)) Hdelay
                (Z.to_nat R) 0 s)
      as (s1 & Hrun & Hd & _ & _ & Hfs & Hpg).
    { intros i _. now rewrite Hstatic. }
    unfold py_range. rewrite Hrun. cbv [log emit modify].
    eexists. split; [reflexivity|].
    cbn [all_books_data fs trace st_emit List.concat qualifying_books flat_map seq map
         Datatypes.app].
    rewrite Hd, Hfs, app_nil_r, filter_app, Hpg. cbn [filter is_page_get].
    rewrite app_nil_r. repeat split; try reflexivity.
    exists (trace s1). reflexivity.
  - inversion Hwb as [|? ? Hpg Hrest]; subst.
    destruct fuel as [|fuel]; [cbn in Hfuel; lia|].
    destruct (Hserves 0%nat) as (resp & Hsite & Hst & Hprod); [simpl; lia|].
    rewrite Z.add_0_r in Hsite. cbn [nth] in Hprod.
    cbn [List.concat] in Hlt. rewrite qualifying_books_app, length_app in Hlt.
    destruct (page_loop_spec E N L R D site Hstatic HR Hdelay s need resp Hsite Hst)
      as (s1 & Hrun & Hd & Hc & Hp & Hfs & Hpg1 & _);
      [rewrite Hprod; exact Hpg | exact Hneed | lia |].
    rewrite Hprod in *.
    set (q := qualifying_books site L pg) in *.
    assert (Hall : firstn need q = q) by (apply firstn_all2; lia).
    rewrite Hall in Hd, Hc.
    cbn [pagination].
    assert (Hcond : (books_scraped s <? N) = true) by (apply Z.ltb_lt; lia).
    rewrite Hcond, Hrun.
    destruct (IH (st_next_page s1) (need - List.length q)%nat fuel)
      as (s2 & Hrun2 & Hd2 & Hfs2 & Hpg2 & Hend2).
    { cbn [page_num st_next_page]. rewrite Hp. now apply serves_tail with (pg := pg). }
    { exact Hrest. }
    { cbn [books_scraped st_next_page]. rewrite Hc. lia. }
    { lia. }
    { cbn [page_num st_next_page]. rewrite Hp.
      replace (page_num s + 1 + Z.of_nat (List.length rest))
        with (page_num s + Z.of_nat (List.length (pg :: rest)))
        by (cbn [List.length]; lia).
      exact Hfail. }
    { cbn [List.length] in Hfuel. lia. }
    exists s2. rewrite Hrun2. split; [reflexivity|].
    cbn [all_books_data fs trace page_num st_next_page] in *.
    rewrite Hd2, Hfs2, Hpg2, Hd, Hfs, Hpg1, Hp.
    cbn [List.concat]. rewrite qualifying_books_app. fold q.
    rewrite <- !app_assoc.
    split; [reflexivity|]. split; [reflexivity|]. split; [|exact Hend2].
    f_equal. cbn [List.length seq map]. rewrite Z.add_0_r. cbn [Datatypes.app]. f_equal.
    f_equal.
    + rewrite <- seq_shift, map_map. apply map_ext. intros k. f_equal. f_equal. lia.
    + f_equal. f_equal. f_equal. lia.
Qed.

End Catalogue.

(** X18: when the catalogue ends before the target is met.  On a server
    whose answers depend on the address alone, whose pages 1 to [n] are
    answered with 200 and list well-behaved books, and whose page [n + 1]
    fails, with a delay that returns, a run that wants more books than
    these pages hold ends without an exception: it collects every
    qualifying book of the [n] pages, in their order, asks for page
    [n + 1] at each of its [max_retries] attempts, gives up and leaves in
    books.json the text that [json.dump] makes of the collected books,
    from which [json.load] reads them back. *)
Theorem catalogue_is_read_to_its_end :
  forall (E : env) (num_books : Z) (price_limit : float) (max_retries retry_delay : Z)
         (site : string -> result response) (pages : list (list product_pod))
         (fuel : nat) (files0 : files) (py_float : string -> float),
    (forall n url, requests_get E n url = site url) ->
    open_write E = WriteOk ->
    time_sleep E retry_delay = Ok tt ->
    1 <= max_retries ->
    serves site 1 pages ->
    Forall (Forall (pod_well_behaved site price_limit)) pages ->
    page_fails (site (page_url (1 + Z.of_nat (List.length pages)))) ->
    Z.of_nat (List.length (qualifying_books site price_limit (List.concat pages)))
    < num_books ->
    (List.length pages < fuel)%nat ->
    exists s,
      scrape_books E num_books price_limit max_retries retry_delay fuel files0
      = Some (Ok tt, s)
      /\ all_books_data s = qualifying_books site price_limit (List.concat pages)
      /\ (exists text,
            fs s = write_file files0 output_file text
            /\ text = json_dump (float_repr E) (PyList (map book_dict (all_books_data s)))
            /\ (Forall (fun b => reads_back (float_repr E) py_float (Precio b))
                  (all_books_data s) ->
                json_loads py_float text = Ok (PyList (map book_dict (all_books_data s)))))
      /\ filter is_page_get (trace s)
         = map (fun k => EvGet PageFetch (page_url (1 + Z.of_nat k)))
             (seq 0 (List.length pages))
           ++ repeat (EvGet PageFetch (page_url (1 + Z.of_nat (List.length pages))))
                (Z.to_nat max_retries)
      /\ In gave_up (trace s).
Proof.
  intros E N L R D site pages fuel files0 py_float Hstatic Hw Hsl HR Hserves Hwb Hfail Hfew
         Hfuel.
  destruct (pagination_reads_to_the_end E N L R D site Hstatic HR Hsl pages (initial files0)
              (Z.to_nat N) fuel)
    as (s1 & Hrun & Hd & Hfs & Hpg & pre & Hend).
  - exact Hserves.
  - exact Hwb.
  - cbn. lia.
  - lia.
  - exact Hfail.
  - exact Hfuel.
  - unfold scrape_books. rewrite Hrun. rewrite persist_written by exact Hw.
    cbn [initial all_books_data fs trace page_num Datatypes.app filter] in Hd, Hfs, Hpg.
    eexists. split; [reflexivity|].
    cbn [all_books_data fs trace st_emit st_files].
    rewrite Hd, Hfs. split; [reflexivity|]. split.
    { eexists. split; [reflexivity|]. split; [reflexivity|].
      apply books_json_reads_back. }
    split.
    + rewrite !filter_app. cbn [filter is_page_get]. rewrite !app_nil_r. exact Hpg.
    + rewrite Hend. apply in_or_app. left. apply in_or_app. left.
      apply in_or_app. right. now left.
Qed.

Lemma catalogue_is_read_to_its_end_witness :
  exists s,
    scrape_books (env_of_site site_two_pages WriteOk) 50 20%float 3 1 3 no_files
    = Some (Ok tt, s)
    /\ all_books_data s = qualifying_books site_two_pages 20%float (List.concat two_pages)
    /\ filter is_page_get (trace s)
       = [EvGet PageFetch (page_url 1); EvGet PageFetch (page_url 2);
          EvGet PageFetch (page_url 3); EvGet PageFetch (page_url 3);
          EvGet PageFetch (page_url 3)].
Proof.
  destruct (catalogue_is_read_to_its_end (env_of_site site_two_pages WriteOk)
              50 20%float 3 1 site_two_pages two_pages 3 no_files sample_float)
    as (s & Hrun & Hd & _ & Hpages & _).
  - intros n url. reflexivity.
  - reflexivity.
  - reflexivity.
  - lia.
  - intros k Hk. destruct k as [|[|k]].
    + exists (catalogue_page [poetry_pod; costly_pod; orphan_pod]).
      repeat split; reflexivity.
    + exists (catalogue_page [fiction_pod]). repeat split; reflexivity.
    + cbn in Hk. lia.
  - repeat constructor.
    + exists "A Light in the Attic"%string, 10.5%float. repeat split.
      intros _. exists "media/a.jpg"%string, "a-light-in-the-attic_1000/index.html"%string.
      repeat split. left. vm_compute. discriminate.
    + exists "Sapiens"%string, 54.25%float. repeat split.
      intros H. vm_compute in H. discriminate H.
    + exists "Olio"%string, 5.5%float. repeat split.
      intros _. exists "media/o.jpg"%string, "olio_984/index.html"%string.
      repeat split. right. vm_compute. reflexivity.
    + exists "Soumission"%string, 12.25%float. repeat split.
      intros _. exists "media/so.jpg"%string, "soumission_998/index.html"%string.
      repeat split. left. vm_compute. discriminate.
  - vm_compute. discriminate.
  - assert (Hq : List.length (qualifying_books site_two_pages 20%float (List.concat two_pages))
                 = 2%nat) by (vm_compute; reflexivity).
    rewrite Hq. lia.
  - cbn. lia.
  - exists s. repeat split; assumption.
Defined.

(** ** A page that is read twice *)

Lemma process_book_resolves E N L R D b r s :
  1 <= R ->
  resolves E L (clock s) b r ->
  exists u,
    process_book E N L R D b s
    = (Ok (if books_scraped s + 1 >=? N then Break tt else Next),
       st_count (st_append r (st_tick (st_emit (EvGet CategoryFetch u) s)))).
Proof.
  intros HR (src & href & resp & c & Ht & Hp & Hlt & Hsrc & Hurl & Hh & Hget & Hc & Hcat).
  exists (base_url ++ href)%string.
  unfold process_book. rewrite Ht, Hp, Hsrc, Hh.
  cbv [eval]. unfold bind at 1 2. rewrite Hlt. unfold bind at 1 2 3.
  unfold fetch_category. rewrite (py_range_cons R HR). cbn [for_in]. unfold bind at 1.
  rewrite (category_attempt_resolved E D _ 0 s resp c Hget Hc).
  cbv [ret modify gets bind]. cbn [books_scraped st_count st_append st_tick st_emit].
  assert (Hr : {| Titulo := Titulo r; Precio := Precio r; Categoria := Some c;
                  URL_de_la_imagen := (base_url ++ src)%string |} = r).
  { destruct r as [t p c0 img]. cbn in *. subst. reflexivity. }
  rewrite Hr. destruct (books_scraped s + 1 >=? N); reflexivity.
Qed.

Lemma process_book_detail_raises E N L R D b e s :
  1 <= R ->
  detail_raises E L (clock s) b e ->
  is_ReqConnectionError e = false -> is_AttributeError e = false ->
  exists u,
    process_book E N L R D b s
    = (Raise e, st_tick (st_emit (EvGet CategoryFetch u) s)).
Proof.
  intros HR (t & p & src & href & Ht & Hp & Hlt & Hsrc & Hh & Hget) Hc Ha.
  exists (base_url ++ href)%string.
  unfold process_book. rewrite Ht, Hp, Hsrc, Hh.
  cbv [eval]. unfold bind at 1 2. rewrite Hlt. unfold bind at 1 2 3.
  unfold fetch_category. rewrite (py_range_cons R HR). cbn [for_in]. unfold bind at 1.
  unfold category_attempt, try_except. unfold bind at 1. unfold http_get.
  rewrite Hget. cbn [dispatch]. rewrite Hc, Ha. reflexivity.
Qed.

(** X19: a page attempt that fails midway keeps what it has collected, and
    the next attempt collects it again.  When a page lists two books, the
    first is collected and the request for the detail page of the second
    raises a RequestException that is no ConnectionError, a timeout for
    one, the category loop does not absorb it: the page loop logs it,
    waits, the delay returning, and reads the page again, and when both
    books resolve this time the first one is in the list twice. *)
Theorem retried_page_collects_twice :
  forall (E : env) (num_books : Z) (price_limit : float) (max_retries retry_delay : Z)
         (url : string) (s : state) (resp : response) (b1 b2 : product_pod)
         (r1 r2 : book) (e : exn),
    2 <= max_retries ->
    time_sleep E retry_delay = Ok tt ->
    books_scraped s + 2 < num_books ->
    requests_get E (clock s) url = Ok resp ->
    requests_get E (clock s + 3) url = Ok resp ->
    status_code resp = 200 -> products resp = [b1; b2] ->
    resolves E price_limit (clock s + 1) b1 r1 ->
    detail_raises E price_limit (clock s + 2) b2 e ->
    is_RequestException e = true -> is_ReqConnectionError e = false ->
    resolves E price_limit (clock s + 4) b1 r1 ->
    resolves E price_limit (clock s + 5) b2 r2 ->
    let run := for_in (py_range max_retries)
                 (page_attempt E num_books price_limit max_retries retry_delay url) s in
    fst run = Ok (Some tt)
    /\ all_books_data (snd run) = all_books_data s ++ [r1; r1; r2]
    /\ books_scraped (snd run) = books_scraped s + 3
    /\ count_events is_page_get (trace (snd run))
       = (count_events is_page_get (trace s) + 2)%nat
    /\ count_events is_sleep (trace (snd run))
       = (count_events is_sleep (trace s) + 1)%nat.
Proof.
  intros E N L R D url s resp b1 b2 r1 r2 e HR Hsl HN Hg0 Hg3 Hst Hprod H1 H2 He Hc H4 H5
         run.
  assert (HR1 : 1 <= R) by lia.
  assert (Ha : is_AttributeError e = false) by (destruct e; try discriminate He; reflexivity).
  subst run.
  destruct (for_in (py_range R) (page_attempt E N L R D url) s) as [res sf] eqn:Hrun.
  assert (Hrange : py_range R = 0 :: 1 :: map Z.of_nat (seq 2 (Z.to_nat R - 2))).
  { unfold py_range. destruct (Z.to_nat R) as [|[|n]] eqn:Hn; try lia.
    cbn. now rewrite Nat.sub_0_r. }
  rewrite Hrange in Hrun. cbn [for_in] in Hrun.
  (* the first attempt *)
  unfold bind at 1 in Hrun. unfold page_attempt at 1 in Hrun.
  unfold bind at 1 in Hrun. unfold try_except at 1 in Hrun.
  unfold read_page at 1 in Hrun. unfold bind at 1 in Hrun.
  unfold http_get at 1 in Hrun. rewrite Hg0, Hst in Hrun. cbn [Z.eqb Pos.eqb] in Hrun.
  rewrite Hprod in Hrun. unfold bind at 1 in Hrun. cbn [for_in] in Hrun.
  unfold bind at 1 in Hrun.
  set (s1 := st_tick (st_emit (EvGet PageFetch url) s)) in *.
  destruct (process_book_resolves E N L R D b1 r1 s1 HR1) as (u1 & Hp1).
  { subst s1. cbn [clock st_tick st_emit].
    replace (S (clock s)) with (clock s + 1)%nat by lia. exact H1. }
  rewrite Hp1 in Hrun.
  assert (Hlt1 : (books_scraped s1 + 1 >=? N) = false)
    by (subst s1; cbn [books_scraped st_tick st_emit]; lia).
  rewrite Hlt1 in Hrun. unfold bind at 1 in Hrun.
  set (s2 := st_count (st_append r1 (st_tick (st_emit (EvGet CategoryFetch u1) s1)))) in *.
  destruct (process_book_detail_raises E N L R D b2 e s2 HR1) as (u2 & Hp2);
    [| exact Hc | exact Ha |].
  { subst s2 s1. cbn [clock st_count st_append st_tick st_emit].
    replace (S (S (clock s))) with (clock s + 2)%nat by lia. exact H2. }
  rewrite Hp2 in Hrun. cbn [dispatch] in Hrun. rewrite He in Hrun.
  cbv [log emit modify bind ret sleep eval] in Hrun. rewrite Hsl in Hrun.
  (* the second attempt *)
  set (s3 := st_emit (EvSleep D) (st_emit _ (st_tick (st_emit (EvGet CategoryFetch u2) s2))))
    in *.
  unfold page_attempt at 1 in Hrun.
  unfold bind at 1 in Hrun. unfold try_except at 1 in Hrun.
  unfold read_page at 1 in Hrun. unfold bind at 1 in Hrun.
  unfold http_get at 1 in Hrun.
  assert (Hcl3 : clock s3 = (clock s + 3)%nat).
  { subst s3 s2 s1. cbn [clock st_count st_append st_tick st_emit]. lia. }
  rewrite Hcl3, Hg3, Hst in Hrun. cbn [Z.eqb Pos.eqb] in Hrun.
  rewrite Hprod in Hrun. unfold bind at 1 in Hrun. cbn [for_in] in Hrun.
  unfold bind at 1 in Hrun.
  set (s4 := st_tick (st_emit (EvGet PageFetch url) s3)) in *.
  destruct (process_book_resolves E N L R D b1 r1 s4 HR1) as (u3 & Hp3).
  { subst s4. cbn [clock st_tick st_emit]. rewrite Hcl3.
    replace (S (clock s + 3)) with (clock s + 4)%nat by lia. exact H4. }
  rewrite Hp3 in Hrun.
  assert (Hb4 : books_scraped s4 = books_scraped s + 1).
  { subst s4 s3 s2 s1. reflexivity. }
  assert (Hlt4 : (books_scraped s4 + 1 >=? N) = false) by lia.
  rewrite Hlt4 in Hrun. unfold bind at 1 in Hrun.
  set (s5 := st_count (st_append r1 (st_tick (st_emit (EvGet CategoryFetch u3) s4)))) in *.
  destruct (process_book_resolves E N L R D b2 r2 s5 HR1) as (u4 & Hp4).
  { subst s5 s4. cbn [clock st_count st_append st_tick st_emit]. rewrite Hcl3.
    replace (S (S (clock s + 3))) with (clock s + 5)%nat by lia. exact H5. }
  rewrite Hp4 in Hrun.
  assert (Hend : exists c : ctl unit,
            (if books_scraped s5 + 1 >=? N then Break tt else Next) = c)
    by (eexists; reflexivity).
  destruct Hend as (c & Hend). rewrite Hend in Hrun.
  assert (Hfin : (res, sf)
                 = (Ok (Some tt),
                    st_count (st_append r2 (st_tick (st_emit (EvGet CategoryFetch u4) s5))))).
  { rewrite <- Hrun. destruct c; reflexivity. }
  inversion Hfin; subst res sf. cbn [fst snd].
  subst s5 s4 s3 s2 s1.
  cbn [all_books_data books_scraped trace st_count st_append st_tick st_emit].
  unfold count_events. rewrite !filter_app, !length_app, <- !app_assoc.
  cbn. repeat split; lia.
Qed.

Lemma retried_page_collects_twice_witness :
  let run := for_in (py_range 3)
               (page_attempt env_timeout_once 50 20%float 3 1 (page_url 1))
               (initial no_files) in
  fst run = Ok (Some tt)
  /\ all_books_data (snd run) = [poetry_book; poetry_book; fiction_book].
Proof.
  intros run.
  destruct (retried_page_collects_twice env_timeout_once 50 20%float 3 1 (page_url 1)
              (initial no_files)
              (catalogue_page [poetry_pod; fiction_pod]) poetry_pod fiction_pod
              poetry_book fiction_book ReqOtherError)
    as (Hr & Hd & _); try reflexivity; try (cbn; lia).
  - exists "media/a.jpg"%string, "a-light-in-the-attic_1000/index.html"%string,
      (detail_page "Poetry"), "Poetry"%string. repeat split.
  - exists "Soumission"%string, 12.25%float, "media/so.jpg"%string,
      "soumission_998/index.html"%string. repeat split.
  - exists "media/a.jpg"%string, "a-light-in-the-attic_1000/index.html"%string,
      (detail_page "Poetry"), "Poetry"%string. repeat split.
  - exists "media/so.jpg"%string, "soumission_998/index.html"%string,
      (detail_page "Fiction"), "Fiction"%string. repeat split.
  - fold run in Hr, Hd. split; [exact Hr | exact Hd].
Defined.

(** ** The order of the page requests *)

Ltac requested_closer :=
  unfold requested in *; simpl in *;
  repeat match goal with
         | H : _ /\ _ |- _ => destruct H as [? ?]
         end;
  split; [| assumption];
  rewrite ?filter_app in *; simpl in *; rewrite ?app_nil_r in *;
  first [assumption | congruence].

Lemma process_book_requested E N L R D b l n :
  preserves (requested l n) (process_book E N L R D b).
Proof. bk_preserves requested_closer. Qed.

Lemma page_attempt_requests E N L R D url a l n :
  hoare (requested l n) (page_attempt E N L R D url a)
    (fun _ s => requested (l ++ [EvGet PageFetch url]) n s).
Proof.
  intros s Hs.
  assert (Hs0 : requested (l ++ [EvGet PageFetch url]) n
                  (st_tick (st_emit (EvGet PageFetch url) s))).
  { destruct Hs as [Hl Hn]. split; [|exact Hn].
    cbn [trace st_tick st_emit]. rewrite filter_app, Hl. reflexivity. }
  destruct (page_attempt E N L R D url a s) as [r s'] eqn:Hrun. cbn [fst snd].
  unfold page_attempt, try_except, read_page in Hrun.
  unfold bind at 1 2 in Hrun. unfold http_get in Hrun.
  destruct (requests_get E (clock s) url) as [resp|e].
  - destruct (status_code resp =? 200).
    + destruct (products resp) as [|b bs].
      * bk_compute Hrun. inversion Hrun; subst. requested_closer.
      * pose proof (preserves_for_in _ (b :: bs) (process_book E N L R D)
                      (fun b0 => process_book_requested E N L R D b0 _ n) _ Hs0) as Hl.
        unfold bind at 1 in Hrun.
        destruct (for_in (b :: bs) (process_book E N L R D) _) as [[o|e] s1];
          cbn [fst snd] in Hl.
        -- cbv [ret] in Hrun. inversion Hrun; subst. exact Hl.
        -- cbn [dispatch] in Hrun. destruct (is_RequestException e).
           ++ bk_compute Hrun. destruct (time_sleep E D) as [[]|esl];
                inversion Hrun; subst; requested_closer.
           ++ cbv [raise] in Hrun. inversion Hrun; subst. exact Hl.
    + bk_compute Hrun. destruct (time_sleep E D) as [[]|esl];
        inversion Hrun; subst; requested_closer.
  - cbn [dispatch] in Hrun. destruct (is_RequestException e).
    + bk_compute Hrun. destruct (time_sleep E D) as [[]|esl];
        inversion Hrun; subst; requested_closer.
    + cbv [raise] in Hrun. inversion Hrun; subst. exact Hs0.
Qed.

Lemma attempt_loop_requests E N L R D url n : forall xs l s,
  requested l n s ->
  exists k, (k <= List.length xs)%nat
            /\ (xs <> [] -> (1 <= k)%nat)
            /\ requested (l ++ repeat (EvGet PageFetch url) k) n
                 (snd (for_in xs (page_attempt E N L R D url) s)).
Proof.
  induction xs as [|a xs IH]; intros l s Hs.
  - exists 0%nat. cbn. rewrite app_nil_r. split; [lia|]. split; [congruence | exact Hs].
  - cbn [for_in]. unfold bind at 1.
    pose proof (page_attempt_requests E N L R D url a l n s Hs) as Ha.
    destruct (page_attempt E N L R D url a s) as [[[|u]|e] s1]; cbn [fst snd] in Ha.
    + destruct (IH _ s1 Ha) as (k & Hk & _ & Hr). exists (S k). split; [cbn; lia|].
      split; [lia|]. rewrite <- app_assoc in Hr. exact Hr.
    + exists 1%nat. split; [cbn; lia|]. split; [lia | exact Ha].
    + exists 1%nat. split; [cbn; lia|]. split; [lia | exact Ha].
Qed.

Lemma page_requests_app first counts c :
  page_requests first (counts ++ [c])
  = page_requests first counts
    ++ repeat (EvGet PageFetch (page_url (first + Z.of_nat (List.length counts)))) c.
Proof.
  revert first. induction counts as [|c0 counts IH]; intros first; cbn [page_requests Datatypes.app].
  - cbn. now rewrite Z.add_0_r, app_nil_r.
  - rewrite IH, <- app_assoc. cbn [List.length].
    replace (first + 1 + Z.of_nat (List.length counts))
      with (first + Z.of_nat (S (List.length counts))) by lia.
    reflexivity.
Qed.

Lemma pagination_requests E N L R D : forall fuel s r s' counts,
  Forall (fun c => (1 <= c <= Z.to_nat R)%nat) counts ->
  requested (page_requests 1 counts) (1 + Z.of_nat (List.length counts)) s ->
  pagination E N L R D fuel s = Some (r, s') ->
  exists counts',
    Forall (fun c => (1 <= c <= Z.to_nat R)%nat) counts'
    /\ filter is_page_get (trace s') = page_requests 1 counts'.
Proof.
  induction fuel as [|fuel IH]; intros s r s' counts Hc Hs Hrun; cbn [pagination] in Hrun.
  - destruct (books_scraped s <? N); [discriminate|]. inversion Hrun; subst.
    exists counts. split; [exact Hc | apply Hs].
  - destruct (books_scraped s <? N).
    2:{ inversion Hrun; subst. exists counts. split; [exact Hc | apply Hs]. }
    destruct (py_range R) as [|a0 xs] eqn:Hrange.
    { cbn [for_in] in Hrun. cbv [ret log emit modify] in Hrun. inversion Hrun; subst.
      exists counts. split; [exact Hc|].
      cbn [trace st_emit]. rewrite filter_app. cbn. rewrite app_nil_r. apply Hs. }
    destruct (attempt_loop_requests E N L R D (page_url (page_num s)) _ (a0 :: xs) _ s Hs)
      as (k & Hk & Hk1 & Hr).
    assert (Hlen : List.length (a0 :: xs) = Z.to_nat R).
    { rewrite <- Hrange. unfold py_range. now rewrite length_map, length_seq. }
    rewrite Hlen in Hk. specialize (Hk1 ltac:(discriminate)).
    assert (Hc' : Forall (fun c => (1 <= c <= Z.to_nat R)%nat) (counts ++ [k])).
    { apply Forall_app. split; [exact Hc|]. constructor; [lia | constructor]. }
    assert (Hpn : page_num s = 1 + Z.of_nat (List.length counts)) by apply Hs.
    rewrite Hpn in Hr at 1. rewrite <- page_requests_app in Hr.
    destruct (for_in (a0 :: xs) (page_attempt E N L R D (page_url (page_num s))) s)
      as [[[u|]|e] s1]; cbn [fst snd] in Hr.
    + eapply (IH _ _ _ (counts ++ [k]) Hc'); [|exact Hrun].
      destruct Hr as [Hl Hn]. split; [exact Hl|].
      cbn [page_num st_next_page]. rewrite Hn, length_app. cbn [List.length]. lia.
    + cbv [log emit modify] in Hrun. inversion Hrun; subst.
      exists (counts ++ [k]). split; [exact Hc'|].
      cbn [trace st_emit]. rewrite filter_app. cbn. rewrite app_nil_r. apply Hr.
    + inversion Hrun; subst. exists (counts ++ [k]). split; [exact Hc' | apply Hr].
Qed.

Lemma persist_page_gets E s :
  filter is_page_get (trace (snd (persist E s))) = filter is_page_get (trace s).
Proof.
  destruct (persist E s) as [res s1] eqn:Hrun. bk_compute Hrun.
  destruct (open_write E) as [|e|e n].
  - inversion Hrun; subst. cbn. rewrite !filter_app. cbn. now rewrite !app_nil_r.
  - destruct e; inversion Hrun; subst; cbn; rewrite !filter_app; cbn;
      now rewrite !app_nil_r.
  - destruct e; inversion Hrun; subst; cbn; rewrite !filter_app; cbn;
      now rewrite !app_nil_r.
Qed.

(** X20: the catalogue pages are asked for in their order, each at least
    once and at most [max_retries] times.  However a run of
    [scrape_books] ends, its page requests are those for page 1, then
    those for page 2, and so on up to the last page it asked for: no page
    before that one is left out, none is asked for again once the next one
    was, and none is asked for more often than [max_retries] times. *)
Theorem pages_are_requested_in_order :
  forall (E : env) (num_books : Z) (price_limit : float) (max_retries retry_delay : Z)
         (fuel : nat) (files0 : files) (r : result unit) (s : state),
    scrape_books E num_books price_limit max_retries retry_delay fuel files0
    = Some (r, s) ->
    exists counts : list nat,
      Forall (fun c => (1 <= c <= Z.to_nat max_retries)%nat) counts
      /\ filter is_page_get (trace s) = page_requests 1 counts.
Proof.
  intros E N L R D fuel files0 r s Hrun. apply scrape_books_inv in Hrun.
  assert (Hp : forall r1 s1, pagination E N L R D fuel (initial files0) = Some (r1, s1) ->
            exists counts,
              Forall (fun c => (1 <= c <= Z.to_nat R)%nat) counts
              /\ filter is_page_get (trace s1) = page_requests 1 counts).
  { intros r1 s1. apply (pagination_requests E N L R D fuel (initial files0) r1 s1 []).
    - constructor.
    - split; reflexivity. }
  destruct Hrun as (s1 & [(Hpag & -> & _) | (Hpag & Hper)]).
  - eapply Hp, Hpag.
  - destruct (Hp _ _ Hpag) as (counts & Hc & Hl). exists counts. split; [exact Hc|].
    pose proof (persist_page_gets E s1) as Hk. rewrite Hper in Hk. cbn [snd] in Hk.
    now rewrite Hk.
Qed.

Lemma pages_are_requested_in_order_witness :
  exists r s counts,
    scrape_books (env_of_site site_two_pages WriteOk) 50 20%float 3 1 3 no_files
    = Some (r, s)
    /\ Forall (fun c => (1 <= c <= 3)%nat) counts
    /\ filter is_page_get (trace s) = page_requests 1 counts.
Proof.
  destruct (scrape_books (env_of_site site_two_pages WriteOk) 50 20%float 3 1 3 no_files)
    as [[r s]|] eqn:Hrun; [|vm_compute in Hrun; discriminate Hrun].
  destruct (pages_are_requested_in_order (env_of_site site_two_pages WriteOk) 50 20%float
              3 1 3%nat no_files r s Hrun) as (counts & Hc & Hl).
  exists r, s, counts. split; [reflexivity|]. split; assumption.
Defined.

End BooksMore.

(** * More on scrape_hn.py *)
Module HNMore.

Import ScrapeHN HNSpec HNInv HNFacts.

Ltac not_opened :=
  let p := fresh "p" in
  let Hin := fresh "Hin" in
  intros p Hin;
  repeat match type of Hin with
         | In _ (_ ++ _) => apply in_app_or in Hin; destruct Hin as [Hin|Hin]
         end;
  first
    [ match goal with
      | H : forall q, ~ In (EvOpenWrite q) _ |- _ => exact (H _ Hin)
      end
    | simpl in Hin; intuition discriminate ].

Ltac shape :=
  unfold before_release, saved, quit_once, started, unstarted, clean, unopened, quits,
    count_events in *;
  simpl;
  repeat match goal with
         | H : _ /\ _ |- _ => destruct H as [? ?]
         end;
  repeat split;
  first
    [ assumption
    | reflexivity
    | rewrite ?filter_app, ?length_app; simpl; lia
    | not_opened ].

Lemma start_loop_shape E files0 :
  hoare (unstarted files0) (for_in (py_range MAX_RETRIES) (start_attempt E))
    (fun r s => match r with
                | Ok (Some Broke) => started files0 s
                | _ => unstarted files0 s
                end).
Proof.
  apply hoare_for_in; [|auto].
  intros a s Hs.
  destruct (start_attempt E a s) as [res s1] eqn:Hrun. cbn [fst snd].
  hn_compute Hrun.
  destruct (start_driver E a) as [[]|e].
  - inversion Hrun; subst. shape.
  - destruct e; hn_compute Hrun.
    all: try (inversion Hrun; subst; shape).
    all: destruct (a <? MAX_RETRIES - 1); inversion Hrun; subst; shape.
Qed.

Lemma acquire_shape E files0 :
  hoare (unstarted files0) (acquire E)
    (fun r s => match r with
                | Ok None => started files0 s
                | _ => unstarted files0 s
                end).
Proof.
  intros s Hs.
  destruct (acquire E s) as [res sf] eqn:Hrun. cbn [fst snd].
  unfold acquire in Hrun.
  bind_split Hrun u s1 H1; [|discriminate H1].
  cbv [modify] in H1. inversion H1; subst u s1. clear H1.
  assert (Hs1 : unstarted files0 (st_driver None s)) by shape.
  pose proof (start_loop_shape E files0 _ Hs1) as Hl.
  bind_split Hrun st s2 H2.
  - rewrite H2 in Hl. cbn [fst snd] in Hl.
    destruct st as [[|v]|].
    + bind_split Hrun d s3 H3; [|discriminate H3].
      cbv [gets] in H3. inversion H3; subst d s3.
      destruct Hl as [Hc Hd]. rewrite Hd in Hrun. cbv [ret] in Hrun.
      inversion Hrun; subst. split; assumption.
    + cbv [ret] in Hrun. inversion Hrun; subst. exact Hl.
    + bind_split Hrun d s3 H3; [|discriminate H3].
      cbv [gets] in H3. inversion H3; subst d s3.
      destruct Hl as [Hc Hd]. rewrite Hd in Hrun. cbv [ret] in Hrun.
      inversion Hrun; subst. split; assumption.
  - rewrite H2 in Hl. cbn [fst snd] in Hl. subst res. exact Hl.
Qed.

Lemma navigate_loop_shape E files0 :
  hoare (started files0) (for_in (py_range MAX_RETRIES) (navigate_attempt E))
    (fun r s => match r with
                | Ok (Some (Returned _)) => quit_once files0 s
                | _ => started files0 s
                end).
Proof.
  apply hoare_for_in; [|auto].
  intros a s Hs.
  destruct (navigate_attempt E a s) as [res s1] eqn:Hrun. cbn [fst snd].
  hn_compute Hrun.
  assert (Hd : driver s = Some tt) by apply Hs.
  destruct (driver_get E a) as [[]|e].
  - destruct (current_url E a) as [u|e].
    + inversion Hrun; subst. shape.
    + destruct e; hn_compute Hrun.
      all: try (inversion Hrun; subst; shape).
      all: destruct (a <? MAX_RETRIES - 1); cbn [st_emit driver] in Hrun;
        try rewrite Hd in Hrun; inversion Hrun; subst; shape.
  - destruct e; hn_compute Hrun.
    all: try (inversion Hrun; subst; shape).
    all: destruct (a <? MAX_RETRIES - 1); cbn [st_emit driver] in Hrun;
      try rewrite Hd in Hrun; inversion Hrun; subst; shape.
Qed.

Lemma find_loop_shape E files0 :
  hoare (started files0) (for_in (py_range MAX_RETRIES) (find_attempt E))
    (fun r s => match r with
                | Ok (Some (Returned _)) => quit_once files0 s
                | _ => started files0 s
                end).
Proof.
  apply hoare_for_in; [|auto].
  intros a s Hs.
  destruct (find_attempt E a s) as [res s1] eqn:Hrun. cbn [fst snd].
  hn_compute Hrun.
  assert (Hd : driver s = Some tt) by apply Hs.
  destruct (find_elements E a) as [[|r rs]|e].
  - inversion Hrun; subst. shape.
  - inversion Hrun; subst. shape.
  - destruct e; hn_compute Hrun.
    all: try (inversion Hrun; subst; shape).
    all: destruct (a <? MAX_RETRIES - 1); cbn [st_emit st_rows driver] in Hrun;
      try rewrite Hd in Hrun; inversion Hrun; subst; shape.
Qed.

Lemma extract_row_started E files0 r : preserves (started files0) (extract_row E r).
Proof. hn_preserves_all shape. Qed.

Lemma locate_and_extract_shape E files0 :
  hoare (started files0) (locate_and_extract E)
    (fun r s => match r with
                | Ok (Some _) => quit_once files0 s
                | _ => started files0 s
                end).
Proof.
  intros s Hs.
  destruct (locate_and_extract E s) as [res sf] eqn:Hrun. cbn [fst snd].
  unfold locate_and_extract in Hrun.
  pose proof (navigate_loop_shape E files0 s Hs) as Hnav.
  bind_split Hrun nav s1 H1.
  2:{ subst res. rewrite H1 in Hnav. exact Hnav. }
  rewrite H1 in Hnav. cbn [fst snd] in Hnav.
  assert (Hcont : started files0 s1 ->
    forall r s',
    (modify (st_items []) ;; modify (st_rows []) ;;
     found <- for_in (py_range MAX_RETRIES) (find_attempt E) ;;
     match found with
     | Some (Returned v) => ret (Some v)
     | _ =>
         located <- gets rows ;;
         match located with
         | [] =>
             log WARNING "No se procesaron noticias porque no se encontraron elementos." ;;
             quit_if_driver ;;
             ret (Some [])
         | _ => for_in located (extract_row E) ;; ret None
         end
     end) s1 = (r, s') ->
    match r with
    | Ok (Some _) => quit_once files0 s'
    | _ => started files0 s'
    end).
  { clear Hrun. intros Hs1 r s' Hrun.
    bind_split Hrun u1 s2 H2; [|discriminate H2].
    bind_split Hrun u2 s3 H3; [|discriminate H3].
    cbv [modify] in H2, H3. inversion H2; subst s2. inversion H3; subst s3.
    clear H2 H3.
    assert (Hs2 : started files0 (st_rows [] (st_items [] s1))) by shape.
    pose proof (find_loop_shape E files0 _ Hs2) as Hfind.
    bind_split Hrun found s4 Hf.
    2:{ subst r. rewrite Hf in Hfind. exact Hfind. }
    rewrite Hf in Hfind. cbn [fst snd] in Hfind.
    assert (Hrest : started files0 s4 ->
      forall (r0 : result (option (list headline))) s0,
      (located <- gets rows ;;
       match located with
       | [] =>
           log WARNING "No se procesaron noticias porque no se encontraron elementos." ;;
           quit_if_driver ;;
           ret (Some [])
       | _ => for_in located (extract_row E) ;; ret None
       end) s4 = (r0, s0) ->
      match r0 with
      | Ok (Some _) => quit_once files0 s0
      | _ => started files0 s0
      end).
    { clear Hrun. intros Hs4 r0 s0 Hrun.
      bind_split Hrun located s5 Hg; [|discriminate Hg].
      cbv [gets] in Hg. inversion Hg; subst located s5. clear Hg.
      destruct (rows s4) as [|r1 rs] eqn:Hrows.
      - assert (Hd : driver s4 = Some tt) by apply Hs4.
        hn_compute Hrun. cbn [st_emit driver] in Hrun. rewrite Hd in Hrun.
        inversion Hrun; subst. shape.
      - pose proof (preserves_for_in (started files0) (r1 :: rs) (extract_row E)
                      (extract_row_started E files0) s4 Hs4) as Hl.
        bind_split Hrun o s6 Hq.
        + rewrite Hq in Hl. cbv [ret] in Hrun. inversion Hrun; subst. exact Hl.
        + rewrite Hq in Hl. subst r0. exact Hl. }
    destruct found as [[|v]|].
    - apply Hrest; assumption.
    - cbv [ret] in Hrun. inversion Hrun; subst. exact Hfind.
    - apply Hrest; assumption. }
  destruct nav as [[|v]|].
  - apply Hcont; assumption.
  - cbv [ret] in Hrun. inversion Hrun; subst. exact Hnav.
  - apply Hcont; assumption.
Qed.

Lemma save_shape E out files0 s :
  started files0 s -> saved files0 out (snd (save E out s)).
Proof.
  intros Hs. destruct (save E out s) as [res s1] eqn:Hrun. cbn [snd].
  hn_compute Hrun.
  assert (Hfr : forall content p, p <> out ->
                  write_file (fs s) out content p = files0 p).
  { intros content p Hp. unfold write_file.
    destruct (String.eqb p out) eqn:He.
    - apply String.eqb_eq in He. congruence.
    - destruct Hs as [[Hfs _] _]. now rewrite Hfs. }
  assert (Hsame : forall p : string, p <> out -> fs s p = files0 p).
  { intros p _. destruct Hs as [[Hfs _] _]. now rewrite Hfs. }
  assert (Hin : forall pre post, In (EvOpenWrite out) ((pre ++ [EvOpenWrite out]) ++ post)).
  { intros pre post. apply in_or_app. left. apply in_or_app. right. now left. }
  assert (Hin0 : forall pre, In (EvOpenWrite out) (pre ++ [EvOpenWrite out])).
  { intros pre. apply in_or_app. right. now left. }
  destruct (open_write E) as [|e|e n].
  - inversion Hrun; subst. unfold saved. cbn [fs trace driver st_emit st_files].
    split; [apply Hfr|]. split; [shape|]. split; [apply Hin | apply Hs].
  - destruct e; inversion Hrun; subst; unfold saved;
      cbn [fs trace driver st_emit st_files];
      (split; [apply Hsame|]); (split; [shape|]);
      (split; [first [apply Hin | apply Hin0] | apply Hs]).
  - destruct e; inversion Hrun; subst; unfold saved;
      cbn [fs trace driver st_emit st_files];
      (split; [apply Hfr|]); (split; [shape|]);
      (split; [first [apply Hin | apply Hin0] | apply Hs]).
Qed.

Lemma scrape_shape E out files0 :
  hoare (started files0) (scrape E out) (fun _ s => before_release files0 out s).
Proof.
  intros s Hs. destruct (scrape E out s) as [res sf] eqn:Hrun. cbn [fst snd].
  unfold scrape in Hrun.
  pose proof (locate_and_extract_shape E files0 s Hs) as Hl.
  bind_split Hrun early s1 H1.
  - rewrite H1 in Hl. cbn [fst snd] in Hl. destruct early as [v|].
    + cbv [ret] in Hrun. inversion Hrun; subst. left. exact Hl.
    + right. right. pose proof (save_shape E out files0 s1 Hl) as Hsv.
      rewrite Hrun in Hsv. exact Hsv.
  - rewrite H1 in Hl. cbn [fst snd] in Hl. right. left. exact Hl.
Qed.

Lemma before_release_log files0 out s lv msg :
  before_release files0 out s -> before_release files0 out (st_emit (EvLog lv msg) s).
Proof.
  intros [H | [H | H]]; [left | right; left | right; right].
  - shape.
  - shape.
  - destruct H as (Hf & Hq & Hin & Hd). unfold saved. cbn [fs trace driver st_emit].
    split; [exact Hf|]. split; [shape|]. split; [|exact Hd].
    apply in_or_app. left. exact Hin.
Qed.

Lemma before_release_driver files0 out s :
  before_release files0 out s -> driver s = Some tt.
Proof. intros [H | [H | H]]; apply H. Qed.

(** The run, phase by phase: either it ends before a session exists, or
    it reaches the release of line 203 in one of the three states. *)
Lemma run_shape E out files0 :
  let run := scrape_hacker_news E out files0 in
  unstarted files0 (snd run)
  \/ exists s1, before_release files0 out s1 /\ snd run = released s1.
Proof.
  intros run. subst run.
  destruct (scrape_hacker_news E out files0) as [res sf] eqn:Hrun. cbn [snd].
  unfold scrape_hacker_news in Hrun.
  bind_split Hrun u s1 H1; [|discriminate H1].
  cbv [log emit modify] in H1. inversion H1; subst u s1. clear H1.
  set (s0 := st_emit _ (initial files0)) in *.
  assert (Hs0 : unstarted files0 s0) by (subst s0; shape).
  pose proof (acquire_shape E files0 s0 Hs0) as Hacq.
  bind_split Hrun early s1 Ha.
  2:{ rewrite Ha in Hacq. inversion Hrun; subst. left. exact Hacq. }
  rewrite Ha in Hacq. cbn [fst snd] in Hacq.
  destruct early as [v|].
  { cbv [ret] in Hrun. inversion Hrun; subst. left. exact Hacq. }
  right. unfold try_finally, try_except in Hrun.
  pose proof (scrape_shape E out files0 s1 Hacq) as Hs.
  destruct (scrape E out s1) as [[w|e] s2]; cbn [fst snd] in Hs.
  - exists s2. split; [exact Hs|].
    pose proof (before_release_driver _ _ _ Hs) as Hd.
    cbv [release bind gets emit log modify] in Hrun. rewrite Hd in Hrun.
    inversion Hrun; subst. reflexivity.
  - cbn [dispatch is_Exception] in Hrun. cbv [log emit modify bind ret] in Hrun.
    match type of Hrun with
    | context [release ?st] =>
        exists st; split; [apply before_release_log; exact Hs|];
        assert (Hd : driver st = Some tt)
          by (cbn [driver st_emit]; eapply before_release_driver; exact Hs)
    end.
    cbv [release bind gets emit log modify] in Hrun.
    cbn [driver st_emit] in Hd, Hrun. rewrite Hd in Hrun.
    inversion Hrun; subst. reflexivity.
Qed.

Lemma quits_released s : quits (released s) = S (quits s).
Proof.
  unfold quits, count_events, released. cbn [trace st_emit].
  rewrite !filter_app, !length_app. cbn. lia.
Qed.

Lemma quits_zero_no_quit s : quits s = 0%nat -> ~ In EvQuit (trace s).
Proof.
  unfold quits, count_events. intros Hq Hin.
  assert (Hf : In EvQuit (filter is_quit (trace s))) by (apply filter_In; split; auto).
  destruct (filter is_quit (trace s)); [destruct Hf | discriminate Hq].
Qed.

(** X21: the browser session of [scrape_hacker_news] is always released.
    Whatever the browser and the file system do, a run in which a session
    was started ends with [driver.quit] followed by the record of line 204;
    [quit] is called once or twice, and once exactly when the run reached
    the file write.  A run in which no session was started calls no
    [quit]. *)
Theorem session_is_released :
  forall (E : env) (output_file : string) (files0 : files),
    let s := snd (scrape_hacker_news E output_file files0) in
    (count_events is_quit (trace s) <= 2)%nat
    /\ (driver s = None -> count_events is_quit (trace s) = 0%nat)
    /\ (driver s = Some tt ->
        (1 <= count_events is_quit (trace s))%nat
        /\ exists pre, trace s = pre ++ [EvQuit; EvLog INFO "WebDriver cerrado."])
    /\ (In (EvOpenWrite output_file) (trace s) ->
        count_events is_quit (trace s) = 1%nat).
Proof.
  intros E out files0 s. subst s.
  destruct (run_shape E out files0) as [Hu | (s1 & Hb & Hr)].
  - destruct Hu as [(Hfs & Hq & Hno) Hd]. fold (quits (snd (scrape_hacker_news E out files0))).
    rewrite Hq. split; [lia|]. split; [reflexivity|]. split.
    + intros Hd'. congruence.
    + intros Hin. exfalso. exact (Hno _ Hin).
  - rewrite Hr. fold (quits (released s1)). rewrite quits_released.
    assert (Hq : (quits s1 <= 1)%nat).
    { destruct Hb as [H | [H | H]].
      - destruct H as (_ & Hq & _). lia.
      - destruct H as ((_ & Hq & _) & _). lia.
      - destruct H as (_ & Hq & _). lia. }
    split; [lia|]. split.
    + intros Hd. cbn in Hd. rewrite (before_release_driver _ _ _ Hb) in Hd. discriminate Hd.
    + split.
      * intros _. split; [lia|]. exists (trace s1). unfold released. cbn [trace st_emit].
        now rewrite <- app_assoc.
      * intros Hin. unfold released in Hin. cbn [trace st_emit] in Hin.
        destruct Hb as [H | [H | H]].
        -- exfalso. destruct H as (_ & _ & Hno & _).
           repeat (apply in_app_or in Hin; destruct Hin as [Hin|Hin]).
           ++ exact (Hno _ Hin).
           ++ simpl in Hin. intuition discriminate.
           ++ simpl in Hin. intuition discriminate.
        -- exfalso. destruct H as ((_ & _ & Hno) & _).
           repeat (apply in_app_or in Hin; destruct Hin as [Hin|Hin]).
           ++ exact (Hno _ Hin).
           ++ simpl in Hin. intuition discriminate.
           ++ simpl in Hin. intuition discriminate.
        -- destruct H as (_ & Hq0 & _). lia.
Qed.

Lemma session_is_released_witness :
  let s := snd (scrape_hacker_news (env_rows [row_scored] (OpenRaises OSError))
                  "hacker_news.json" no_files) in
  count_events is_quit (trace s) = 1%nat.
Proof.
  intros s.
  apply (proj2 (proj2 (proj2 (session_is_released (env_rows [row_scored] (OpenRaises OSError))
                                 "hacker_news.json" no_files)))).
  vm_compute. tauto.
Defined.

(** X22: however a run of [scrape_hacker_news] ends, every file other
    than [output_file] is as it was before the run; and in a run that
    opens no file for writing, so in every run that returns before the
    file write, [output_file] is as it was too. *)
Theorem scrape_hacker_news_touches_its_output_only :
  forall (E : env) (output_file : string) (files0 : files),
    let s := snd (scrape_hacker_news E output_file files0) in
    (forall p, p <> output_file -> fs s p = files0 p)
    /\ ((forall p, ~ In (EvOpenWrite p) (trace s)) -> fs s = files0).
Proof.
  intros E out files0 s. subst s.
  destruct (run_shape E out files0) as [Hu | (s1 & Hb & Hr)].
  - destruct Hu as [(Hfs & _) _]. split; intros; now rewrite Hfs.
  - rewrite Hr. unfold released. cbn [fs trace st_emit].
    destruct Hb as [H | [H | H]].
    + destruct H as (Hfs & _). split; intros; now rewrite Hfs.
    + destruct H as ((Hfs & _) & _). split; intros; now rewrite Hfs.
    + destruct H as (Hfr & _ & Hin & _). split; [exact Hfr|].
      intros Hno. exfalso. apply (Hno out).
      apply in_or_app. left. apply in_or_app. left. exact Hin.
Qed.

Lemma scrape_hacker_news_touches_its_output_only_witness :
  fs (snd (scrape_hacker_news env_navigation_down "hacker_news.json"
             BooksSpec.files_of_earlier_run))
  = BooksSpec.files_of_earlier_run.
Proof.
  apply (proj2 (scrape_hacker_news_touches_its_output_only env_navigation_down
                  "hacker_news.json" BooksSpec.files_of_earlier_run)).
  intros p Hin. vm_compute in Hin. intuition discriminate.
Defined.

(** ** A write that fails otherwise *)

(** X23: a write failure that is no IOError costs the result.  When the
    file write of [scrape_hacker_news] raises something else, as
    [json.dump] does with a UnicodeEncodeError on a title it cannot
    encode, the clause of line 195 takes it: the error is logged and the
    function returns the empty list, whatever it had collected. *)
Theorem other_write_failure_returns_nothing :
  forall (E : env) (output_file : string) (files0 : files) (e : exn),
    is_IOError e = false ->
    (open_write E = OpenRaises e \/ exists n, open_write E = DumpRaises e n) ->
    In (EvOpenWrite output_file) (trace (snd (scrape_hacker_news E output_file files0))) ->
    let run := scrape_hacker_news E output_file files0 in
    fst run = Ok []
    /\ In (EvLog ERROR "Ocurrió un error general durante el scraping: ") (trace (snd run))
    /\ news_items (snd run)
       = news_items (snd (scrape_hacker_news (with_open_write E WriteOk) output_file files0))
    /\ fst (scrape_hacker_news (with_open_write E WriteOk) output_file files0)
       = Ok (news_items (snd run)).
Proof.
  intros E out files0 e He Hw Hreach run. subst run.
  destruct (scrape_hacker_news_cases E out files0) as [Hno | (s2 & Hcases)].
  { exfalso. exact (Hno out Hreach). }
  pose proof (Hcases (open_write E)) as Hfail. rewrite with_open_write_same in Hfail.
  pose proof (Hcases WriteOk) as Hok.
  rewrite Hok, Hfail. clear Hok Hfail Hcases Hreach.
  assert (Hsave : exists s3,
            save E out s2 = (Raise e, s3) /\ news_items s3 = news_items s2).
  { destruct (save E out s2) as [res s3] eqn:Hrun. hn_compute Hrun.
    destruct Hw as [Hw | (n & Hw)]; rewrite Hw in Hrun; hn_compute Hrun;
      destruct e; try discriminate He; inversion Hrun; subst;
      eexists; split; reflexivity. }
  destruct Hsave as (s3 & Hs & Hi). rewrite Hs.
  destruct (save_written (with_open_write E WriteOk) out s2 eq_refl) as (Hr & _).
  destruct (save (with_open_write E WriteOk) out s2) as [r4 s4] eqn:Hs4.
  cbn [fst] in Hr. subst r4.
  assert (Hi4 : news_items s4 = news_items s2).
  { clear Hs. hn_compute Hs4. inversion Hs4; subst. reflexivity. }
  cbn [fst snd].
  match goal with
  | |- context [release ?st] =>
      destruct (release_frame st) as (_ & _ & Hn1 & evs & Ht1)
  end.
  destruct (release_frame s4) as (_ & _ & Hn4 & _).
  rewrite Hn1, Hn4. cbn [news_items trace st_emit] in *. rewrite Hi, Hi4.
  split; [reflexivity|]. split; [|split; reflexivity].
  rewrite Ht1. apply in_or_app. left. apply in_or_app. right. now left.
Qed.

Lemma other_write_failure_returns_nothing_witness :
  let E := env_rows [row_scored] (DumpRaises ValueError 10) in
  fst (scrape_hacker_news E "hacker_news.json" no_files) = Ok []
  /\ List.length (news_items (snd (scrape_hacker_news E "hacker_news.json" no_files)))
     = 1%nat.
Proof.
  intros E.
  destruct (other_write_failure_returns_nothing E "hacker_news.json" no_files ValueError
              eq_refl) as (Hr & _ & _ & _).
  - right. exists 10%nat. reflexivity.
  - vm_compute. tauto.
  - split; [exact Hr | reflexivity].
Defined.

(** ** A page without rows *)

Ltac hn_run :=
  cbv beta iota zeta delta
    [scrape_hacker_news acquire locate_and_extract scrape
     start_attempt navigate_attempt find_attempt quit_if_driver release save
     dump_to_file sleep log emit for_in
     try_except try_finally dispatch bind eval modify gets ret raise
     is_WebDriverException is_TimeoutException is_NoSuchElementException
     is_IOError is_Exception orb andb
     driver rows trace fs news_items st_emit st_driver st_rows st_items initial fst snd].

(** X25: a page on which no row is ever found.  When the browser starts
    and the page loads at the first attempt and each of the three row
    lookups finds nothing, [scrape_hacker_news] waits after each lookup,
    the last one too, then returns the empty list without a file write;
    [driver.quit] is called at line 137 and again in the [finally]
    clause. *)
Theorem no_row_returns_nothing :
  forall (E : env) (output_file : string) (files0 : files) (u : string),
    start_driver E 0 = Ok tt ->
    driver_get E 0 = Ok tt ->
    current_url E 0 = Ok u ->
    (forall a, find_elements E a = Ok []) ->
    let run := scrape_hacker_news E output_file files0 in
    fst run = Ok []
    /\ fs (snd run) = files0
    /\ trace (snd run)
       = [ EvLog INFO "Iniciando el scraping de Hacker News...";
           EvLog INFO "Intento "; EvStartDriver;
           EvLog INFO "WebDriver iniciado correctamente.";
           EvLog INFO "Intento "; EvNavigate hn_url;
           EvLog INFO "Navegación a "; EvSleep 2;
           EvLog INFO "Intento "; EvFindRows;
           EvLog WARNING "No se encontraron elementos de noticias, reintentando...";
           EvSleep 2;
           EvLog INFO "Intento "; EvFindRows;
           EvLog WARNING "No se encontraron elementos de noticias, reintentando...";
           EvSleep 2;
           EvLog INFO "Intento "; EvFindRows;
           EvLog WARNING "No se encontraron elementos de noticias, reintentando...";
           EvSleep 2;
           EvLog WARNING "No se procesaron noticias porque no se encontraron elementos.";
           EvQuit; EvQuit; EvLog INFO "WebDriver cerrado." ].
Proof.
  intros E out files0 u Hs Hg Hu Hf run. subst run.
  unfold scrape_hacker_news, acquire, scrape, locate_and_extract.
  change (py_range MAX_RETRIES) with [0; 1; 2].
  hn_run. rewrite Hs. hn_run. rewrite Hg. hn_run. rewrite Hu. hn_run.
  rewrite !Hf. hn_run. cbn. repeat split; reflexivity.
Qed.

Lemma no_row_returns_nothing_witness :
  fst (scrape_hacker_news (env_rows [] WriteOk) "hacker_news.json"
         BooksSpec.files_of_earlier_run) = Ok []
  /\ fs (snd (scrape_hacker_news (env_rows [] WriteOk) "hacker_news.json"
                BooksSpec.files_of_earlier_run))
     = BooksSpec.files_of_earlier_run.
Proof.
  destruct (no_row_returns_nothing (env_rows [] WriteOk) "hacker_news.json"
              BooksSpec.files_of_earlier_run hn_url eq_refl eq_refl eq_refl
              (fun _ => eq_refl)) as (Hr & Hfs & _).
  split; assumption.
Defined.

(** ** Bounded retries *)

Lemma adds_weaken p k k' {A} (m : M state A) :
  (k <= k')%nat -> adds p k m -> adds p k' m.
Proof. intros Hk Hm s. specialize (Hm s). lia. Qed.

Lemma adds_of_preserves p {A} (m : M state A) :
  (forall n, preserves (at_most p n) m) -> adds p 0 m.
Proof.
  intros Hm s. specialize (Hm (count_events p (trace s)) s). unfold at_most in Hm.
  rewrite Nat.add_0_r. apply Hm. lia.
Qed.

Lemma adds_bind p k1 k2 {A B} (m : M state A) (f : A -> M state B) :
  adds p k1 m -> (forall a, adds p k2 (f a)) -> adds p (k1 + k2) (bind m f).
Proof.
  intros Hm Hf s. unfold bind. specialize (Hm s).
  destruct (m s) as [[a|e] s1]; cbn [snd] in *.
  - specialize (Hf a s1). lia.
  - lia.
Qed.

Lemma adds_for_in p {A B} (xs : list A) (body : A -> M state (ctl B)) :
  (forall x, adds p 1 (body x)) -> adds p (List.length xs) (for_in xs body).
Proof.
  intros Hb. induction xs as [|x xs IH]; intros s; cbn [for_in List.length].
  - cbv [ret]. cbn. lia.
  - unfold bind. specialize (Hb x s).
    destruct (body x s) as [[[|b]|e] s1]; cbn [snd] in *.
    + specialize (IH s1). lia.
    + cbv [ret]. cbn. lia.
    + lia.
Qed.

Lemma adds_try_except1 p k1 k2 {A} (body : M state A) catches handler :
  adds p k1 body -> (forall e, adds p k2 (handler e)) ->
  adds p (k1 + k2) (try_except body [(catches, handler)]).
Proof.
  intros Hb Hh s. unfold try_except. specialize (Hb s).
  destruct (body s) as [[a|e] s1]; cbn [snd dispatch] in *.
  - lia.
  - destruct (catches e).
    + specialize (Hh e s1). lia.
    + cbv [raise]. cbn. lia.
Qed.

Lemma adds_try_finally p k1 k2 {A} (body : M state A) cleanup :
  adds p k1 body -> adds p k2 cleanup -> adds p (k1 + k2) (try_finally body cleanup).
Proof.
  intros Hb Hc s. unfold try_finally. specialize (Hb s).
  destruct (body s) as [r s1]. cbn [snd] in Hb. specialize (Hc s1).
  destruct (cleanup s1) as [[u|e] s2]; cbn [snd] in *; lia.
Qed.

Ltac count_closer :=
  unfold at_most, count_events in *; simpl;
  rewrite ?filter_app, ?length_app; simpl; lia.

Ltac hn_all closer :=
  repeat (first
    [ progress unfold acquire, release, locate_and_extract, scrape, save, dump_to_file,
        start_attempt, navigate_attempt, find_attempt, extract_row, extract_score,
        quit_if_driver, sleep, log, emit
    | preserves_step ];
    try solve [closer]).

Ltac one_attempt Hrun s :=
  hn_compute Hrun;
  repeat match type of Hrun with
         | context [match ?x with _ => _ end] =>
             lazymatch x with
             | start_driver _ _ => destruct x as [[]|[]]
             | driver_get _ _ => destruct x as [[]|[]]
             | current_url _ _ => destruct x as [?|[]]
             | find_elements _ _ => destruct x as [[|? ?]|[]]
             end; hn_compute Hrun
         end;
  repeat match type of Hrun with
         | context [if ?c then _ else _] => destruct c; hn_compute Hrun
         end;
  try destruct (driver s);
  inversion Hrun; subst; cbn [snd]; count_closer.

Lemma start_attempt_adds E a : adds is_start 1 (start_attempt E a).
Proof.
  intros s. destruct (start_attempt E a s) as [res s1] eqn:Hrun. cbn [snd].
  one_attempt Hrun s.
Qed.

Lemma navigate_attempt_adds E a : adds is_navigate 1 (navigate_attempt E a).
Proof.
  intros s. destruct (navigate_attempt E a s) as [res s1] eqn:Hrun. cbn [snd].
  one_attempt Hrun s.
Qed.

Lemma find_attempt_adds E a : adds is_find_rows 1 (find_attempt E a).
Proof.
  intros s. destruct (find_attempt E a s) as [res s1] eqn:Hrun. cbn [snd].
  one_attempt Hrun s.
Qed.

Lemma loop_length : List.length (py_range MAX_RETRIES) = Z.to_nat MAX_RETRIES.
Proof. reflexivity. Qed.

Lemma run_starts E out files0 :
  (count_events is_start (trace (snd (scrape_hacker_news E out files0)))
   <= Z.to_nat MAX_RETRIES)%nat.
Proof.
  assert (H : adds is_start (0 + (3 + 0))
                (log INFO "Iniciando el scraping de Hacker News..." ;;
                 early <- acquire E ;;
                 match early with
                 | Some v => ret v
                 | None =>
                     try_finally
                       (try_except (scrape E out)
                          [ (is_Exception,
                             fun e =>
                               log ERROR "Ocurrió un error general durante el scraping: " ;;
                               ret []) ])
                       release
                 end)).
  { apply adds_bind; [apply adds_of_preserves; intros n; hn_all count_closer|].
    intros _. apply adds_bind.
    - unfold acquire. apply (adds_bind is_start 0 3);
        [apply adds_of_preserves; intros n; hn_all count_closer|].
      intros _. apply (adds_bind is_start 3 0).
      + apply (adds_for_in is_start (py_range MAX_RETRIES)).
        intros a. apply start_attempt_adds.
      + intros started. apply adds_of_preserves. intros n. hn_all count_closer.
    - intros early. apply adds_of_preserves. intros n. hn_all count_closer. }
  specialize (H (initial files0)). exact H.
Qed.

Lemma run_navigates E out files0 :
  (count_events is_navigate (trace (snd (scrape_hacker_news E out files0)))
   <= Z.to_nat MAX_RETRIES)%nat.
Proof.
  assert (Hloc : adds is_navigate (3 + 0) (locate_and_extract E)).
  { unfold locate_and_extract. apply adds_bind.
    - apply (adds_for_in is_navigate (py_range MAX_RETRIES)).
      intros a. apply navigate_attempt_adds.
    - intros nav. apply adds_of_preserves. intros n. hn_all count_closer. }
  assert (H : adds is_navigate (0 + (0 + (((3 + 0) + 0) + 0 + 0)))
                (log INFO "Iniciando el scraping de Hacker News..." ;;
                 early <- acquire E ;;
                 match early with
                 | Some v => ret v
                 | None =>
                     try_finally
                       (try_except (scrape E out)
                          [ (is_Exception,
                             fun e =>
                               log ERROR "Ocurrió un error general durante el scraping: " ;;
                               ret []) ])
                       release
                 end)).
  { apply adds_bind; [apply adds_of_preserves; intros n; hn_all count_closer|].
    intros _. apply adds_bind;
      [apply adds_of_preserves; intros n; hn_all count_closer|].
    intros [v|].
    - apply adds_weaken with (k := 0%nat); [lia|].
      apply adds_of_preserves. intros n. hn_all count_closer.
    - apply adds_try_finally; [|apply adds_of_preserves; intros n; hn_all count_closer].
      apply adds_try_except1;
        [|intros e; apply adds_of_preserves; intros n; hn_all count_closer].
      unfold scrape. apply adds_bind; [exact Hloc|].
      intros early. apply adds_of_preserves. intros n. hn_all count_closer. }
  specialize (H (initial files0)). exact H.
Qed.

Lemma run_finds E out files0 :
  (count_events is_find_rows (trace (snd (scrape_hacker_news E out files0)))
   <= Z.to_nat MAX_RETRIES)%nat.
Proof.
  assert (Hrest : forall nav : option leave,
            adds is_find_rows (0 + (0 + (3 + 0)))
              (match nav with
               | Some (Returned v) => ret (Some v)
               | _ =>
                   modify (st_items []) ;;
                   modify (st_rows []) ;;
                   found <- for_in (py_range MAX_RETRIES) (find_attempt E) ;;
                   match found with
                   | Some (Returned v) => ret (Some v)
                   | _ =>
                       located <- gets rows ;;
                       match located with
                       | [] =>
                           log WARNING
                             "No se procesaron noticias porque no se encontraron elementos." ;;
                           quit_if_driver ;;
                           ret (Some [])
                       | _ => for_in located (extract_row E) ;; ret None
                       end
                   end
               end)).
  { assert (Hfind :
      adds is_find_rows (0 + (0 + (3 + 0)))
        (modify (st_items []) ;;
         modify (st_rows []) ;;
         found <- for_in (py_range MAX_RETRIES) (find_attempt E) ;;
         match found with
         | Some (Returned v) => ret (Some v)
         | _ =>
             located <- gets rows ;;
             match located with
             | [] =>
                 log WARNING
                   "No se procesaron noticias porque no se encontraron elementos." ;;
                 quit_if_driver ;;
                 ret (Some [])
             | _ => for_in located (extract_row E) ;; ret None
             end
         end)).
    { apply adds_bind; [apply adds_of_preserves; intros n; hn_all count_closer|].
      intros _. apply adds_bind;
        [apply adds_of_preserves; intros n; hn_all count_closer|].
      intros _. apply adds_bind.
      - apply (adds_for_in is_find_rows (py_range MAX_RETRIES)).
        intros a. apply find_attempt_adds.
      - intros found. apply adds_of_preserves. intros n. hn_all count_closer. }
    intros [[|v]|]; try exact Hfind.
    apply adds_weaken with (k := 0%nat); [lia|].
    apply adds_of_preserves. intros n. hn_all count_closer. }
  assert (Hloc : adds is_find_rows (0 + (0 + (0 + (3 + 0)))) (locate_and_extract E)).
  { unfold locate_and_extract. apply adds_bind.
    - apply adds_of_preserves. intros n. hn_all count_closer.
    - exact Hrest. }
  assert (H : adds is_find_rows (0 + (0 + (((0 + (0 + (0 + (3 + 0)))) + 0) + 0 + 0)))
                (log INFO "Iniciando el scraping de Hacker News..." ;;
                 early <- acquire E ;;
                 match early with
                 | Some v => ret v
                 | None =>
                     try_finally
                       (try_except (scrape E out)
                          [ (is_Exception,
                             fun e =>
                               log ERROR "Ocurrió un error general durante el scraping: " ;;
                               ret []) ])
                       release
                 end)).
  { apply adds_bind; [apply adds_of_preserves; intros n; hn_all count_closer|].
    intros _. apply adds_bind;
      [apply adds_of_preserves; intros n; hn_all count_closer|].
    intros [v|].
    - apply adds_weaken with (k := 0%nat); [lia|].
      apply adds_of_preserves. intros n. hn_all count_closer.
    - apply adds_try_finally; [|apply adds_of_preserves; intros n; hn_all count_closer].
      apply adds_try_except1;
        [|intros e; apply adds_of_preserves; intros n; hn_all count_closer].
      unfold scrape. apply adds_bind; [exact Hloc|].
      intros early. apply adds_of_preserves. intros n. hn_all count_closer. }
  specialize (H (initial files0)). exact H.
Qed.

(** X26: the retries of [scrape_hacker_news] are bounded.  Whatever the
    browser does, a run starts the browser at most MAX_RETRIES times, asks
    for the page at most MAX_RETRIES times and looks the rows up at most
    MAX_RETRIES times. *)
Theorem attempts_are_bounded :
  forall (E : env) (output_file : string) (files0 : files),
    let tr := trace (snd (scrape_hacker_news E output_file files0)) in
    (count_events is_start tr <= Z.to_nat MAX_RETRIES)%nat
    /\ (count_events is_navigate tr <= Z.to_nat MAX_RETRIES)%nat
    /\ (count_events is_find_rows tr <= Z.to_nat MAX_RETRIES)%nat.
Proof.
  intros E out files0 tr. subst tr.
  split; [apply run_starts|]. split; [apply run_navigates | apply run_finds].
Qed.

End HNMore.
